(** * pm25ml: temporal partition combination and imputation orchestration

    A shallow embedding of the planning, merging, spatial gap-fill and
    regression-imputation orchestrators of [pm25ml], with the properties
    of their specification stated and proved over it.

    Conventions of the embedding:
    - Python exceptions are values of [exn]; a fallible computation returns
      [res A] and is sequenced with [x ← c; k].
    - [str] is [string] (bytes; the order on UTF-8 bytes is the order on code
      points, which is the order Python's [<] uses on [str]).
    - Python [int] is [Z]; Python [float] is modelled by the rationals [Q]
      (rounding, infinities and NaN are outside the model).
    - A polars [DataFrame] is a list of column names and a list of rows; a
      row maps a column name to its value and a null cell is an absent key. *)

From Stdlib Require Import ZArith QArith Qround Lia Permutation Ascii.
From Stdlib Require OrderedTypeEx.
From stdpp Require Import base option list gmap strings pretty sorting.

Close Scope Q_scope.
Local Open Scope string_scope.
Local Open Scope Z_scope.

(** ** Exceptions and the error monad *)

Inductive exn : Type :=
  | ValueError (msg : string)
  | SpatialImputationValidationError (msg : string)
  | StopIteration
  | KeyError (key : string)
  | IndexError
  | FileNotFoundError (path : string)
  | PolarsError (msg : string).

Inductive res (A : Type) : Type :=
  | Ok (a : A)
  | Err (e : exn).
Arguments Ok {A} a.
Arguments Err {A} e.

#[global] Instance res_ret : MRet res := λ A a, Ok a.
#[global] Instance res_bind : MBind res := λ A B k c,
  match c with
  | Ok a => k a
  | Err e => Err e
  end.

Definition is_ok {A : Type} (c : res A) : bool :=
  match c with Ok _ => true | Err _ => false end.

(** [contains needle hay]: the text [needle] occurs in [hay] (what
    [pytest.raises(..., match=needle)] observes for a literal needle). *)
Definition contains (needle hay : string) : Prop :=
  ∃ pre post, hay = pre +:+ needle +:+ post.

(** The truth value of [dict.get(key)] for a [dict[str, str]]: [None] and
    the empty string are false. *)
Definition truthy (o : option string) : bool :=
  match o with
  | Some s => negb (String.eqb s "")
  | None => false
  end.

(** ** Dates: the part of [arrow.Arrow] the orchestrators use *)

Module Calendar.

(** An [Arrow] in UTC: a proleptic Gregorian date and the microsecond of
    the day.  The year range limit of [datetime] is not modelled. *)
Record Arrow : Type := mkArrow {
  year : Z;
  month : Z;
  day : Z;
  microsecond_of_day : Z
}.

Definition DAY_US : Z := 86400 * 1000000.

(** [datetime._is_leap] *)
Definition _is_leap (y : Z) : bool :=
  (y mod 4 =? 0) && (negb (y mod 100 =? 0) || (y mod 400 =? 0)).

(** [datetime._days_before_year] *)
Definition _days_before_year (y : Z) : Z :=
  let y' := y - 1 in y' * 365 + y' / 4 - y' / 100 + y' / 400.

(** [datetime._DAYS_IN_MONTH] and [datetime._days_in_month]: the number of
    days of a calendar month. *)
Definition _days_in_month (y m : Z) : Z :=
  if (m =? 2) && _is_leap y then 29
  else match m with
       | 1 => 31 | 2 => 28 | 3 => 31 | 4 => 30 | 5 => 31 | 6 => 30
       | 7 => 31 | 8 => 31 | 9 => 30 | 10 => 31 | 11 => 30 | 12 => 31
       | _ => 0
       end.

(** [datetime._DAYS_BEFORE_MONTH] and [datetime._days_before_month] *)
Definition _days_before_month (y m : Z) : Z :=
  match m with
  | 1 => 0 | 2 => 31 | 3 => 59 | 4 => 90 | 5 => 120 | 6 => 151
  | 7 => 181 | 8 => 212 | 9 => 243 | 10 => 273 | 11 => 304 | 12 => 334
  | _ => 0
  end + (if (2 <? m) && _is_leap y then 1 else 0).

(** [datetime._ymd2ord] *)
Definition _ymd2ord (y m d : Z) : Z :=
  _days_before_year y + _days_before_month y m + d.

Definition toordinal (a : Arrow) : Z := _ymd2ord (year a) (month a) (day a).

(** The position of an [Arrow] on the timeline, in microseconds; the
    difference of two [Arrow]s is the difference of their positions. *)
Definition instant (a : Arrow) : Z := toordinal a * DAY_US + microsecond_of_day a.

(** [timedelta.days] of a difference of [us] microseconds: a [timedelta] is
    normalised with a floor division. *)
Definition timedelta_days (us : Z) : Z := us / DAY_US.

(** [Arrow.floor("month")] *)
Definition floor_month (a : Arrow) : Arrow :=
  {| year := year a; month := month a; day := 1; microsecond_of_day := 0 |}.

(** [Arrow.shift(months=n)] ([dateutil.relativedelta]): the month moves by
    [n] with carry into the year, and the day is clipped to the length of the
    month reached. *)
Definition shift_months (n : Z) (a : Arrow) : Arrow :=
  let k := month a - 1 + n in
  let y := year a + k / 12 in
  let m := k mod 12 + 1 in
  {| year := y; month := m; day := Z.min (day a) (_days_in_month y m);
     microsecond_of_day := microsecond_of_day a |}.

(** [Arrow.replace(day=d)] *)
Definition replace_day (d : Z) (a : Arrow) : Arrow :=
  {| year := year a; month := month a; day := d;
     microsecond_of_day := microsecond_of_day a |}.

(** The position of [Arrow.ceil("month")]: [Arrow.span] shifts the floor by
    one month and steps back one microsecond. *)
Definition ceil_month_instant (a : Arrow) : Z :=
  instant (shift_months 1 (floor_month a)) - 1.

Definition valid_month (y m : Z) : Prop := 1 ≤ y ∧ 1 ≤ m ≤ 12.

(** Two decimal digits, zero padded; four for the year. *)
Definition pad (width : nat) (s : string) : string :=
  String.concat "" (replicate (width - String.length s) "0") +:+ s.

(** [Arrow.format("YYYY-MM")] *)
Definition format_YYYY_MM (y m : Z) : string :=
  pad 4 (pretty y) +:+ "-" +:+ pad 2 (pretty m).

End Calendar.

(** Proof automation for the calendar arithmetic. *)

Module CalendarTactics.

(** Evaluates the arithmetic of closed numerals, which [cbn] leaves alone. *)
Ltac is_numeral a :=
  lazymatch a with Z0 => idtac | Zpos _ => idtac | Zneg _ => idtac end.

Ltac eval_closed_arith :=
  repeat match goal with
  | |- context [?f ?a ?b] =>
      lazymatch f with
      | Z.add => idtac | Z.sub => idtac | Z.modulo => idtac | Z.div => idtac
      | Z.min => idtac | Z.eqb => idtac | Z.ltb => idtac
      end;
      is_numeral a; is_numeral b;
      let v := eval vm_compute in (f a b) in
      progress change (f a b) with v
  end.

End CalendarTactics.

(** ** Combine planner ([combiners/archive/combine_planner.py]) *)

Module Planner.
Import Calendar.

(** Modelled from the spec: [pm25ml.hive_path.HivePath], a partition
    reference made of key/value pairs whose equality is structural; only its
    [metadata] dictionary is used by the planner. *)
Record HivePath : Type := mkHivePath { metadata : gmap string string }.

(** Modelled from the spec: [MissingDataHeuristic], the per-dataset policy,
    either strict or copy-latest-available-before. *)
Inductive MissingDataHeuristic : Type :=
  | STRICT
  | COPY_LATEST_AVAILABLE_BEFORE.

(** Modelled from the spec: [DataCompleteness] and its [data_available]. *)
Inductive DataCompleteness : Type :=
  | COMPLETE
  | EMPTY.

Definition data_available (c : DataCompleteness) : bool :=
  match c with COMPLETE => true | EMPTY => false end.

Record PipelineConsumerBehaviour : Type := mkBehaviour {
  missing_data_heuristic : MissingDataHeuristic
}.

Record PipelineConfig : Type := mkPipelineConfig {
  hive_path : HivePath;
  id_columns : list string;
  value_column_type_map : list string;
  expected_rows_of_config : Z;
  consumer_behaviour : PipelineConsumerBehaviour
}.

Record UploadResult : Type := mkUploadResult {
  pipeline_config : PipelineConfig;
  completeness : DataCompleteness
}.

Definition meta (r : UploadResult) : gmap string string :=
  metadata (hive_path (pipeline_config r)).

Definition heuristic_eqb (a b : MissingDataHeuristic) : bool :=
  match a, b with
  | STRICT, STRICT | COPY_LATEST_AVAILABLE_BEFORE, COPY_LATEST_AVAILABLE_BEFORE => true
  | _, _ => false
  end.

Record _DatasetResultGroup : Type := mkGroup {
  dataset : string;
  results : list UploadResult
}.

Definition dataset_key_error : string :=
  "Cannot determine dataset key for results. " +:+
  "All results must have the same metadata key for 'type', 'month', or 'year'.".

(** [_DatasetResultGroup.dataset_key] *)
Definition dataset_key (g : _DatasetResultGroup) : res string :=
  if forallb (λ r, bool_decide (meta r !! "type" = Some "static")) (results g)
  then Ok "type"
  else if forallb (λ r, truthy (meta r !! "month")) (results g)
  then Ok "month"
  else if forallb (λ r, truthy (meta r !! "year")) (results g)
  then Ok "year"
  else Err (ValueError dataset_key_error).

(** [_month_format] *)
Definition _month_format (a : Arrow) : string :=
  format_YYYY_MM (year a) (month a).

Definition extract_value_error : string :=
  "Cannot extract value for dataset key. " +:+
  "Dataset key must be one of 'type', 'month', or 'year'.".

(** [_DatasetResultGroup.extract_value]; the property [dataset_key] is
    evaluated anew at each use. *)
Definition extract_value (g : _DatasetResultGroup) (a : Arrow) : res string :=
  k1 ← dataset_key g;
  if String.eqb k1 "type" then Ok "static"
  else
    k2 ← dataset_key g;
    if String.eqb k2 "month" then Ok (_month_format a)
    else
      k3 ← dataset_key g;
      if String.eqb k3 "year" then Ok (pretty (year a))
      else Err (ValueError extract_value_error).

(** [next(result for result in results if metadata.get(key) == value)] *)
Definition actual_match (key value : string) (rs : list UploadResult)
  : res UploadResult :=
  match List.find (λ r, bool_decide (meta r !! key = Some value)) rs with
  | Some r => Ok r
  | None => Err StopIteration
  end.

(** [hive_path.metadata[key]] *)
Definition metadata_item (key : string) (p : HivePath) : res string :=
  match metadata p !! key with
  | Some v => Ok v
  | None => Err (KeyError key)
  end.

(** The generator [earlier_available_paths]: [and] does not evaluate the
    subscript for a result without data. *)
Fixpoint earlier_available_paths (key value : string) (rs : list UploadResult)
  : res (list HivePath) :=
  match rs with
  | [] => Ok []
  | r :: rs' =>
      keep ← (if data_available (completeness r)
              then v ← metadata_item key (hive_path (pipeline_config r));
                   Ok (String.ltb v value)
              else Ok false);
      rest ← earlier_available_paths key value rs';
      Ok (if keep : bool then hive_path (pipeline_config r) :: rest else rest)
  end.

(** Python's [max(iterable, key=...)]: the first item whose key no later item
    exceeds; an empty iterable is a [ValueError]. *)
Fixpoint max_go (key : string) (best : HivePath) (best_key : string)
    (ps : list HivePath) : res HivePath :=
  match ps with
  | [] => Ok best
  | p :: ps' =>
      k ← metadata_item key p;
      if String.ltb best_key k then max_go key p k ps' else max_go key best best_key ps'
  end.

Definition max_by_metadata (key : string) (ps : list HivePath) : res HivePath :=
  match ps with
  | [] => Err (ValueError "max() arg is an empty sequence")
  | p :: ps' => k ← metadata_item key p; max_go key p k ps'
  end.

Definition no_match_error (g : _DatasetResultGroup) (key value : string) : string :=
  "No matching HivePath found for '" +:+ dataset g +:+ "' with '" +:+ key +:+
  "'='" +:+ value +:+ "'. " +:+
  "All results for this dataset are empty or do not match the expected key-value pair.".

(** [_DatasetResultGroup.get_best_matching] *)
Definition get_best_matching (g : _DatasetResultGroup) (a : Arrow) : res HivePath :=
  key ← dataset_key g;
  value ← extract_value g a;
  m ← actual_match key value (results g);
  if data_available (completeness m) then Ok (hive_path (pipeline_config m))
  else
    if heuristic_eqb (missing_data_heuristic (consumer_behaviour (pipeline_config m)))
                     COPY_LATEST_AVAILABLE_BEFORE
    then
      earlier ← earlier_available_paths key value (results g);
      max_by_metadata key earlier
    else Err (ValueError (no_match_error g key value)).

(** [CombinePlan]; [VALID_COUNTRIES["india"]], the fixed number of grid cells
    of the country, is a constant of a module outside this development and is
    taken as a parameter. *)
Record CombinePlan : Type := mkCombinePlan {
  plan_month : Arrow;
  paths : list HivePath;
  expected_columns : list string
}.

(** [CombinePlan.days_in_month] *)
Definition days_in_month (p : CombinePlan) : Z :=
  timedelta_days (ceil_month_instant (plan_month p) - instant (floor_month (plan_month p))) + 1.

(** [CombinePlan.expected_rows] *)
Definition expected_rows (india_grid_cells : Z) (p : CombinePlan) : Z :=
  india_grid_cells * days_in_month p.

End Planner.

(** Predicates and sample data in which the planner's properties are stated. *)

Module PlannerSpec.
Import Calendar Planner.

Definition all_static (g : _DatasetResultGroup) : Prop :=
  ∀ r, r ∈ results g → meta r !! "type" = Some "static".

Definition all_have_key (k : string) (g : _DatasetResultGroup) : Prop :=
  ∀ r, r ∈ results g → is_Some (meta r !! k).

Definition all_have_value (k : string) (g : _DatasetResultGroup) : Prop :=
  ∀ r, r ∈ results g → ∃ v, meta r !! k = Some v ∧ v ≠ "".

(** A group whose only member carries an empty [month] value next to its
    [year]: the member has a [month] key, yet [dataset_key] passes on to
    [year]. *)
Definition empty_month_member : UploadResult :=
  mkUploadResult
    (mkPipelineConfig
       (mkHivePath (<["dataset" := "d"]> (<["month" := ""]> (<["year" := "2023"]> ∅))))
       ["grid_id"] ["v"] 1 (mkBehaviour STRICT))
    COMPLETE.

Definition empty_month_group : _DatasetResultGroup :=
  mkGroup "d" [empty_month_member].

Definition path_of (r : UploadResult) : HivePath := hive_path (pipeline_config r).

Definition is_earlier_available (key value : string) (r : UploadResult) : bool :=
  data_available (completeness r)
  && match meta r !! key with Some v => String.ltb v value | None => false end.

(** [r] is a member with data whose discriminator value [v] comes strictly
    before the target [value]. *)
Definition earlier_complete (g : _DatasetResultGroup) (key value : string)
    (r : UploadResult) (v : string) : Prop :=
  r ∈ results g
  ∧ completeness r = COMPLETE
  ∧ meta r !! key = Some v
  ∧ String.ltb v value = true.

(** The yearly dataset of the planner's test: 2021 is COMPLETE, 2022 and
    2023 are EMPTY with the copy-latest-available-before policy. *)
Definition yearly_result (y : string) (c : DataCompleteness)
    (h : MissingDataHeuristic) : UploadResult :=
  mkUploadResult
    (mkPipelineConfig
       (mkHivePath (<["country" := "india"]> (<["dataset" := "yearly_dataset"]>
                      (<["year" := y]> ∅))))
       ["grid_id"] ["y1"] 1 (mkBehaviour h))
    c.

Definition yearly_group : _DatasetResultGroup :=
  mkGroup "yearly_dataset"
    [ yearly_result "2021" COMPLETE STRICT;
      yearly_result "2022" EMPTY COPY_LATEST_AVAILABLE_BEFORE;
      yearly_result "2023" EMPTY COPY_LATEST_AVAILABLE_BEFORE ].

End PlannerSpec.

(** ** Data frames: the part of [polars] the orchestrators use *)

Module Polars.

(** A cell holds an integer, a string or a float; a null cell is an absent
    key of its row. *)
Inductive value : Type :=
  | VInt (z : Z)
  | VStr (s : string)
  | VFloat (q : Q).

#[global] Instance Q_eq_dec : EqDecision Q.
Proof. solve_decision. Defined.

#[global] Instance value_eq_dec : EqDecision value.
Proof. solve_decision. Defined.

Record DataFrame : Type := mkDataFrame {
  columns : list string;
  rows : list (gmap string value)
}.

(** [len(df)] *)
Definition height (df : DataFrame) : Z := Z.of_nat (length (rows df)).

Definition has_column (c : string) (df : DataFrame) : bool :=
  bool_decide (c ∈ columns df).

(** [df.drop(cols)] for columns that exist. *)
Definition drop (cs : list string) (df : DataFrame) : DataFrame :=
  {| columns := List.filter (λ c, negb (bool_decide (c ∈ cs))) (columns df);
     rows := (λ r, foldr delete r cs) <$> rows df |}.

(** [df.drop(col)] is strict: dropping a column the frame does not have is
    an error. *)
Definition drop_strict (c : string) (df : DataFrame) : res DataFrame :=
  if has_column c df then Ok (drop [c] df)
  else Err (PolarsError ("ColumnNotFoundError: " +:+ c)).

(** [df.with_columns(name = ...)] with one value per row: an existing column
    is replaced in place, a new one is appended. A [None] is a null. *)
Definition set_cell (name : string) (v : option value) (r : gmap string value)
  : gmap string value :=
  match v with
  | Some x => <[name := x]> r
  | None => delete name r
  end.

Definition with_column (name : string) (vals : list (option value)) (df : DataFrame)
  : DataFrame :=
  {| columns := if has_column name df then columns df else columns df ++ [name];
     rows := zip_with (set_cell name) vals (rows df) |}.

(** [df.with_columns(pl.Series(name, values))]: the series must be as long
    as the frame, except that a series of one value is repeated on every
    row. *)
Definition with_series (name : string) (vals : list (option value)) (df : DataFrame)
  : res DataFrame :=
  if bool_decide (length vals = length (rows df))
  then Ok (with_column name vals df)
  else match vals with
       | [v] => Ok (with_column name (replicate (length (rows df)) v) df)
       | _ => Err (PolarsError "ShapeError: unable to add a column of a different length")
       end.

(** [df.with_columns(name = pl.lit(v))] *)
Definition with_literal (name : string) (v : value) (df : DataFrame) : DataFrame :=
  with_column name (replicate (length (rows df)) (Some v)) df.

(** [pl.concat([a, b])], vertical: the frames must have the same columns in
    the same order. *)
Definition concat (a b : DataFrame) : res DataFrame :=
  if bool_decide (columns a = columns b)
  then Ok {| columns := columns a; rows := rows a ++ rows b |}
  else Err (PolarsError "ShapeError: unable to vstack, column names do not match").

(** [df.filter(pl.col(name) == v)]: a null cell is not equal to anything. *)
Definition filter_eq (name : string) (v : value) (df : DataFrame) : DataFrame :=
  {| columns := columns df;
     rows := List.filter (λ r, bool_decide (r !! name = Some v)) (rows df) |}.

(** [df.select(cols)] for column names: a missing or a repeated name is an
    error. *)
Definition select (cs : list string) (df : DataFrame) : res DataFrame :=
  if negb (forallb (λ c, has_column c df) cs)
  then Err (PolarsError "ColumnNotFoundError")
  else if negb (bool_decide (NoDup cs))
  then Err (PolarsError "DuplicateError")
  else Ok {| columns := cs;
             rows := (λ r, filter (λ kv, kv.1 ∈ cs) r) <$> rows df |}.

(** Two rows agree on the join keys; a null key matches nothing. *)
Definition keys_match (on : list string) (l r : gmap string value) : bool :=
  forallb (λ k, match l !! k, r !! k with
                | Some a, Some b => bool_decide (a = b)
                | _, _ => false
                end) on.

(** The rows of a full join: every pair of matching rows gives one row,
    and a row without a match is kept with nulls for the other side; the
    key columns are merged. *)
Definition join_full_rows (on : list string) (left right : list (gmap string value))
  : list (gmap string value) :=
  (l ← left;
   match List.filter (keys_match on l) right with
   | [] => [l]
   | ms => (λ r, l ∪ r) <$> ms
   end)
  ++ List.filter (λ r, negb (existsb (λ l, keys_match on l r) left)) right.

(** [left.join(right, on=on, how="full", coalesce=True)] where the columns
    the frames have in common are exactly the keys [on], which is how
    [Recombiner._combine_all] calls it.  A join without keys is an error. *)
Definition join_full (on : list string) (left right : DataFrame) : res DataFrame :=
  match on with
  | [] => Err (PolarsError "at least one key is required in a join operation")
  | _ =>
      Ok {| columns := columns left
                       ++ List.filter (λ c, negb (bool_decide (c ∈ on))) (columns right);
            rows := join_full_rows on (rows left) (rows right) |}
  end.

(** The order [sort] uses on the cells of a column; nulls come first.  The
    cells of a column have one type, and cells of different types are
    ordered by type to keep the order total. *)
Definition value_leb (a b : value) : bool :=
  match a, b with
  | VInt x, VInt y => x <=? y
  | VStr x, VStr y => String.leb x y
  | VFloat x, VFloat y => Qle_bool x y
  | VInt _, _ => true
  | VStr _, VInt _ => false
  | VStr _, VFloat _ => true
  | VFloat _, _ => false
  end.

Definition cell_leb (a b : option value) : bool :=
  match a, b with
  | None, _ => true
  | Some _, None => false
  | Some x, Some y => value_leb x y
  end.

(** Rows compared by the columns [by_], the first column first. *)
Fixpoint key_leb (by_ : list string) (r1 r2 : gmap string value) : bool :=
  match by_ with
  | [] => true
  | c :: cs =>
      if cell_leb (r1 !! c) (r2 !! c)
      then if cell_leb (r2 !! c) (r1 !! c) then key_leb cs r1 r2 else true
      else false
  end.

(** [df.sort(by_)]: a missing column is an error. *)
Definition sort (by_ : list string) (df : DataFrame) : res DataFrame :=
  if forallb (λ c, has_column c df) by_
  then Ok {| columns := columns df;
             rows := merge_sort (λ r1 r2, Is_true (key_leb by_ r1 r2)) (rows df) |}
  else Err (PolarsError "ColumnNotFoundError").

(** [expr.over(key)]: the rows are grouped by the cell of [key], the
    expression [f] is evaluated on each group in the order of the frame, and
    each row receives the result at its place in its group. *)
Definition over {B : Type} (key : string) (f : list (gmap string value) → list B)
    (rs : list (gmap string value)) : list (option B) :=
  imap (λ i r,
          let same := λ r' : gmap string value, bool_decide (r' !! key = r !! key) in
          f (List.filter same rs) !! length (List.filter same (take i rs)))
       rs.

(** The last [n] elements of a list. *)
Definition last_n {A : Type} (n : nat) (l : list A) : list A :=
  List.skipn (length l - n) l.

Definition Qsum (qs : list Q) : Q := foldr Qplus (0#1)%Q qs.

(** The mean of the non-null values of a window, when there are at least
    [min_samples] of them. *)
Definition window_mean (min_samples : nat) (window : list (option Q)) : option Q :=
  let vals := omap id window in
  if bool_decide (min_samples ≤ length vals)%nat && bool_decide (vals ≠ [])
  then Some (Qred (Qsum vals / inject_Z (Z.of_nat (length vals))))
  else None.

(** [series.rolling_mean(window_size, min_samples)]: at each position, the
    mean over the window that ends there. *)
Definition rolling_mean (window_size min_samples : nat) (xs : list (option Q))
  : list (option Q) :=
  imap (λ i _, window_mean min_samples (last_n window_size (take (S i) xs))) xs.

(** A numeric cell as a float. *)
Definition as_float (v : value) : value :=
  match v with
  | VInt z => VFloat (inject_Z z)
  | _ => v
  end.

Definition float_of (c : option value) : res (option Q) :=
  match c with
  | None => Ok None
  | Some (VFloat q) => Ok (Some q)
  | Some (VInt z) => Ok (Some (inject_Z z))
  | Some (VStr _) => Err (PolarsError "InvalidOperationError: not a numeric column")
  end.

(** The float a rolling window sees in a cell of a numeric column. *)
Definition float_cell (c : option value) : option Q :=
  match c with
  | Some (VFloat q) => Some q
  | Some (VInt z) => Some (inject_Z z)
  | _ => None
  end.

(** [pyarrow.parquet.FileMetaData]: the row count and the column names. *)
Record FileMetaData : Type := mkFileMetaData {
  num_rows : Z;
  schema_names : list string
}.

(** How a [set] of column names is shown inside a message; the order in
    which Python shows the elements of a set is not specified and the order
    of the list is used. *)
Definition show_set (cs : list string) : string :=
  "{" +:+ String.concat ", " ((λ c, "'" +:+ c +:+ "'") <$> cs) +:+ "}".

End Polars.

(** ** Storage gateway and artifact references *)

Module Storage.
Import Planner Polars.

(** Modelled from the spec: [pm25ml.combiners.data_artifact.DataArtifactRef],
    a stage name with an optional sub-artifact, from which the reference of
    a month's partition is derived as [stage=<stage>/month=<YYYY-MM>] (or
    [stage=<stage>+<sub>/month=<YYYY-MM>]). *)
Record DataArtifactRef : Type := mkDataArtifactRef {
  stage : string;
  sub_artifact : option string
}.

Definition initial_path (a : DataArtifactRef) : string :=
  match sub_artifact a with
  | Some sub => stage a +:+ "+" +:+ sub
  | None => stage a
  end.

Definition for_month (a : DataArtifactRef) (month_id : string) : HivePath :=
  mkHivePath (<["stage" := initial_path a]> (<["month" := month_id]> ∅)).

Definition show_path (p : HivePath) : string :=
  String.concat "/" ((λ kv, kv.1 +:+ "=" +:+ kv.2) <$> map_to_list (metadata p)).

(** Modelled from the spec: [pm25ml.combiners.combined_storage.CombinedStorage],
    the storage gateway.  The store lists the partitions written, the latest
    first, each under its reference; a reference denotes the latest frame
    written under the same key/value pairs.  The log records the reference of
    every write, the latest first. *)
Record World : Type := mkWorld {
  store : list (HivePath * DataFrame);
  write_log : list HivePath
}.

Definition same_partition (p : HivePath) (entry : HivePath * DataFrame) : bool :=
  bool_decide (metadata entry.1 = metadata p).

Definition lookup_partition (w : World) (p : HivePath) : option DataFrame :=
  snd <$> List.find (same_partition p) (store w).

Definition does_dataset_exist (w : World) (p : HivePath) : bool :=
  bool_decide (is_Some (lookup_partition w p)).

Definition read_dataframe (w : World) (p : HivePath) : res DataFrame :=
  match lookup_partition w p with
  | Some df => Ok df
  | None => Err (FileNotFoundError (show_path p))
  end.

Definition read_dataframe_metadata (w : World) (p : HivePath) : res FileMetaData :=
  df ← read_dataframe w p;
  Ok {| num_rows := height df; schema_names := columns df |}.

Definition write_to_destination (df : DataFrame) (p : HivePath) (w : World) : World :=
  {| store := (p, df) :: store w; write_log := p :: write_log w |}.

(** [ThreadPoolExecutor.map]: every task is run, here in the order of
    submission, whether or not an earlier one failed; the outcomes are kept
    in that order. *)
Fixpoint executor_map {A B : Type} (task : A → World → res B * World)
    (xs : list A) (w : World) : list (res B) * World :=
  match xs with
  | [] => ([], w)
  | x :: xs' =>
      let '(r, w1) := task x w in
      let '(rs, w2) := executor_map task xs' w1 in
      (r :: rs, w2)
  end.

(** Consuming the results of [executor.map] raises the first failure. *)
Fixpoint drain {B : Type} (rs : list (res B)) : res (list B) :=
  match rs with
  | [] => Ok []
  | r :: rs' => b ← r; bs ← drain rs'; Ok (b :: bs)
  end.

(** A task that only reads. *)
Definition reading {A B : Type} (f : World → A → res B) : A → World → res B * World :=
  λ x w, (f w x, w).

End Storage.

(** ** Dataset merge engine ([combiners/recombiner/recombiner.py]) *)

Module Recombiner.
Import Calendar Planner Polars Storage.

Record Recombiner : Type := mkRecombiner {
  output_data_artifact : DataArtifactRef;
  months : list Arrow;
  max_workers : Z;
  force_recombine : bool
}.

Definition id_columns : list string := ["grid_id"; "date"].

(** [(set(combined_df.columns) & set(df.columns)) - id_columns] *)
Definition shared_columns (combined_df df : DataFrame) : list string :=
  List.filter (λ c, bool_decide (c ∈ columns df) && negb (bool_decide (c ∈ id_columns)))
              (columns combined_df).

(** [set(combined_df.columns) & set(df.columns) & id_columns] *)
Definition shared_id_columns (combined_df df : DataFrame) : list string :=
  List.filter (λ c, bool_decide (c ∈ columns df) && bool_decide (c ∈ id_columns))
              (columns combined_df).

Definition shared_columns_error (shared : list string) : string :=
  "Shared columns detected: " +:+ show_set shared +:+ ". " +:+
  "Set overwrite_columns=True to overwrite them.".

(** One turn of the loop of [_combine_all]. *)
Definition combine_step (overwrite_columns : bool) (combined_df df : DataFrame)
  : res DataFrame :=
  let shared := shared_columns combined_df df in
  combined_df ←
    (match shared with
     | [] => Ok combined_df
     | _ => if overwrite_columns
            then Ok (drop shared combined_df)
            else Err (ValueError (shared_columns_error shared))
     end);
  join_full (shared_id_columns combined_df df) combined_df df.

Fixpoint combine_loop (overwrite_columns : bool) (combined_df : DataFrame)
    (dfs : list DataFrame) : res DataFrame :=
  match dfs with
  | [] => Ok combined_df
  | df :: dfs' =>
      combined_df ← combine_step overwrite_columns combined_df df;
      combine_loop overwrite_columns combined_df dfs'
  end.

(** [Recombiner._combine_all] *)
Definition _combine_all (stage_dfs : list DataFrame) (overwrite_columns : bool)
  : res DataFrame :=
  match stage_dfs with
  | [] => Err IndexError
  | first :: rest => combine_loop overwrite_columns first rest
  end.

(** [Recombiner._read_dfs_to_merge] *)
Definition _read_dfs_to_merge (w : World) (stages : list DataArtifactRef) (month : Arrow)
  : res (list DataFrame) :=
  mapM (λ stage, read_dataframe w (for_month stage (_month_format month))) stages.

Definition row_count_error (expected_rows : Z) (month_short : string) (found : Z)
  : string :=
  "Expected " +:+ pretty expected_rows +:+
  " rows in the recombined result for month " +:+ month_short +:+
  ", but found " +:+ pretty found +:+ " rows.".

Definition missing_columns_error (expected missing : list string) : string :=
  "Expected columns " +:+ show_set expected +:+
  " in the final combined result, but " +:+ show_set missing +:+ " were missing.".

(** [expected_columns.update(names)] on a set kept as a list without
    repetition. *)
Definition update_set (acc names : list string) : list string :=
  acc ++ List.filter (λ c, negb (bool_decide (c ∈ acc))) (remove_dups names).

Fixpoint collect_expected_columns (w : World) (month_short : string)
    (stages : list DataArtifactRef) (acc : list string) : res (list string) :=
  match stages with
  | [] => Ok acc
  | stage :: stages' =>
      md ← read_dataframe_metadata w (for_month stage month_short);
      collect_expected_columns w month_short stages' (update_set acc (schema_names md))
  end.

(** [Recombiner._validate_combined] *)
Definition _validate_combined (rc : Recombiner) (w : World) (month : Arrow)
    (stages : list DataArtifactRef) : res unit :=
  let month_short := _month_format month in
  expected_columns ← collect_expected_columns w month_short stages [];
  first_stage ← (match stages with
                 | s :: _ => Ok s
                 | [] => Err StopIteration
                 end);
  first_md ← read_dataframe_metadata w (for_month first_stage month_short);
  let expected_rows := num_rows first_md in
  combined_metadata ←
    read_dataframe_metadata w (for_month (output_data_artifact rc) month_short);
  let actual_columns := schema_names combined_metadata in
  if negb (num_rows combined_metadata =? expected_rows)
  then Err (ValueError (row_count_error expected_rows month_short
                          (num_rows combined_metadata)))
  else
    let missing_columns :=
      List.filter (λ c, negb (bool_decide (c ∈ actual_columns))) expected_columns in
    match missing_columns with
    | [] => Ok ()
    | _ => Err (ValueError (missing_columns_error expected_columns missing_columns))
    end.

(** [Recombiner._needs_recombining]: only a [ValueError] is caught. *)
Definition _needs_recombining (rc : Recombiner) (w : World) (month : Arrow)
    (stages : list DataArtifactRef) : res bool :=
  if negb (does_dataset_exist w
             (for_month (output_data_artifact rc) (_month_format month)))
  then Ok true
  else
    match _validate_combined rc w month stages with
    | Ok _ => Ok false
    | Err (ValueError _) => Ok true
    | Err e => Err e
    end.

(** [Recombiner._filter_months_to_update] *)
Definition _filter_months_to_update (rc : Recombiner) (w : World)
    (stages : list DataArtifactRef) : res (list Arrow) :=
  if force_recombine rc then Ok (months rc)
  else
    let '(results, _) :=
      executor_map
        (reading (λ w month,
                    needs ← _needs_recombining rc w month stages; Ok (month, needs)))
        (months rc) w in
    results ← drain results;
    Ok (fst <$> List.filter snd results).

(** [Recombiner._validate_all] *)
Definition _validate_all (rc : Recombiner) (w : World)
    (stages : list DataArtifactRef) (months : list Arrow) : res unit :=
  let '(results, _) :=
    executor_map (reading (λ w month, _validate_combined rc w month stages)) months w in
  _ ← drain results;
  Ok ().

(** The task [process_month] of [Recombiner._process_in_parallel]. *)
Definition process_month (rc : Recombiner) (stages : list DataArtifactRef)
    (overwrite_columns : bool) (month : Arrow) (w : World) : res unit * World :=
  match (stage_dfs ← _read_dfs_to_merge w stages month;
         _combine_all stage_dfs overwrite_columns) with
  | Ok combined_df =>
      (Ok (),
       write_to_destination combined_df
         (for_month (output_data_artifact rc) (_month_format month)) w)
  | Err e => (Err e, w)
  end.

(** [Recombiner._process_in_parallel] *)
Definition _process_in_parallel (rc : Recombiner) (stages : list DataArtifactRef)
    (months : list Arrow) (overwrite_columns : bool) (w : World) : res unit * World :=
  let '(results, w') :=
    executor_map (process_month rc stages overwrite_columns) months w in
  (_ ← drain results; Ok (), w').

(** [Recombiner.recombine] *)
Definition recombine (rc : Recombiner) (stages : list DataArtifactRef)
    (overwrite_columns : bool) (w : World) : res unit * World :=
  match _filter_months_to_update rc w stages with
  | Err e => (Err e, w)
  | Ok filtered_months =>
      match _process_in_parallel rc stages filtered_months overwrite_columns w with
      | (Err e, w1) => (Err e, w1)
      | (Ok _, w1) => (_validate_all rc w1 stages filtered_months, w1)
      end
  end.

End Recombiner.

(** Sample frames in which the merge engine's properties are witnessed. *)

Module RecombinerSpec.
Import Calendar Planner Polars Storage Recombiner.

Definition row3 (g : Z) (d c1 : string) (v1 : Z) (c2 : string) (v2 : Z)
  : gmap string value :=
  <["grid_id" := VInt g]> (<["date" := VStr d]> (<[c1 := VInt v1]> (<[c2 := VInt v2]> ∅))).

(** The January frames of the test with a column in common. *)
Definition stage1_overlapping : DataFrame :=
  mkDataFrame ["grid_id"; "date"; "value1"; "shared_column"]
    [ row3 1 "2023-01-01" "value1" 10 "shared_column" 1;
      row3 2 "2023-01-02" "value1" 20 "shared_column" 2;
      row3 3 "2023-01-03" "value1" 30 "shared_column" 3 ].

Definition stage2_overlapping : DataFrame :=
  mkDataFrame ["grid_id"; "date"; "value2"; "shared_column"]
    [ row3 1 "2023-01-01" "value2" 100 "shared_column" 4;
      row3 2 "2023-01-02" "value2" 200 "shared_column" 5;
      row3 3 "2023-01-03" "value2" 300 "shared_column" 6 ].


(** Two worlds hold the same partitions for the month [month_id]. *)
Definition agree_on_month (month_id : string) (w w' : World) : Prop :=
  ∀ a : DataArtifactRef,
    lookup_partition w (for_month a month_id)
    = lookup_partition w' (for_month a month_id).

(** The same merge engine with [force_recombine] off. *)
Definition without_force (rc : Recombiner) : Recombiner :=
  {| output_data_artifact := output_data_artifact rc;
     months := months rc;
     max_workers := max_workers rc;
     force_recombine := false |}.

Definition row2 (g : Z) (d c : string) (v : Z) : gmap string value :=
  <["grid_id" := VInt g]> (<["date" := VStr d]> (<[c := VInt v]> ∅)).

Definition stage1_artifact : DataArtifactRef := mkDataArtifactRef "stage1" None.
Definition stage2_artifact : DataArtifactRef := mkDataArtifactRef "stage2" None.
Definition recombined_artifact : DataArtifactRef := mkDataArtifactRef "recombined_stage" None.

(** The store of the merge engine's test: two stages of one value column each,
    for January and February 2023. *)
Definition stage_frame (c : string) (month_id : string) (v1 v2 v3 : Z) : DataFrame :=
  mkDataFrame ["grid_id"; "date"; c]
    [ row2 1 (month_id +:+ "-01") c v1;
      row2 2 (month_id +:+ "-02") c v2;
      row2 3 (month_id +:+ "-03") c v3 ].

Definition test_world : World :=
  write_to_destination (stage_frame "value2" "2023-02" 400 500 600)
    (for_month stage2_artifact "2023-02")
    (write_to_destination (stage_frame "value1" "2023-02" 40 50 60)
       (for_month stage1_artifact "2023-02")
       (write_to_destination (stage_frame "value2" "2023-01" 100 200 300)
          (for_month stage2_artifact "2023-01")
          (write_to_destination (stage_frame "value1" "2023-01" 10 20 30)
             (for_month stage1_artifact "2023-01")
             (mkWorld [] [])))).

Definition test_recombiner : Recombiner :=
  mkRecombiner recombined_artifact [mkArrow 2023 1 1 0; mkArrow 2023 2 1 0] 4 false.

Definition test_stages : list DataArtifactRef := [stage1_artifact; stage2_artifact].

(** The store after the first run of the test. *)
Definition test_world_after : World :=
  Eval vm_compute in (recombine test_recombiner test_stages false test_world).2.

(** The store of the test with a January output partition that lost two of
    its three rows. *)
Definition stale_world : World :=
  write_to_destination
    (mkDataFrame ["grid_id"; "date"; "value1"; "value2"] [row2 1 "2023-01-01" "value1" 10])
    (for_month recombined_artifact "2023-01") test_world.

End RecombinerSpec.

(** ** Spatial gap-fill orchestrator
       ([imputation/spatial/spatial_imputation_manager.py]) *)

Module Spatial.
Import Calendar Planner Polars Storage.

(** Modelled from the spec: [DailySpatialInterpolator], the injected strategy
    that fills one month's rows.  [selected] tells which column names the
    selector [value_column_regex_selector] matches in [pl.col(...)]. *)
Record DailySpatialInterpolator : Type := mkInterpolator {
  value_column_regex_selector : string;
  selected : string → bool;
  impute : DataFrame → res DataFrame
}.

Record SpatialImputationManager : Type := mkManager {
  spatial_imputer : DailySpatialInterpolator;
  months : list Arrow;
  input_data_artifact : DataArtifactRef;
  output_data_artifact : DataArtifactRef
}.

(** [self.months_as_ids] *)
Definition months_as_ids (mgr : SpatialImputationManager) : list string :=
  _month_format <$> months mgr.

Definition digit_of (c : ascii) : option Z :=
  let n := Z.of_nat (nat_of_ascii c) in
  if (48 <=? n) && (n <=? 57) then Some (n - 48) else None.

(** [Arrow.strptime(month, "%Y-%m")]: four digits for the year, a dash, and
    a month from 1 to 12 in one or two digits; year 0 is out of range. *)
Definition strptime_Ym (s : string) : option Arrow :=
  match s with
  | String y1 (String y2 (String y3 (String y4 (String "-"%char rest)))) =>
      d1 ← digit_of y1; d2 ← digit_of y2; d3 ← digit_of y3; d4 ← digit_of y4;
      m ← match rest with
          | String m1 EmptyString => digit_of m1
          | String m1 (String m2 EmptyString) =>
              a ← digit_of m1; b ← digit_of m2; Some (10 * a + b)
          | _ => None
          end;
      let y := 1000 * d1 + 100 * d2 + 10 * d3 + d4 in
      if (1 <=? y) && (1 <=? m) && (m <=? 12) then Some (mkArrow y m 1 0) else None
  | _ => None
  end.

(** [str.format] applied to a month identifier, which has no replacement
    field: the identifier itself. *)
Definition str_format (month : string) : string := month.

Section WithGrid.

(** [VALID_COUNTRIES["india"]], the fixed number of grid cells. *)
Variable india_grid_cells : Z.

Variable mgr : SpatialImputationManager.

(** [SpatialImputationManager._days_in_month] *)
Definition _days_in_month (month : string) : res Z :=
  match strptime_Ym month with
  | None => Err (ValueError ("time data '" +:+ month +:+ "' does not match format '%Y-%m'"))
  | Some month_as_arrow =>
      let month_end := replace_day 1 (shift_months 1 month_as_arrow) in
      Ok (timedelta_days (instant month_end - instant month_as_arrow))
  end.

Definition imputed_rows_error (month : string) (expected_rows found : Z) : string :=
  "Expected " +:+ pretty expected_rows +:+
  " rows in the final imputed result for month " +:+ month +:+
  ", but found " +:+ pretty found +:+ " rows.".

Definition imputed_columns_error (month : string) (expected missing : list string)
  : string :=
  "Expected columns " +:+ show_set expected +:+
  " in the final imputed result for month " +:+ month +:+
  ", but " +:+ show_set missing +:+ " were missing.".

(** [SpatialImputationManager._validate_result] *)
Definition _validate_result (w : World) (month : string) (expected_columns : list string)
  : res unit :=
  days ← _days_in_month month;
  let expected_rows := days * india_grid_cells in
  final_combined_metadata ←
    read_dataframe_metadata w (for_month (output_data_artifact mgr) month);
  let n_rows := num_rows final_combined_metadata in
  if negb (n_rows =? expected_rows)
  then Err (SpatialImputationValidationError (imputed_rows_error month expected_rows n_rows))
  else
    let actual_columns := schema_names final_combined_metadata in
    let missing :=
      List.filter (λ c, negb (bool_decide (c ∈ actual_columns))
                        && negb (String.eqb c "month"))
                  (remove_dups expected_columns) in
    match missing with
    | [] => Ok ()
    | _ => Err (SpatialImputationValidationError
                  (imputed_columns_error month (remove_dups expected_columns) missing))
    end.

(** [SpatialImputationManager._needs_upload]: only a
    [SpatialImputationValidationError] is caught. *)
Definition _needs_upload (w : World) (month : string) (expected_columns : list string)
  : res bool :=
  if negb (does_dataset_exist w (for_month (output_data_artifact mgr) month))
  then Ok true
  else
    match _validate_result w month expected_columns with
    | Ok _ => Ok false
    | Err (SpatialImputationValidationError _) => Ok true
    | Err e => Err e
    end.

(** [SpatialImputationManager._identify_months_to_upload] *)
Definition _identify_months_to_upload (w : World) (expected_columns : list string)
  : res (list string) :=
  let '(results, _) :=
    executor_map
      (reading (λ w month,
                  needs ← _needs_upload w month expected_columns;
                  (Ok (if needs : bool then Some month else None)
                   : res (option string))))
      (months_as_ids mgr) w in
  months_to_upload ← drain results;
  (Ok (omap id months_to_upload) : res (list string)).

(** [SpatialImputationManager._validate_all] *)
Definition _validate_all (w : World) (months_to_upload expected_columns : list string)
  : res unit :=
  let '(results, _) :=
    executor_map (reading (λ w month, _validate_result w month expected_columns))
                 months_to_upload w in
  _ ← drain results;
  Ok ().

Definition imputed_length_error (month : string) (actual expected : Z) : string :=
  "Imputed month " +:+ month +:+ " has length " +:+ pretty actual +:+
  ", expected " +:+ pretty expected +:+ ".".

(** What the interpolator returns for a month, restricted by
    [.select("grid_id", "date", pl.col(column_regex))]. *)
Definition impute_and_select (month_df : DataFrame) : res DataFrame :=
  imputed ← impute (spatial_imputer mgr) month_df;
  select (["grid_id"; "date"]
            ++ List.filter (selected (spatial_imputer mgr)) (columns imputed))
         imputed.

(** The task [process_month] of [_impute_all_months]. *)
Definition process_month (ds : DataFrame) (month : string) (w : World)
  : res unit * World :=
  let month_df := filter_eq "month" (VStr month) ds in
  let expected_length := height month_df in
  match impute_and_select month_df with
  | Err e => (Err e, w)
  | Ok imputed_month =>
      let actual_length := height imputed_month in
      if negb (actual_length =? expected_length)
      then (Err (ValueError (imputed_length_error month actual_length expected_length)), w)
      else (Ok (),
            write_to_destination imputed_month
              (for_month (output_data_artifact mgr) (str_format month)) w)
  end.

(** [SpatialImputationManager._impute_all_months]: the results of
    [executor.map] are not consumed, so a failure of a task is not raised. *)
Definition _impute_all_months (ds : DataFrame) (months_to_upload : list string)
    (w : World) : res unit * World :=
  let '(_, w') := executor_map (process_month ds) months_to_upload w in
  (Ok (), w').

End WithGrid.

End Spatial.

(** Sample data in which the orchestrator's properties are witnessed. *)

Module SpatialSpec.
Import Calendar Planner Polars Storage Spatial.

Definition month_row (month : string) (g : Z) (d : string) (v : option Z)
  : gmap string value :=
  let r := <["month" := VStr month]> (<["grid_id" := VInt g]> (<["date" := VStr d]> ∅)) in
  match v with
  | Some z => <["value_column_regex" := VInt z]> r
  | None => r
  end.

Definition test_columns : list string := ["month"; "grid_id"; "date"; "value_column_regex"].

(** [fake_data_with_missing] of the orchestrator's test. *)
Definition fake_data_with_missing : DataFrame :=
  mkDataFrame test_columns
    [ month_row "2023-01" 1 "2023-01-01" (Some 10);
      month_row "2023-01" 2 "2023-01-02" None;
      month_row "2023-02" 1 "2023-02-01" None;
      month_row "2023-02" 2 "2023-02-02" (Some 40) ].

(** An interpolator that fills every gap with 0. *)
Definition fill_with_zero (df : DataFrame) : res DataFrame :=
  Ok {| columns := columns df;
        rows := (λ r, match r !! "value_column_regex" with
                      | Some _ => r
                      | None => <["value_column_regex" := VInt 0]> r
                      end) <$> rows df |}.

(** An interpolator that loses the rows it cannot fill. *)
Definition drop_gaps (df : DataFrame) : res DataFrame :=
  Ok {| columns := columns df;
        rows := List.filter (λ r, bool_decide (is_Some (r !! "value_column_regex")))
                            (rows df) |}.

Definition test_selector (c : string) : bool := String.eqb c "value_column_regex".

Definition manager_with (f : DataFrame → res DataFrame) : SpatialImputationManager :=
  mkManager (mkInterpolator "value_column_regex" test_selector f)
            [mkArrow 2023 1 1 0; mkArrow 2023 2 1 0]
            (mkDataArtifactRef "combined_monthly" None)
            (mkDataArtifactRef "era5_spatially_imputed" None).

Definition empty_world : World := mkWorld [] [].

(** A frame of [n] rows with the given columns, all cells null. *)
Definition blank_frame (cs : list string) (n : nat) : DataFrame :=
  mkDataFrame cs (replicate n ∅).

(** A store whose January output partition has five rows. *)
Definition short_partition_world : World :=
  write_to_destination (blank_frame ["grid_id"; "date"] 5)
    (for_month (output_data_artifact (manager_with fill_with_zero)) "2023-01")
    empty_world.

End SpatialSpec.

(** ** Regression imputation engine
       ([imputation/from_model/regression_model_predictor.py]) *)

Module Predictor.
Import Calendar Planner Polars Storage.

(** Modelled from the spec: [ModelReference], of which the predictor uses the
    name, the predictor and target columns and the bounds of the quality
    gate. *)
Record ModelReference : Type := mkModelReference {
  model_name : string;
  predictor_cols : list string;
  target_col : string;
  min_r2_score : Q;
  max_r2_score : Q
}.

(** Modelled from the spec: [LoadedValidatedModel].  [cv_results["test_r2"]]
    holds the score of every cross-validation fold, of which there is at
    least one; [model.predict] gives one value per row. *)
Record LoadedValidatedModel : Type := mkLoadedModel {
  test_r2_first : Q;
  test_r2_rest : list Q;
  predict_values : DataFrame → res (list Q)
}.

Record RegressionModelPredictor : Type := mkPredictor {
  model_ref : ModelReference;
  model : LoadedValidatedModel;
  months : list Arrow;
  input_data_artifact : DataArtifactRef;
  output_data_artifact : DataArtifactRef
}.

(** [cv_results["test_r2"].mean()] *)
Definition mean_test_r2 (m : LoadedValidatedModel) : Q :=
  let scores := test_r2_first m :: test_r2_rest m in
  Qred (Qsum scores / inject_Z (Z.of_nat (length scores))).

(** [f"{x:.2f}"]: two decimals, rounded half to even. *)
Definition round_half_even (q : Q) : Z :=
  let fl := Qfloor q in
  let rest := (q - inject_Z fl)%Q in
  match (rest ?= 1#2)%Q with
  | Lt => fl
  | Gt => fl + 1
  | Eq => if Z.even fl then fl else fl + 1
  end.

Definition format_2f (q : Q) : string :=
  let n := round_half_even (q * 100)%Q in
  let a := Z.abs n in
  (if Qlt_le_dec q 0 then "-" else "") +:+
  pretty (a / 100) +:+ "." +:+ pad 2 (pretty (a mod 100)).

Definition too_low_error (name : string) (average_cv_score : Q) : string :=
  "Average CV R2 score for the " +:+ name +:+
  " model is too low: " +:+ format_2f average_cv_score +:+ ".".

Definition unusually_high_error (name : string) (average_cv_score : Q) : string :=
  "Average CV R2 score for the " +:+ name +:+
  " model is unusually high: " +:+ format_2f average_cv_score +:+ ".".

Definition Qltb (a b : Q) : bool := negb (Qle_bool b a).

(** [RegressionModelPredictor._check_model_quality] *)
Definition _check_model_quality (p : RegressionModelPredictor) (average_cv_score : Q)
  : res unit :=
  let name := model_name (model_ref p) in
  let min_score := min_r2_score (model_ref p) in
  let max_score := max_r2_score (model_ref p) in
  if Qltb average_cv_score min_score
  then Err (ValueError (too_low_error name average_cv_score))
  else if Qltb max_score average_cv_score
  then Err (ValueError (unusually_high_error name average_cv_score))
  else Ok ().

Definition predicted_col_name (t : string) : string := t +:+ "__predicted".
Definition imputed_flag_col_name (t : string) : string := t +:+ "__imputed_flag".
Definition imputed_col_name (t : string) : string := t +:+ "__imputed".
Definition rolling_imputed_col_name (t : string) : string := t +:+ "__imputed_r7d".
Definition score_col_name (t : string) : string := t +:+ "__score".
Definition share_imputed_across_all_grids_col_name (t : string) : string :=
  t +:+ "__share_imputed_across_all_grids".

(** [pl.when(target_col.is_null()).then(pl.lit(1)).otherwise(pl.lit(0))] *)
Definition imputed_flag_of (t : string) (r : gmap string value) : option value :=
  match r !! t with
  | None => Some (VInt 1)
  | Some _ => Some (VInt 0)
  end.

(** [is_imputed = pl.col(imputed_flag_col_name) == 1] *)
Definition is_imputed (t : string) (r : gmap string value) : bool :=
  bool_decide (r !! imputed_flag_col_name t = Some (VInt 1)).

(** [pl.when(is_imputed).then(predicted_col).otherwise(target_col)] *)
Definition imputed_of (t : string) (r : gmap string value) : option value :=
  as_float <$> (if is_imputed t r then r !! predicted_col_name t else r !! t).

(** [pl.when(is_imputed).then(predicted_col * average_cv_score).otherwise(target_col)] *)
Definition score_of (t : string) (average_cv_score : Q) (r : gmap string value)
  : option value :=
  if is_imputed t r
  then match as_float <$> r !! predicted_col_name t with
       | Some (VFloat q) => Some (VFloat (Qred (q * average_cv_score)))
       | other => other
       end
  else as_float <$> r !! t.

(** [is_imputed.mean()] on a group of rows. *)
Definition share_imputed (t : string) (group : list (gmap string value)) : list value :=
  let flagged := length (List.filter (is_imputed t) group) in
  replicate (length group)
    (VFloat (Qred (inject_Z (Z.of_nat flagged) / inject_Z (Z.of_nat (length group))))).

(** [imputed_col.rolling_mean(window_size=7, min_samples=1)] on a group of
    rows. *)
Definition rolling_imputed (t : string) (group : list (gmap string value))
  : list (option value) :=
  (λ o : option Q, VFloat <$> o)
    <$> rolling_mean 7 1 ((λ r, float_cell (r !! imputed_col_name t)) <$> group).

(** Whether the rolling mean can be computed on the rows. *)
Definition numeric_column (c : string) (rs : list (gmap string value)) : bool :=
  forallb (λ r, is_ok (float_of (r !! c))) rs.

Definition require_column (c : string) (df : DataFrame) : res unit :=
  if has_column c df then Ok () else Err (PolarsError ("ColumnNotFoundError: " +:+ c)).

(** The first part of [_add_imputed_details_to_df]: the predictions, the
    flag and the per-row aggregates ([with_aggregates]). *)
Definition with_aggregates_of (t : string) (average_cv_score : Q)
    (with_predicted_results : DataFrame) : res DataFrame :=
  _ ← require_column t with_predicted_results;
  let with_predicted_results :=
    with_column (imputed_flag_col_name t)
      (imputed_flag_of t <$> rows with_predicted_results) with_predicted_results in
  _ ← require_column "date" with_predicted_results;
  let rs := rows with_predicted_results in
  Ok (with_column (share_imputed_across_all_grids_col_name t)
        (over "date" (share_imputed t) rs)
        (with_column (score_col_name t) (score_of t average_cv_score <$> rs)
           (with_column (imputed_col_name t) (imputed_of t <$> rs)
              with_predicted_results))).

(** [both_df]: the current month's rows and, when there is a previous
    result, its rows without their rolling column, each marked with where it
    comes from. *)
Definition both_df_of (t : string) (with_aggregates : DataFrame)
    (previous_result : option DataFrame) : res DataFrame :=
  match previous_result with
  | Some previous =>
      dropped ← drop_strict (rolling_imputed_col_name t) previous;
      concat (with_literal "_which_df" (VStr "current") with_aggregates)
             (with_literal "_which_df" (VStr "previous") dropped)
  | None => Ok (with_literal "_which_df" (VStr "current") with_aggregates)
  end.

(** The rolling column, computed per grid cell on the sorted frame. *)
Definition with_rolling (t : string) (sorted : DataFrame) : DataFrame :=
  with_column (rolling_imputed_col_name t)
    (default None <$> over "grid_id" (rolling_imputed t) (rows sorted)) sorted.

(** [.filter(pl.col("_which_df") == "current").drop("_which_df")] *)
Definition keep_current (df : DataFrame) : res DataFrame :=
  drop_strict "_which_df" (filter_eq "_which_df" (VStr "current") df).

(** [RegressionModelPredictor._add_imputed_details_to_df] *)
Definition _add_imputed_details_to_df (p : RegressionModelPredictor)
    (average_cv_score : Q) (data_for_month : DataFrame) (predicted_data : list Q)
    (previous_result : option DataFrame) (include_stats : bool) : res DataFrame :=
  let t := target_col (model_ref p) in
  with_predicted_results ←
    with_series (predicted_col_name t) ((λ q, Some (VFloat q)) <$> predicted_data)
                data_for_month;
  if negb include_stats then Ok with_predicted_results
  else
    with_aggregates ← with_aggregates_of t average_cv_score with_predicted_results;
    both_df ← both_df_of t with_aggregates previous_result;
    sorted ← sort ["grid_id"; "date"] both_df;
    _ ← (if numeric_column (imputed_col_name t) (rows sorted) then Ok ()
         else Err (PolarsError "InvalidOperationError: not a numeric column")
         : res unit);
    keep_current (with_rolling t sorted).

(** The columns written: the identifiers and those matched by
    [^{target_col}__.*$]. *)
Definition output_columns (t : string) (df : DataFrame) : list string :=
  ["grid_id"; "date"]
  ++ List.filter (λ c, String.prefix (t +:+ "__") c) (columns df).

Definition length_mismatch_warning (month_id : string) (n_data n_result : Z) : string :=
  "Data length mismatch for month " +:+ month_id +:+ ": " +:+
  pretty n_data +:+ " != " +:+ pretty n_result.

(** The state of a run: the store and the warnings logged, latest first. *)
Record Run : Type := mkRun {
  world : World;
  warnings : list string
}.

(** One turn of the loop of [predict]: the result carried to the next month,
    and the state after the write. *)
Definition predict_month (p : RegressionModelPredictor) (average_cv_score : Q)
    (include_stats : bool) (month : Arrow) (previous_result : option DataFrame)
    (st : Run) : res DataFrame * Run :=
  let month_id := _month_format month in
  match (data_for_month ←
           read_dataframe (world st) (for_month (input_data_artifact p) month_id);
         features ← select (predictor_cols (model_ref p)) data_for_month;
         predicted_data ← predict_values (model p) features;
         result_df ← _add_imputed_details_to_df p average_cv_score data_for_month
                       predicted_data previous_result include_stats;
         Ok (data_for_month, result_df)) with
  | Err e => (Err e, st)
  | Ok (data_for_month, result_df) =>
      let warned :=
        if negb (height data_for_month =? height result_df)
        then length_mismatch_warning month_id (height data_for_month) (height result_df)
             :: warnings st
        else warnings st in
      match (selected ← select (output_columns (target_col (model_ref p)) result_df)
                           result_df;
             sort ["date"; "grid_id"] selected) with
      | Err e => (Err e, mkRun (world st) warned)
      | Ok out =>
          (Ok result_df,
           mkRun (write_to_destination out
                    (for_month (output_data_artifact p) month_id) (world st))
                 warned)
      end
  end.

(** The loop of [predict] over the months, in order, carrying the previous
    month's result. *)
Fixpoint predict_loop (p : RegressionModelPredictor) (average_cv_score : Q)
    (include_stats : bool) (months : list Arrow) (previous_result : option DataFrame)
    (st : Run) : res unit * Run :=
  match months with
  | [] => (Ok (), st)
  | month :: rest =>
      match predict_month p average_cv_score include_stats month previous_result st with
      | (Err e, st') => (Err e, st')
      | (Ok result_df, st') =>
          predict_loop p average_cv_score include_stats rest (Some result_df) st'
      end
  end.

(** [RegressionModelPredictor.predict] *)
Definition predict (p : RegressionModelPredictor) (include_stats : bool) (st : Run)
  : res unit * Run :=
  let average_cv_score := mean_test_r2 (model p) in
  match _check_model_quality p average_cv_score with
  | Err e => (Err e, st)
  | Ok _ => predict_loop p average_cv_score include_stats (months p) None st
  end.

End Predictor.

(** Sample data and predicates in which the engine's properties are stated. *)

Module PredictorSpec.
Import Calendar Planner Polars Storage Predictor.

Definition input_row (g : Z) (d : string) (target : option Q) (f1 f2 : Q)
  : gmap string value :=
  let r := <["grid_id" := VInt g]> (<["date" := VStr d]>
             (<["feature1" := VFloat f1]> (<["feature2" := VFloat f2]> ∅))) in
  match target with
  | Some q => <["target_col" := VFloat q]> r
  | None => r
  end.

Definition input_columns : list string :=
  ["grid_id"; "date"; "target_col"; "feature1"; "feature2"].

(** The input of a month in the predictor's test: two grid cells on three
    days, with [target_col] equal to [None, None, 1.0, 1.0, None, 2.0]. *)
Definition test_month_frame (month_id : string) : DataFrame :=
  mkDataFrame input_columns
    [ input_row 1 (month_id +:+ "-01") None (1#10)%Q (7#10)%Q;
      input_row 2 (month_id +:+ "-01") None (2#10)%Q (8#10)%Q;
      input_row 1 (month_id +:+ "-02") (Some 1%Q) (3#10)%Q (9#10)%Q;
      input_row 2 (month_id +:+ "-02") (Some 1%Q) (4#10)%Q 1%Q;
      input_row 1 (month_id +:+ "-03") None (5#10)%Q (11#10)%Q;
      input_row 2 (month_id +:+ "-03") (Some 2%Q) (6#10)%Q (12#10)%Q ].

Definition test_predictions : list Q := [1; 2; 1; 2; 1; 2]%Q.

Definition test_model : LoadedValidatedModel :=
  mkLoadedModel (8#10)%Q [(85#100)%Q; (9#10)%Q] (λ _, Ok test_predictions).

Definition test_reference (lo hi : Q) : ModelReference :=
  mkModelReference "aod" ["feature1"; "feature2"] "target_col" lo hi.

Definition test_input : DataArtifactRef := mkDataArtifactRef "input_stage" None.
Definition test_output : DataArtifactRef := mkDataArtifactRef "imputed+aod" None.

Definition test_predictor (lo hi : Q) : RegressionModelPredictor :=
  mkPredictor (test_reference lo hi) test_model
    [mkArrow 2023 1 1 0; mkArrow 2023 2 1 0] test_input test_output.

Definition test_run : Run :=
  mkRun
    (write_to_destination (test_month_frame "2023-02") (for_month test_input "2023-02")
       (write_to_destination (test_month_frame "2023-01") (for_month test_input "2023-01")
          (mkWorld [] [])))
    [].

(** The column [c] of the partition written for a month, top to bottom. *)
Definition written_column (st : Run) (a : DataArtifactRef) (month_id c : string)
  : option (list (option value)) :=
  (λ df, (λ r : gmap string value, r !! c) <$> rows df)
    <$> lookup_partition (world st) (for_month a month_id).



Definition is_current (r : gmap string value) : bool :=
  bool_decide (r !! "_which_df" = Some (VStr "current")).


(** A month of two grid cells observed on the given days. *)
Definition observed_row (g : Z) (d : string) (target : Q) : gmap string value :=
  <["grid_id" := VInt g]> (<["date" := VStr d]> (<["target_col" := VFloat target]> ∅)).

Definition observed_columns : list string := ["grid_id"; "date"; "target_col"].

(** December: grid cell 1 has the series [1.0, 2.0, 1.0] and grid cell 2 the
    series [2.0, 1.0, 2.0]. *)
Definition december : DataFrame :=
  mkDataFrame observed_columns
    [ observed_row 1 "2022-12-29" 1%Q; observed_row 2 "2022-12-29" 2%Q;
      observed_row 1 "2022-12-30" 2%Q; observed_row 2 "2022-12-30" 1%Q;
      observed_row 1 "2022-12-31" 1%Q; observed_row 2 "2022-12-31" 2%Q ].

(** January: grid cell 1 has the value 1.0 and grid cell 2 the value 2.0. *)
Definition january : DataFrame :=
  mkDataFrame observed_columns
    [ observed_row 1 "2023-01-01" 1%Q; observed_row 2 "2023-01-01" 2%Q ].

Definition example_predictor : RegressionModelPredictor :=
  mkPredictor (mkModelReference "aod" [] "target_col" 0%Q 1%Q)
    (mkLoadedModel (1#2)%Q [] (λ df, Ok (replicate (length (rows df)) 0%Q)))
    [mkArrow 2022 12 1 0; mkArrow 2023 1 1 0] test_input test_output.

Definition result_or_empty (r : res DataFrame) : DataFrame :=
  match r with
  | Ok df => df
  | Err _ => mkDataFrame [] []
  end.

(** December's result, computed without a previous month, and January's,
    computed after it. *)
Definition december_result : DataFrame :=
  result_or_empty
    (_add_imputed_details_to_df example_predictor (1#2)%Q december
       (replicate 6 0%Q) None true).

Definition january_result : DataFrame :=
  result_or_empty
    (_add_imputed_details_to_df example_predictor (1#2)%Q january
       (replicate 2 0%Q) (Some december_result) true).

(** The rolling means of January's rows when January follows December. *)
Definition january_rolling : option (list (option value * option value)) :=
  match _add_imputed_details_to_df example_predictor (1#2)%Q december
          (replicate 6 0%Q) None true with
  | Ok december_result =>
      match _add_imputed_details_to_df example_predictor (1#2)%Q january
              (replicate 2 0%Q) (Some december_result) true with
      | Ok january_result =>
          Some ((λ r : gmap string value,
                   (r !! "grid_id", r !! "target_col__imputed_r7d"))
                  <$> rows january_result)
      | Err _ => None
      end
  | Err _ => None
  end.

End PredictorSpec.

(** ** The temporal range ([setup/temporal_config.py]) *)

Module Temporal.
Import Calendar Planner.

Record TemporalConfig : Type := mkTemporalConfig {
  start_date : Arrow;
  end_date : Arrow
}.

(** [TemporalConfig.end_date_exclusive] *)
Definition end_date_exclusive (c : TemporalConfig) : Arrow :=
  shift_months 1 (end_date c).

(** [list(range(a, b))] *)
Definition py_range (a b : Z) : list Z := seqZ a (b - a).

(** [TemporalConfig.years] *)
Definition years (c : TemporalConfig) : list Z :=
  py_range (year (start_date c)) (year (end_date c) + 1).

(** [datetime] has the years 1 to 9999, so that no range has more than
    [MAX_MONTHS] months. *)
Definition MAX_MONTHS : nat := Z.to_nat (12 * 9999).

(** [Arrow.range("month", start, end)]: the instants [start], [start] plus
    one month, [start] plus two months and so on, as long as they are not
    after [end]; a day past the end of the month reached is clipped to the
    last day of that month.  [current] is the instant of turn [i]. *)
Fixpoint range_month_from (turns : nat) (start end_ : Arrow) (i : Z) (current : Arrow)
  : list Arrow :=
  match turns with
  | O => []
  | S turns' =>
      if instant current <=? instant end_
      then current
           :: range_month_from turns' start end_ (i + 1) (shift_months (i + 1) start)
      else []
  end.

Definition range_month (start end_ : Arrow) : list Arrow :=
  range_month_from MAX_MONTHS start end_ 0 start.

(** [TemporalConfig.months] *)
Definition months (c : TemporalConfig) : list Arrow :=
  range_month (start_date c) (end_date c).

(** [TemporalConfig.month_ids] *)
Definition month_ids (c : TemporalConfig) : list string :=
  _month_format <$> months c.

End Temporal.

(** Predicates and sample data in which the properties of the temporal range
    are stated. *)

Module TemporalSpec.
Import Calendar Planner Spatial Temporal.

(** The number of a calendar month on the line of all months. *)
Definition month_index (y m : Z) : Z := 12 * y + (m - 1).

(** The first instant of the month of a given number. *)
Definition first_instant_of (k : Z) : Arrow := mkArrow (k / 12) (k mod 12 + 1) 1 0.

(** An instant that [datetime] can hold, before the last year. *)
Definition valid_arrow (a : Arrow) : Prop :=
  valid_month (year a) (month a)
  ∧ year a < 9999
  ∧ 1 ≤ day a ≤ Calendar._days_in_month (year a) (month a)
  ∧ 0 ≤ microsecond_of_day a < DAY_US.

(** The first instant of a month. *)
Definition starts_month (a : Arrow) : Prop :=
  valid_month (year a) (month a) ∧ day a = 1 ∧ microsecond_of_day a = 0.

(** The four characters of a year in a month identifier read back as the
    year, and the two characters of a month as the month. *)
Definition year_digits_ok (y : Z) : bool :=
  match pad 4 (pretty y) with
  | String a (String b (String c (String d EmptyString))) =>
      match digit_of a, digit_of b, digit_of c, digit_of d with
      | Some d1, Some d2, Some d3, Some d4 =>
          1000 * d1 + 100 * d2 + 10 * d3 + d4 =? y
      | _, _, _, _ => false
      end
  | _ => false
  end.

Definition month_digits_ok (m : Z) : bool :=
  match pad 2 (pretty m) with
  | String a (String b EmptyString) =>
      match digit_of a, digit_of b with
      | Some d1, Some d2 => 10 * d1 + d2 =? m
      | _, _ => false
      end
  | _ => false
  end.

(** The range of the planner's test: January and February 2023. *)
Definition test_temporal_config : TemporalConfig :=
  mkTemporalConfig (mkArrow 2023 1 1 0) (mkArrow 2023 2 1 0).

(** A range that goes over the end of a year. *)
Definition winter_config : TemporalConfig :=
  mkTemporalConfig (mkArrow 2022 11 1 0) (mkArrow 2023 2 15 0).

(** Decides the bounds of a closed instant. *)
Ltac closed_bounds :=
  repeat split; vm_compute; first [reflexivity | intro; discriminate].

End TemporalSpec.

(** ** Combine plan builder ([combiners/archive/combine_planner.py]) *)

Module PlanBuilder.
Import Calendar Planner Temporal.

#[global] Instance HivePath_eq_dec : EqDecision HivePath.
Proof. solve_decision. Defined.

(** [CombinePlan.month_id] *)
Definition month_id (p : CombinePlan) : string := _month_format (plan_month p).

(** Modelled from the spec: [HivePath.require_key], the value under a key of
    a partition reference; a reference without the key is an error. *)
Definition require_key (key : string) (p : HivePath) : res string :=
  match metadata p !! key with
  | Some v => Ok v
  | None => Err (KeyError key)
  end.

Record CombinePlanner : Type := mkCombinePlanner {
  months : list Arrow
}.

(** [CombinePlanner.__init__] *)
Definition new_planner (temporal_config : TemporalConfig) : CombinePlanner :=
  mkCombinePlanner (Temporal.months temporal_config).

(** [{path.metadata["dataset"] for path in hive_paths}]: the order in which
    Python iterates over a set is not specified; the names are kept in the
    order of their first occurrence. *)
Definition dataset_names (results : list UploadResult) : res (list string) :=
  names ← mapM (λ r, metadata_item "dataset" (hive_path (pipeline_config r))) results;
  Ok (remove_dups names).

(** [_DatasetResultGroup.group_by_dataset] *)
Definition group_by_dataset (results : list UploadResult)
  : res (list _DatasetResultGroup) :=
  names ← dataset_names results;
  Ok ((λ dataset,
         mkGroup dataset
           (List.filter (λ r, bool_decide (meta r !! "dataset" = Some dataset)) results))
        <$> (names : list string)).

(** [CombinePlanner._list_paths_to_merge] *)
Definition _list_paths_to_merge (month : Arrow) (results : list UploadResult)
  : res (list HivePath) :=
  dataset_groups ← group_by_dataset results;
  mapM (λ group, get_best_matching group month) dataset_groups.

(** [all_id_columns] of [plan], a set kept as a list without repetition. *)
Definition all_id_columns (results : list UploadResult) : list string :=
  remove_dups (r ← results; id_columns (pipeline_config r)).

(** [all_value_columns] of [plan] *)
Definition all_value_columns (results : list UploadResult) : res (list string) :=
  columns ←
    mapM (λ r,
            mapM (λ column,
                    dataset ← require_key "dataset" (hive_path (pipeline_config r));
                    Ok (dataset +:+ "__" +:+ column))
                 (value_column_type_map (pipeline_config r)))
         results;
  Ok (remove_dups (mjoin columns)).

(** [CombinePlanner.plan] *)
Definition plan (planner : CombinePlanner) (results : list UploadResult)
  : res (list CombinePlan) :=
  all_value_columns ← all_value_columns results;
  let all_expected_columns := list_union (all_id_columns results) all_value_columns in
  mapM (λ month,
          paths ← _list_paths_to_merge month results;
          Ok (mkCombinePlan month (remove_dups paths) all_expected_columns))
       (months planner).

End PlanBuilder.

(** Sample data in which the properties of the plan builder are witnessed. *)

Module PlanBuilderSpec.
Import Calendar Planner PlannerSpec Temporal TemporalSpec PlanBuilder.

Definition test_result (dataset key value : string) (ids values : list string)
    (c : DataCompleteness) (h : MissingDataHeuristic) : UploadResult :=
  mkUploadResult
    (mkPipelineConfig
       (mkHivePath (<["country" := "india"]> (<["dataset" := dataset]>
                      (<[key := value]> ∅))))
       ids values 1 (mkBehaviour h))
    c.

(** The results of the planner's test of the fallback: the yearly dataset
    has data for 2021 only, and the first monthly dataset has none for
    January 2023. *)
Definition fallback_results : list UploadResult :=
  [ test_result "static_dataset" "type" "static" ["grid_id"] ["s1"; "s2"] COMPLETE STRICT;
    test_result "yearly_dataset" "year" "2021" ["grid_id"] ["y1"] COMPLETE STRICT;
    test_result "yearly_dataset" "year" "2022" ["grid_id"] ["y1"]
      EMPTY COPY_LATEST_AVAILABLE_BEFORE;
    test_result "yearly_dataset" "year" "2023" ["grid_id"] ["y1"]
      EMPTY COPY_LATEST_AVAILABLE_BEFORE;
    test_result "monthly_dataset1" "month" "2022-12" ["date"; "grid_id"] ["d1v1"; "d1v2"]
      COMPLETE STRICT;
    test_result "monthly_dataset1" "month" "2023-01" ["date"; "grid_id"] ["d1v1"; "d1v2"]
      EMPTY COPY_LATEST_AVAILABLE_BEFORE;
    test_result "monthly_dataset2" "month" "2023-01" ["date"; "grid_id"] ["d2v1"]
      COMPLETE STRICT;
    test_result "monthly_dataset1" "month" "2023-02" ["date"; "grid_id"] ["d1v1"; "d1v2"]
      COMPLETE STRICT;
    test_result "monthly_dataset2" "month" "2023-02" ["date"; "grid_id"] ["d2v1"]
      COMPLETE STRICT ].

Definition test_planner : CombinePlanner := new_planner test_temporal_config.

(** What [group_by_dataset] and [plan] give on the results of the test. *)
Definition fallback_groups : list _DatasetResultGroup :=
  Eval vm_compute in
    match group_by_dataset fallback_results with Ok gs => gs | Err _ => [] end.

Definition fallback_plans : list CombinePlan :=
  Eval vm_compute in
    match plan test_planner fallback_results with Ok ps => ps | Err _ => [] end.

(** The plan of the first month of the test. *)
Definition first_fallback_plan : CombinePlan :=
  Eval vm_compute in
    match fallback_plans with
    | p :: _ => p
    | [] => mkCombinePlan (mkArrow 2023 1 1 0) [] []
    end.

(** A monthly dataset without a partition for the months of the test. *)
Definition december_only : _DatasetResultGroup :=
  mkGroup "monthly_dataset1"
    [ test_result "monthly_dataset1" "month" "2022-12" ["date"; "grid_id"] ["d1v1"]
        COMPLETE COPY_LATEST_AVAILABLE_BEFORE ].

End PlanBuilderSpec.

(** ** The run of the spatial gap-fill orchestrator
       ([imputation/spatial/spatial_imputation_manager.py]) *)

Module SpatialRun.
Import Calendar Planner Polars Storage Spatial.

Definition missing_months_error (missing_months_text : string) : string :=
  "The following months are not present in the dataset: " +:+ missing_months_text +:+ ".".

(** [sorted(strings)] *)
Definition sorted (l : list string) : list string :=
  merge_sort (λ a b, Is_true (String.leb a b)) l.

(** [ds.select("month").unique().collect(...).to_series().sort()]: the
    distinct cells of the column [month], nulls first. *)
Definition available_to_process (ds : DataFrame) : res (list (option value)) :=
  month_only ← select ["month"] ds;
  Ok (merge_sort (λ a b, Is_true (cell_leb a b))
        (remove_dups ((λ r : gmap string value, r !! "month") <$> rows month_only))).

Section WithGrid.

(** [VALID_COUNTRIES["india"]], the fixed number of grid cells. *)
Variable india_grid_cells : Z.

Variable mgr : SpatialImputationManager.

(** Modelled from the spec: [CombinedStorage.scan_stage], the table over all
    partitions of a stage.  The table is lazy; it is taken as read when the
    run starts, which is what the run sees as long as it does not write to
    the stage it scans. *)
Variable scan_stage : World → string → res DataFrame.

(** [SpatialImputationManager._check_all_months_present] *)
Definition _check_all_months_present (ds : DataFrame) : res unit :=
  available ← available_to_process ds;
  let missing_months :=
    List.filter (λ m, negb (bool_decide (Some (VStr m) ∈ (available : list (option value)))))
                (remove_dups (months_as_ids mgr)) in
  match missing_months with
  | [] => Ok ()
  | _ => Err (ValueError (missing_months_error (String.concat ", " (sorted missing_months))))
  end.

(** [SpatialImputationManager.impute] *)
Definition impute (w : World) : res unit * World :=
  match (scanned ← scan_stage w "combined_monthly";
         combined_dataset ←
           select (["month"; "grid_id"; "date"]
                     ++ List.filter (selected (spatial_imputer mgr)) (columns scanned))
                  scanned;
         _ ← _check_all_months_present combined_dataset;
         let expected_columns := columns combined_dataset in
         months_to_upload ←
           _identify_months_to_upload india_grid_cells mgr w expected_columns;
         Ok (combined_dataset, months_to_upload)) with
  | Err e => (Err e, w)
  | Ok (combined_dataset, months_to_upload) =>
      let expected_columns := columns combined_dataset in
      let '(_, w') := _impute_all_months mgr combined_dataset months_to_upload w in
      (_validate_all india_grid_cells mgr w' months_to_upload expected_columns, w')
  end.

End WithGrid.

End SpatialRun.

(** Sample data in which the properties of the run are witnessed. *)

Module SpatialRunSpec.
Import Calendar Planner Polars Storage Spatial SpatialSpec SpatialRun.

(** A dataset that has rows for January 2023 only. *)
Definition january_only : DataFrame :=
  mkDataFrame test_columns
    [ month_row "2023-01" 1 "2023-01-01" (Some 10);
      month_row "2023-01" 2 "2023-01-02" None ].

(** A grid of one cell, and a dataset with a row for every day of February
    2023 in which the value of every other day is missing. *)
Definition day_rows (month : string) (days : Z) : list (gmap string value) :=
  (λ d, month_row month 1 (month +:+ "-" +:+ pad 2 (pretty d))
          (if Z.even d then Some d else None))
    <$> seqZ 1 days.

Definition february : DataFrame := mkDataFrame test_columns (day_rows "2023-02" 28).

(** An orchestrator for February 2023 that fills every gap with 0. *)
Definition february_manager : SpatialImputationManager :=
  mkManager (mkInterpolator "value_column_regex" test_selector fill_with_zero)
            [mkArrow 2023 2 1 0]
            (mkDataArtifactRef "combined_monthly" None)
            (mkDataArtifactRef "era5_spatially_imputed" None).

(** A storage whose stages all scan to the same table. *)
Definition scan_to (ds : DataFrame) : World → string → res DataFrame :=
  λ _ _, Ok ds.

(** The run on February, and the store it leaves. *)
Definition february_run : res unit * World :=
  Eval vm_compute in impute 1 february_manager (scan_to february) empty_world.

Definition february_after : World := february_run.2.

End SpatialRunSpec.

(** ** Sampling of the rows that have a value ([sample/full_model_sampler.py]) *)

Module Sampler.
Import Calendar Planner Polars Storage Temporal.

Record FullModelSampler : Type := mkFullModelSampler {
  temporal_config : TemporalConfig;
  column_name : string;
  input_data_artifact : DataArtifactRef;
  output_data_artifact : DataArtifactRef
}.

(** The rows of a frame that have a value in the column [c]. *)
Definition rows_with_value (c : string) (df : DataFrame) : DataFrame :=
  {| columns := columns df;
     rows := List.filter (λ r, bool_decide (is_Some (r !! c))) (rows df) |}.

(** [df.filter(pl.col(c).is_not_null())]: a column the frame does not have
    is an error. *)
Definition filter_not_null (c : string) (df : DataFrame) : res DataFrame :=
  if has_column c df then Ok (rows_with_value c df)
  else Err (PolarsError ("ColumnNotFoundError: " +:+ c)).

(** [FullModelSampler._process_month] *)
Definition _process_month (s : FullModelSampler) (month : string) (w : World)
  : res unit * World :=
  match (df ← read_dataframe w (for_month (input_data_artifact s) month);
         filter_not_null (column_name s) df) with
  | Ok monthly_data =>
      (Ok (),
       write_to_destination monthly_data (for_month (output_data_artifact s) month) w)
  | Err e => (Err e, w)
  end.

(** [FullModelSampler.sample]: a task is submitted for every month and the
    pool is left only when all of them have run.  The results are taken in
    the order in which the tasks complete, which is not specified; the
    failure raised is taken to be that of the first month that fails. *)
Definition sample (s : FullModelSampler) (w : World) : res unit * World :=
  let '(results, w') :=
    executor_map (_process_month s) (month_ids (temporal_config s)) w in
  (_ ← drain results; Ok (), w').

End Sampler.

(** Sample data in which the sampler's properties are witnessed. *)

Module SamplerSpec.
Import Calendar Planner Polars Storage Temporal Sampler.

Definition origin_artifact : DataArtifactRef := mkDataArtifactRef "origin_stage" None.
Definition result_artifact : DataArtifactRef := mkDataArtifactRef "result_stage" None.

Definition sample_row (g : Z) (d : string) (v : option Q) : gmap string value :=
  let r := <["grid_id" := VInt g]> (<["date" := VStr d]> ∅) in
  match v with
  | Some q => <["col_1" := VFloat q]> r
  | None => r
  end.

(** The January frame of the sampler's test. *)
Definition january_frame : DataFrame :=
  mkDataFrame ["grid_id"; "date"; "col_1"]
    [ sample_row 1 "2023-01-01" (Some (10#1)%Q);
      sample_row 2 "2023-01-01" None;
      sample_row 3 "2023-01-02" (Some (30#1)%Q) ].

(** A store that has the January partition of the origin stage and no
    February partition. *)
Definition january_world : World :=
  write_to_destination january_frame (for_month origin_artifact "2023-01") (mkWorld [] []).

Definition one_month_sampler : FullModelSampler :=
  mkFullModelSampler (mkTemporalConfig (mkArrow 2023 1 1 0) (mkArrow 2023 1 31 0))
    "col_1" origin_artifact result_artifact.

Definition two_months_sampler : FullModelSampler :=
  mkFullModelSampler (mkTemporalConfig (mkArrow 2023 1 1 0) (mkArrow 2023 2 28 0))
    "col_1" origin_artifact result_artifact.

End SamplerSpec.

(** Notions in which the writes of the merge engine are stated. *)

Module MergeSpec.
Import Calendar Planner Polars Storage Recombiner RecombinerSpec.


(** The store of the test after the merge of January alone. *)
Definition january_merged : World :=
  Eval vm_compute in
    (process_month test_recombiner test_stages false (mkArrow 2023 1 1 0) test_world).2.


End MergeSpec.

(** Notions and sample data in which further properties of the regression
    imputation engine are stated. *)

Module ImputationSpec.
Import Calendar Planner Polars Storage Predictor PredictorSpec.

(** The output partition of a month. *)
Definition imputed_path (p : RegressionModelPredictor) (m : Arrow) : HivePath :=
  for_month (output_data_artifact p) (_month_format m).


(** [coalesce(a, b)]: the first of two cells that is not null. *)
Definition coalesce (a b : option value) : option value :=
  match a with
  | Some v => Some v
  | None => b
  end.

(** A store that holds the January frame of the example as input. *)
Definition january_run : Run :=
  mkRun (write_to_destination january (for_month test_input "2023-01") (mkWorld [] [])) [].

(** A turn of the loop of the example predictor on January, without a
    previous month. *)
Definition january_turn : res DataFrame * Run :=
  Eval vm_compute in
    predict_month example_predictor (1#2)%Q true (mkArrow 2023 1 1 0) None january_run.

Definition january_turn_result : DataFrame := result_or_empty january_turn.1.

(** The first row of that result. *)
Definition january_turn_row : gmap string value :=
  default ∅ (rows january_turn_result !! 0%nat).

(** Proves that two column names are different. *)
Ltac different_names :=
  let E := fresh "E" in
  let L := fresh "L" in
  intros E;
  pose proof (f_equal String.length E) as L;
  repeat match type of L with
         | context [String.length (?a +:+ ?b)] =>
             replace (String.length (a +:+ b))
               with (String.length a + String.length b)%nat in L
               by (clear; induction a as [|? ? IH]; [reflexivity|];
                   change (S (String.length a + String.length b)
                           = S (String.length (a +:+ b)));
                   by rewrite IH)
         end;
  cbn in L;
  first
    [ lia
    | match type of E with
      | ?t +:+ _ = _ =>
          destruct t as [|? [|? [|? ?]]]; cbn in L; try lia;
          vm_compute in E; congruence
      end ].

End ImputationSpec.

(** ** Imputation controller ([imputation/from_model/imputation_controller.py]) *)

Module Controller.
Import Calendar Planner Polars Storage Temporal Recombiner Predictor.

(** Modelled from the spec: [ModelStorage], from which the latest trained
    model of a name is loaded; loading may fail. *)
Record ModelStorage : Type := mkModelStorage {
  load_latest_model : string → res LoadedValidatedModel
}.

(** Modelled from the spec: [DataArtifactRef.for_sub_artifact], the
    reference of a sub-artifact of the stage, [stage+sub]. *)
Definition for_sub_artifact (a : DataArtifactRef) (sub : string) : DataArtifactRef :=
  mkDataArtifactRef (stage a) (Some sub).

(** [model_refs] is a [dict], of which the items are visited in the order of
    insertion. *)
Record ImputationController : Type := mkImputationController {
  model_store : ModelStorage;
  temporal_config : TemporalConfig;
  model_refs : list (string * ModelReference);
  recombiner : Recombiner;
  input_data_artifact : DataArtifactRef;
  output_data_artifact : DataArtifactRef
}.

(** [ImputationController._impute_for_model] *)
Definition _impute_for_model (c : ImputationController) (model_name : string)
    (model_ref : ModelReference) (st : Run) : res DataArtifactRef * Run :=
  match load_latest_model (model_store c) model_name with
  | Err e => (Err e, st)
  | Ok latest_model =>
      let sub_artifact := for_sub_artifact (output_data_artifact c) model_name in
      let regression_model_imputer :=
        mkPredictor model_ref latest_model (Temporal.months (temporal_config c))
                    (input_data_artifact c) sub_artifact in
      match predict regression_model_imputer true st with
      | (Ok _, st') => (Ok sub_artifact, st')
      | (Err e, st') => (Err e, st')
      end
  end.

(** The loop of [ImputationController._impute_for_all]. *)
Fixpoint impute_for_each (c : ImputationController)
    (items : list (string * ModelReference)) (st : Run)
  : res (list DataArtifactRef) * Run :=
  match items with
  | [] => (Ok [], st)
  | (model_name, model_ref) :: items' =>
      match _impute_for_model c model_name model_ref st with
      | (Err e, st') => (Err e, st')
      | (Ok sub_artifact, st') =>
          match impute_for_each c items' st' with
          | (Err e, st'') => (Err e, st'')
          | (Ok to_add_stage_names, st'') => (Ok (sub_artifact :: to_add_stage_names), st'')
          end
      end
  end.

(** [ImputationController._impute_for_all] *)
Definition _impute_for_all (c : ImputationController) (st : Run)
  : res (list DataArtifactRef) * Run :=
  impute_for_each c (model_refs c) st.

(** [ImputationController.impute] *)
Definition impute (c : ImputationController) (st : Run) : res unit * Run :=
  match _impute_for_all c st with
  | (Err e, st') => (Err e, st')
  | (Ok to_add_stage_names, st') =>
      let '(r, w) :=
        recombine (recombiner c) (input_data_artifact c :: to_add_stage_names) false
                  (world st') in
      (r, mkRun w (warnings st'))
  end.

End Controller.

(** Sample data in which the controller's properties are witnessed. *)

Module ControllerSpec.
Import Calendar Planner Polars Storage Temporal Recombiner Predictor PredictorSpec.
Import Controller.



(** A controller of one model, whose stored cross-validation scores lie
    below the lower bound of the model's reference. *)
Definition low_score_controller : ImputationController :=
  mkImputationController
    (mkModelStorage (λ _, Ok test_model))
    (mkTemporalConfig (mkArrow 2023 1 1 0) (mkArrow 2023 2 1 0))
    [("aod", test_reference (9#10)%Q 1%Q)]
    (mkRecombiner (mkDataArtifactRef "imputed" None)
       [mkArrow 2023 1 1 0; mkArrow 2023 2 1 0] 4 false)
    test_input
    (mkDataArtifactRef "imputed_parts" None).

End ControllerSpec.

(** ** Quality markers of the measurements ([setup/ingestion/pm25_filters.py]) *)

Module Pm25Filters.
Import Polars.

Definition _REPEATING_DAYS_REQUIREMENT : nat := 5.
Definition _REPEATING_IS_DUPLICATE_THRESHOLD : Q := (5#100)%Q.
Definition _ANOMALY_IQR_TOO_HIGH_MULTIPLE : Q := 15%Q.
Definition _MAX_ALLOWABLE_VALUE : Q := (99999#100)%Q.

(** The value of a boolean expression at a row: true, false, or null when an
    operand is null. *)
Definition gt (a b : option Q) : option bool :=
  match a, b with
  | Some x, Some y => Some (negb (Qle_bool x y))
  | _, _ => None
  end.

Definition ge (a b : option Q) : option bool :=
  match a, b with
  | Some x, Some y => Some (Qle_bool y x)
  | _, _ => None
  end.

Definition lt (a b : option Q) : option bool := gt b a.

Definition sub (a b : option Q) : option Q :=
  match a, b with
  | Some x, Some y => Some (x - y)%Q
  | _, _ => None
  end.

Definition mul (a b : option Q) : option Q :=
  match a, b with
  | Some x, Some y => Some (x * y)%Q
  | _, _ => None
  end.

(** [expr.abs()] *)
Definition abs (a : option Q) : option Q :=
  (λ x, if Qle_bool 0 x then x else (- x)%Q) <$> a.

(** The cells of a numeric column, top to bottom; a column the frame does
    not have, or one of strings, is an error. *)
Definition numeric_cells (c : string) (df : DataFrame) : res (list (option Q)) :=
  if has_column c df
  then mapM (λ r : gmap string value, float_of (r !! c)) (rows df)
  else Err (PolarsError ("ColumnNotFoundError: " +:+ c)).

(** [_mark_matching_as_dropped] at a row:
    [pl.when(expression).then(pl.lit("drop")).otherwise(pl.col("label"))];
    a null condition is not met. *)
Definition _mark_matching_as_dropped (expression : option bool) (r : gmap string value)
  : option value :=
  match expression with
  | Some true => Some (VStr "drop")
  | _ => r !! "label"
  end.

(** [to_process_df.with_columns(label=_mark_matching_as_dropped(expression))]
    for an expression with the values [marks] on the rows. *)
Definition with_label (marks : list (option bool)) (df : DataFrame) : res DataFrame :=
  if has_column "label" df
  then Ok (with_column "label" (zip_with _mark_matching_as_dropped marks (rows df)) df)
  else Err (PolarsError "ColumnNotFoundError: label").

(** [MaxValueMarker.mark] *)
Definition max_value_mark (to_process_df : DataFrame) : res DataFrame :=
  values ← numeric_cells "value" to_process_df;
  let is_too_high := (λ v, ge v (Some _MAX_ALLOWABLE_VALUE)) <$> (values : list (option Q)) in
  with_label is_too_high to_process_df.

(** [AnomalyMarker.mark] *)
Definition anomaly_mark (to_process_df : DataFrame) : res DataFrame :=
  values ← numeric_cells "value" to_process_df;
  station_iqr ← numeric_cells "station_iqr" to_process_df;
  let is_too_high :=
    zip_with (λ v iqr, gt v (mul iqr (Some _ANOMALY_IQR_TOO_HIGH_MULTIPLE)))
             (values : list (option Q)) (station_iqr : list (option Q)) in
  with_label is_too_high to_process_df.

(** [RepeatingValuesMarker.mark].  In
    [pl.col("value").over("location_id").rolling_mean(window_size=5)] the
    window expression [over] gives every row its own value, and the rolling
    mean is taken of that column, in the order of the rows of the frame;
    without [min_samples] a window needs five values. *)
Definition repeating_values_mark (to_process_df : DataFrame) : res DataFrame :=
  values ← numeric_cells "value" to_process_df;
  _ ← (if has_column "location_id" to_process_df then Ok ()
       else Err (PolarsError "ColumnNotFoundError: location_id") : res unit);
  let rolling_average :=
    rolling_mean _REPEATING_DAYS_REQUIREMENT _REPEATING_DAYS_REQUIREMENT
                 (values : list (option Q)) in
  let repeats_for_too_long :=
    zip_with (λ v avg, lt (abs (sub v avg)) (Some _REPEATING_IS_DUPLICATE_THRESHOLD))
             (values : list (option Q)) rolling_average in
  with_label repeats_for_too_long to_process_df.

(** The window size of each marker. *)
Definition repeating_values_window_size : nat := _REPEATING_DAYS_REQUIREMENT.
Definition anomaly_window_size : nat := 1.
Definition max_value_window_size : nat := 1.

(** [define_filters]: the markers, as the functions that mark a frame. *)
Definition define_filters : list (DataFrame → res DataFrame) :=
  [repeating_values_mark; anomaly_mark; max_value_mark].

End Pm25Filters.

(** Sample data in which the markers' properties are witnessed. *)

Module Pm25FiltersSpec.
Import Polars Pm25Filters.

Definition measurement (location : string) (v : option Q) (iqr : Q) (label : string)
  : gmap string value :=
  let r := <["location_id" := VStr location]> (<["station_iqr" := VFloat iqr]>
             (<["label" := VStr label]> ∅)) in
  match v with
  | Some q => <["value" := VFloat q]> r
  | None => r
  end.

Definition measurement_columns : list string :=
  ["location_id"; "value"; "station_iqr"; "label"].

(** Measurements of two stations: the first repeats the value 40, the
    second has a value above the highest allowed one. *)
Definition measurements : DataFrame :=
  mkDataFrame measurement_columns
    [ measurement "a" (Some 40%Q) 10%Q "ok";
      measurement "a" (Some 40%Q) 10%Q "ok";
      measurement "a" (Some 40%Q) 10%Q "ok";
      measurement "a" (Some 40%Q) 10%Q "ok";
      measurement "a" (Some 40%Q) 10%Q "ok";
      measurement "b" (Some 1000%Q) 100%Q "ok";
      measurement "b" None 100%Q "ok";
      measurement "b" (Some 200%Q) 10%Q "drop" ].

(** Five readings of one station that repeat a value above the highest
    allowed one. *)
Definition repeated_reading (v : Q) : gmap string value :=
  <["location_id" := VStr "a"]> (<["value" := VFloat v]> (<["label" := VStr "ok"]> ∅)).

Definition readings : DataFrame :=
  mkDataFrame ["location_id"; "value"; "label"]
    (replicate 5 (repeated_reading 1000%Q)).

Definition frame_or_empty (r : res DataFrame) : DataFrame :=
  match r with
  | Ok df => df
  | Err _ => mkDataFrame [] []
  end.

(** The readings marked by the marker of repeating values, and then by the
    marker of the highest allowed value. *)
Definition readings_repeating : DataFrame :=
  Eval vm_compute in frame_or_empty (repeating_values_mark readings).

Definition readings_repeating_max : DataFrame :=
  Eval vm_compute in frame_or_empty (max_value_mark readings_repeating).

(** The label of every row, top to bottom. *)
Definition labels (df : DataFrame) : list (option value) :=
  (λ r : gmap string value, r !! "label") <$> rows df.

Definition labels_of (r : res DataFrame) : list (option value) :=
  match r with
  | Ok df => labels df
  | Err _ => []
  end.

(** A marker changes labels only, and only to ["drop"]: the frame [df']
    has the columns of [df] and as many rows, and every row of [df'] is the
    row of [df] at its place, except that its label may have become
    ["drop"]. *)
Definition only_adds_drops (df df' : DataFrame) : Prop :=
  columns df' = columns df
  ∧ length (rows df') = length (rows df)
  ∧ ∀ i r r', rows df !! i = Some r → rows df' !! i = Some r' →
      (∀ c, c ≠ "label" → r' !! c = r !! c)
      ∧ (r' !! "label" = r !! "label" ∨ r' !! "label" = Some (VStr "drop")).

(** The condition of each marker, evaluated on the rows of a frame. *)
Definition max_value_condition (df : DataFrame) : res (list (option bool)) :=
  values ← numeric_cells "value" df;
  Ok ((λ v, ge v (Some _MAX_ALLOWABLE_VALUE)) <$> (values : list (option Q))).

Definition anomaly_condition (df : DataFrame) : res (list (option bool)) :=
  values ← numeric_cells "value" df;
  station_iqr ← numeric_cells "station_iqr" df;
  Ok (zip_with (λ v iqr, gt v (mul iqr (Some _ANOMALY_IQR_TOO_HIGH_MULTIPLE)))
               (values : list (option Q)) (station_iqr : list (option Q))).

Definition repeating_values_condition (df : DataFrame) : res (list (option bool)) :=
  values ← numeric_cells "value" df;
  _ ← (if has_column "location_id" df then Ok ()
       else Err (PolarsError "ColumnNotFoundError: location_id") : res unit);
  Ok (zip_with (λ v avg, lt (abs (sub v avg)) (Some _REPEATING_IS_DUPLICATE_THRESHOLD))
               (values : list (option Q))
               (rolling_mean _REPEATING_DAYS_REQUIREMENT _REPEATING_DAYS_REQUIREMENT
                             (values : list (option Q)))).

(** A marker that marks the rows on which a condition holds. *)
Definition marker_of (condition : DataFrame → res (list (option bool))) (df : DataFrame)
  : res DataFrame :=
  marks ← condition df;
  with_label marks df.

(** A condition that has a value for every row and does not look at the
    labels. *)
Definition label_free (condition : DataFrame → res (list (option bool))) : Prop :=
  (∀ df marks, condition df = Ok marks → length marks = length (rows df))
  ∧ (∀ df df', only_adds_drops df df' → condition df' = condition df).

(** The condition is met: a null condition is not. *)
Definition met (mark : option bool) : bool :=
  match mark with
  | Some true => true
  | _ => false
  end.

End Pm25FiltersSpec.

(** * Properties *)

(** ** Calendar arithmetic *)

Module CalendarFacts.
Import Calendar CalendarTactics.

Example format_2023_01 : format_YYYY_MM 2023 1 = "2023-01".
Proof. reflexivity. Qed.

Example days_in_february_2024 : _days_in_month 2024 2 = 29.
Proof. reflexivity. Qed.

Lemma is_leap_spec (y : Z) :
  _is_leap y = true ↔ y mod 4 = 0 ∧ (y mod 100 ≠ 0 ∨ y mod 400 = 0).
Proof.
  unfold _is_leap.
  rewrite andb_true_iff, orb_true_iff, negb_true_iff.
  rewrite !Z.eqb_eq, Z.eqb_neq. tauto.
Qed.

(** A year has 365 days, and one more when it is a leap year. *)
Lemma days_before_year_succ (y : Z) :
  _days_before_year (y + 1) - _days_before_year y
  = 365 + (if _is_leap y then 1 else 0).
Proof.
  unfold _days_before_year. cbv zeta.
  replace (y + 1 - 1) with y by lia.
  destruct (_is_leap y) eqn:L.
  - apply is_leap_spec in L. Z.div_mod_to_equations. lia.
  - assert (¬ (y mod 4 = 0 ∧ (y mod 100 ≠ 0 ∨ y mod 400 = 0))) as N.
    { rewrite <- is_leap_spec. congruence. }
    Z.div_mod_to_equations. lia.
Qed.

Lemma valid_month_cases (y m : Z) :
  valid_month y m →
  m = 1 ∨ m = 2 ∨ m = 3 ∨ m = 4 ∨ m = 5 ∨ m = 6 ∨
  m = 7 ∨ m = 8 ∨ m = 9 ∨ m = 10 ∨ m = 11 ∨ m = 12.
Proof. unfold valid_month. lia. Qed.

(** From the first day of a month to the first day of the next there are as
    many days as the month has. *)
Lemma first_of_next_month (y m us : Z) :
  valid_month y m →
  toordinal (shift_months 1 (mkArrow y m 1 us)) - toordinal (mkArrow y m 1 us)
  = _days_in_month y m.
Proof.
  intros V. pose proof (days_before_year_succ y) as Hy.
  unfold toordinal, shift_months, _ymd2ord, _days_before_month, _days_in_month in *.
  cbn [year month day microsecond_of_day].
  destruct (valid_month_cases _ _ V) as [->|[->|[->|[->|[->|[->|[->|[->|[->|[->|[->| ->]]]]]]]]]]];
    eval_closed_arith; rewrite ?Z.add_0_r; cbn match;
    destruct (_is_leap y); cbn [andb] in *; eval_closed_arith; lia.
Qed.

Lemma days_in_month_pos (y m : Z) : valid_month y m → 28 ≤ _days_in_month y m ≤ 31.
Proof.
  intros V. unfold _days_in_month.
  destruct (valid_month_cases _ _ V) as [->|[->|[->|[->|[->|[->|[->|[->|[->|[->|[->| ->]]]]]]]]]]];
    cbn; try lia; destruct (_is_leap y); cbn; lia.
Qed.

End CalendarFacts.

(** ** Storage gateway and worker pool *)

Module StorageFacts.
Import Planner Polars Storage.

Lemma elem_of_List_filter {A : Type} (f : A → bool) (l : list A) (x : A) :
  x ∈ List.filter f l ↔ x ∈ l ∧ f x = true.
Proof. by rewrite list_elem_of_In, filter_In, <- list_elem_of_In. Qed.

Lemma for_month_month (a a' : DataArtifactRef) (m m' : string) :
  metadata (for_month a m) = metadata (for_month a' m') → m = m'.
Proof.
  cbn. intros E.
  assert ((<["stage":=initial_path a]> (<["month":=m]> (∅ : gmap string string))) !! "month"
          = Some m) as H1 by by simplify_map_eq.
  rewrite E in H1. by simplify_map_eq.
Qed.

Lemma executor_map_reading {A B : Type} (f : World → A → res B) (xs : list A) (w : World) :
  executor_map (reading f) xs w = (f w <$> xs, w).
Proof.
  induction xs as [|x xs IH]; [done|].
  cbn [executor_map]. unfold reading at 1. by rewrite IH.
Qed.

Lemma drain_fmap_ok {A B : Type} (f : A → res B) (xs : list A) (bs : list B) :
  drain (f <$> xs) = Ok bs → Forall2 (λ x b, f x = Ok b) xs bs.
Proof.
  revert bs. induction xs as [|x xs IH]; intros bs; cbn.
  - intros [= <-]. constructor.
  - destruct (f x) as [b|e] eqn:Ef; cbn; [|done].
    destruct (drain (f <$> xs)) as [bs'|e] eqn:Ed; cbn; [|done].
    intros [= <-]. constructor; [done|]. by apply IH.
Qed.

Lemma drain_fmap_all_ok {A B : Type} (f : A → res B) (g : A → B) (xs : list A) :
  (∀ x, x ∈ xs → f x = Ok (g x)) → drain (f <$> xs) = Ok (g <$> xs).
Proof.
  induction xs as [|x xs IH]; intros H; [done|].
  cbn. rewrite (H x) by (apply elem_of_cons; by left). cbn.
  rewrite IH; [done|]. intros y Hy. apply H. apply elem_of_cons; by right.
Qed.

Lemma lookup_partition_write_ne (df : DataFrame) (p q : HivePath) (w : World) :
  metadata p ≠ metadata q →
  lookup_partition (write_to_destination df p w) q = lookup_partition w q.
Proof.
  intros Hne. unfold lookup_partition, write_to_destination. cbn.
  unfold same_partition at 1. cbn. by rewrite bool_decide_eq_false_2.
Qed.

Lemma lookup_partition_write_eq (df : DataFrame) (p : HivePath) (w : World) :
  lookup_partition (write_to_destination df p w) p = Some df.
Proof.
  unfold lookup_partition, write_to_destination. cbn.
  unfold same_partition at 1. cbn. by rewrite bool_decide_eq_true_2.
Qed.

End StorageFacts.

(** ** Combine planner *)

Module PlannerFacts.
Import Calendar CalendarFacts Planner PlannerSpec.

(** *** Expected rows of a plan *)


Example expected_rows_january_2023 (cells : Z) :
  expected_rows cells (mkCombinePlan (mkArrow 2023 1 1 0) [] ["col1"; "col2"])
  = cells * 31.
Proof. reflexivity. Qed.

(** *** The discriminator key *)

Lemma truthy_spec (o : option string) :
  truthy o = true ↔ ∃ v, o = Some v ∧ v ≠ "".
Proof.
  destruct o as [s|]; cbn.
  - rewrite negb_true_iff. split.
    + intros E. exists s. split; [done|]. intros ->. discriminate.
    + intros (v & [= <-] & Hv). destruct (String.eqb_spec s ""); congruence.
  - split; [discriminate|]. intros (v & ? & _). discriminate.
Qed.

Lemma forallb_static (g : _DatasetResultGroup) :
  forallb (λ r, bool_decide (meta r !! "type" = Some "static")) (results g) = true
  ↔ all_static g.
Proof.
  rewrite forallb_forall. unfold all_static.
  split; intros H r Hr.
  - apply list_elem_of_In in Hr. apply H in Hr. by apply bool_decide_eq_true in Hr.
  - apply bool_decide_eq_true. apply H. by apply list_elem_of_In.
Qed.

Lemma forallb_truthy (k : string) (g : _DatasetResultGroup) :
  forallb (λ r, truthy (meta r !! k)) (results g) = true ↔ all_have_value k g.
Proof.
  rewrite forallb_forall. unfold all_have_value.
  split; intros H r Hr.
  - apply truthy_spec, H. by apply list_elem_of_In.
  - apply truthy_spec, H. by apply list_elem_of_In.
Qed.

(** C8, as stated, fails: every member of [empty_month_group] has a
    [month] key and not every member is static, but the key resolved is
    [year], not [month]. *)
Lemma dataset_key_month_key_counterexample :
  ¬ all_static empty_month_group
  ∧ all_have_key "month" empty_month_group
  ∧ dataset_key empty_month_group ≠ Ok "month"
  ∧ dataset_key empty_month_group = Ok "year".
Proof.
  split; [|split; [|split]].
  - intros H. specialize (H empty_month_member).
    assert (empty_month_member ∈ results empty_month_group) as Hin by (cbn; set_solver).
    specialize (H Hin). vm_compute in H. discriminate.
  - intros r Hr. cbn in Hr. apply list_elem_of_singleton in Hr as ->.
    vm_compute. eauto.
  - vm_compute. discriminate.
  - vm_compute. reflexivity.
Qed.

(** C8 (amended): the discriminator key is [type] when every member is
    static; otherwise [month] when every member has a non-empty [month]
    value; otherwise [year] when every member has a non-empty [year] value;
    otherwise determining the key fails with a [ValueError]. *)
Theorem dataset_key_resolution (g : _DatasetResultGroup) :
  (all_static g → dataset_key g = Ok "type")
  ∧ (¬ all_static g → all_have_value "month" g → dataset_key g = Ok "month")
  ∧ (¬ all_static g → ¬ all_have_value "month" g → all_have_value "year" g →
     dataset_key g = Ok "year")
  ∧ (¬ all_static g → ¬ all_have_value "month" g → ¬ all_have_value "year" g →
     dataset_key g = Err (ValueError dataset_key_error)).
Proof.
  unfold dataset_key.
  pose proof (forallb_static g) as Hs.
  pose proof (forallb_truthy "month" g) as Hm.
  pose proof (forallb_truthy "year" g) as Hy.
  destruct (forallb _ (results g)) eqn:Es in Hs |- *.
  { repeat split; intros; try done. all: exfalso; tauto. }
  destruct (forallb (λ r, truthy (meta r !! "month")) (results g)) eqn:Em in Hm |- *.
  { repeat split; intros; try done.
    - apply Hs in H. discriminate.
    - exfalso; tauto.
    - exfalso; tauto. }
  destruct (forallb (λ r, truthy (meta r !! "year")) (results g)) eqn:Ey in Hy |- *.
  { repeat split; intros; try done.
    - apply Hs in H. discriminate.
    - apply Hm in H0. discriminate.
    - exfalso; tauto. }
  repeat split; intros; try done.
  - apply Hs in H. discriminate.
  - apply Hm in H0. discriminate.
  - apply Hy in H1. discriminate.
Qed.

Lemma dataset_key_resolution_witness : dataset_key yearly_group = Ok "year".
Proof.
  refine (proj1 (proj2 (proj2 (dataset_key_resolution yearly_group))) _ _ _).
  - intros H. specialize (H (yearly_result "2021" COMPLETE STRICT)).
    assert (meta (yearly_result "2021" COMPLETE STRICT) !! "type" = Some "static") as E.
    { apply H. cbn. apply elem_of_cons. by left. }
    vm_compute in E. discriminate.
  - intros H. destruct (H (yearly_result "2021" COMPLETE STRICT)) as (v & E & _).
    { cbn. apply elem_of_cons. by left. }
    vm_compute in E. discriminate.
  - intros r Hr. cbn in Hr.
    repeat (apply elem_of_cons in Hr as [->|Hr]);
      [exists "2021"|exists "2022"|exists "2023"|by apply elem_of_nil in Hr];
      (split; [vm_compute; reflexivity|discriminate]).
Defined.

(** *** The order of Python's [str], on which the fallback relies *)

Lemma ltb_lt (a b : string) :
  String.ltb a b = true ↔ OrderedTypeEx.String_as_OT.lt a b.
Proof.
  unfold String.ltb. rewrite <- OrderedTypeEx.String_as_OT.cmp_lt.
  unfold OrderedTypeEx.String_as_OT.cmp.
  destruct (String.compare a b); split; congruence.
Qed.

Lemma leb_refl (a : string) : String.leb a a = true.
Proof.
  unfold String.leb.
  assert (String.compare a a = Eq) as ->; [|done].
  by apply OrderedTypeEx.String_as_OT.cmp_eq.
Qed.

Lemma ltb_leb (a b : string) : String.ltb a b = true → String.leb a b = true.
Proof. unfold String.ltb, String.leb. by destruct (String.compare a b). Qed.

Lemma ltb_false_leb (a b : string) : String.ltb a b = false → String.leb b a = true.
Proof.
  unfold String.ltb, String.leb. rewrite (String.compare_antisym a b).
  by destruct (String.compare b a).
Qed.

Lemma leb_cases (a b : string) : String.leb a b = true ↔ a = b ∨ String.ltb a b = true.
Proof.
  unfold String.leb, String.ltb.
  destruct (String.compare a b) eqn:E; split; try done; auto.
  - intros _. left. by apply String.compare_eq_iff.
  - intros [->|?]; [|done].
    assert (String.compare b b = Eq) by by apply OrderedTypeEx.String_as_OT.cmp_eq.
    congruence.
Qed.

Lemma ltb_trans (a b c : string) :
  String.ltb a b = true → String.ltb b c = true → String.ltb a c = true.
Proof.
  rewrite !ltb_lt. apply OrderedTypeEx.String_as_OT.lt_trans.
Qed.

Lemma leb_trans (a b c : string) :
  String.leb a b = true → String.leb b c = true → String.leb a c = true.
Proof.
  rewrite !leb_cases. intros [->|Hab] [->|Hbc]; auto.
  right. by eapply ltb_trans.
Qed.

(** *** The fallback to the latest earlier partition *)

Lemma dataset_key_has_key (g : _DatasetResultGroup) (key : string) :
  dataset_key g = Ok key → ∀ r, r ∈ results g → is_Some (meta r !! key).
Proof.
  unfold dataset_key.
  pose proof (forallb_static g) as Hs.
  pose proof (forallb_truthy "month" g) as Hm.
  pose proof (forallb_truthy "year" g) as Hy.
  repeat case_match; intros [= <-] r Hr.
  - rewrite (proj1 Hs eq_refl r Hr). eauto.
  - destruct (proj1 Hm eq_refl r Hr) as (v & -> & _). eauto.
  - destruct (proj1 Hy eq_refl r Hr) as (v & -> & _). eauto.
Qed.

Lemma earlier_available_paths_filter (key value : string) (rs : list UploadResult) :
  (∀ r, r ∈ rs → is_Some (meta r !! key)) →
  earlier_available_paths key value rs
  = Ok (path_of <$> List.filter (is_earlier_available key value) rs).
Proof.
  induction rs as [|r rs IH]; intros Hk; [done|].
  cbn [earlier_available_paths List.filter].
  rewrite IH by (intros; apply Hk; set_solver).
  destruct (Hk r ltac:(set_solver)) as [v Hv].
  unfold is_earlier_available, metadata_item. fold (meta r). rewrite Hv.
  destruct (data_available (completeness r)); cbn; [|done].
  by destruct (String.ltb v value).
Qed.

Lemma max_go_spec (key : string) (ps : list HivePath) :
  ∀ (best : HivePath) (bk : string),
    (∀ p, p ∈ ps → is_Some (metadata p !! key)) →
    metadata best !! key = Some bk →
    ∃ p v, max_go key best bk ps = Ok p
           ∧ p ∈ best :: ps
           ∧ metadata p !! key = Some v
           ∧ String.leb bk v = true
           ∧ ∀ q w, q ∈ ps → metadata q !! key = Some w → String.leb w v = true.
Proof.
  induction ps as [|q ps IH]; intros best bk Hk Hb.
  - exists best, bk. cbn. repeat split; [set_solver|done|apply leb_refl|].
    intros ? ? Hq. by apply elem_of_nil in Hq.
  - destruct (Hk q ltac:(set_solver)) as [k Hq].
    cbn [max_go]. unfold metadata_item. rewrite Hq. cbn.
    destruct (String.ltb bk k) eqn:Hlt.
    + destruct (IH q k ltac:(intros; apply Hk; set_solver) Hq)
        as (p & v & Hgo & Hin & Hv & Hle & Hmax).
      exists p, v. repeat split; try done.
      * apply elem_of_cons. by right.
      * eapply leb_trans; [by apply ltb_leb|done].
      * intros q' w Hq' Hw. apply elem_of_cons in Hq' as [->|Hq'].
        -- by simplify_eq.
        -- by eapply Hmax.
    + destruct (IH best bk ltac:(intros; apply Hk; set_solver) Hb)
        as (p & v & Hgo & Hin & Hv & Hle & Hmax).
      exists p, v. repeat split; try done.
      * apply elem_of_cons in Hin as [->|Hin]; apply elem_of_cons; [by left|right].
        apply elem_of_cons. by right.
      * intros q' w Hq' Hw. apply elem_of_cons in Hq' as [->|Hq'].
        -- simplify_eq. eapply leb_trans; [by apply ltb_false_leb|done].
        -- by eapply Hmax.
Qed.

Lemma max_by_metadata_spec (key : string) (ps : list HivePath) :
  ps ≠ [] →
  (∀ p, p ∈ ps → is_Some (metadata p !! key)) →
  ∃ p v, max_by_metadata key ps = Ok p
         ∧ p ∈ ps
         ∧ metadata p !! key = Some v
         ∧ ∀ q w, q ∈ ps → metadata q !! key = Some w → String.leb w v = true.
Proof.
  destruct ps as [|p0 ps]; [done|]. intros _ Hk.
  destruct (Hk p0 ltac:(set_solver)) as [k0 H0].
  unfold max_by_metadata, metadata_item. rewrite H0. cbn.
  destruct (max_go_spec key ps p0 k0 ltac:(intros; apply Hk; set_solver) H0)
    as (p & v & Hgo & Hin & Hv & Hle & Hmax).
  exists p, v. repeat split; try done.
  intros q w Hq Hw. apply elem_of_cons in Hq as [->|Hq].
  - by simplify_eq.
  - by eapply Hmax.
Qed.

Lemma is_earlier_available_spec (g : _DatasetResultGroup) (key value : string)
    (r : UploadResult) :
  r ∈ List.filter (is_earlier_available key value) (results g)
  ↔ ∃ v, earlier_complete g key value r v.
Proof.
  rewrite list_elem_of_In, filter_In, <- list_elem_of_In.
  unfold is_earlier_available, earlier_complete.
  rewrite andb_true_iff. split.
  - intros (Hin & Hc & Hv). destruct (meta r !! key) as [v|]; [|done].
    exists v. destruct (completeness r); by repeat split.
  - intros (v & Hin & Hc & Hv & Hlt). rewrite Hc, Hv. by repeat split.
Qed.

(** C1: when the member matching the target month exactly is EMPTY and its
    policy is copy-latest-available-before, [get_best_matching] returns the
    partition reference of a COMPLETE member whose discriminator value is
    strictly less than the target and is the greatest such value; when no
    COMPLETE member has a strictly smaller value, it fails with an error. *)
Theorem get_best_matching_fallback
    (g : _DatasetResultGroup) (a : Arrow) (key value : string) (m : UploadResult) :
  dataset_key g = Ok key →
  extract_value g a = Ok value →
  actual_match key value (results g) = Ok m →
  completeness m = EMPTY →
  missing_data_heuristic (consumer_behaviour (pipeline_config m))
    = COPY_LATEST_AVAILABLE_BEFORE →
  ((∃ r v, earlier_complete g key value r v) →
   ∃ r v, get_best_matching g a = Ok (hive_path (pipeline_config r))
          ∧ earlier_complete g key value r v
          ∧ ∀ r' v', earlier_complete g key value r' v' → String.leb v' v = true)
  ∧ (¬ (∃ r v, earlier_complete g key value r v) →
     get_best_matching g a = Err (ValueError "max() arg is an empty sequence")).
Proof.
  intros Hkey Hval Hm Hempty Hpol.
  pose proof (dataset_key_has_key g key Hkey) as Hall.
  assert (get_best_matching g a
          = max_by_metadata key
              (path_of <$> List.filter (is_earlier_available key value) (results g)))
    as ->.
  { unfold get_best_matching. rewrite Hkey, Hval. cbn. rewrite Hm. cbn.
    rewrite Hempty, Hpol. cbn.
    by rewrite earlier_available_paths_filter. }
  set (cands := List.filter (is_earlier_available key value) (results g)).
  assert (∀ p, p ∈ path_of <$> cands → is_Some (metadata p !! key)) as Hkeys.
  { intros p (r & -> & Hr)%list_elem_of_fmap.
    apply is_earlier_available_spec in Hr as (v & Hin & _). by apply Hall. }
  split.
  - intros (r0 & v0 & H0).
    assert (r0 ∈ cands) as Hin0 by (apply is_earlier_available_spec; eauto).
    assert (path_of <$> cands ≠ []) as Hne.
    { intros E. apply fmap_nil_inv in E. rewrite E in Hin0. by apply elem_of_nil in Hin0. }
    destruct (max_by_metadata_spec key _ Hne Hkeys) as (p & v & Hmax & Hp & Hv & Hbest).
    apply list_elem_of_fmap in Hp as (r & -> & Hr).
    exists r, v. split; [done|].
    apply is_earlier_available_spec in Hr as Hr'. destruct Hr' as (v1 & Hec).
    assert (v1 = v) as ->.
    { destruct Hec as (_ & _ & Hv1 & _). unfold meta, path_of in *. congruence. }
    split; [done|].
    intros r' v' Hec'.
    apply (Hbest (path_of r') v').
    + apply list_elem_of_fmap. exists r'. split; [done|].
      apply is_earlier_available_spec. eauto.
    + by destruct Hec' as (_ & _ & ? & _).
  - intros Hnone.
    assert (cands = []) as ->.
    { destruct cands as [|r rs] eqn:E; [done|]. exfalso. apply Hnone.
      assert (r ∈ cands) as Hr by (rewrite E; set_solver).
      apply is_earlier_available_spec in Hr as (v & ?). eauto. }
    reflexivity.
Qed.

Lemma get_best_matching_fallback_witness :
  ∃ r v, get_best_matching yearly_group (mkArrow 2023 1 1 0)
           = Ok (hive_path (pipeline_config r))
         ∧ earlier_complete yearly_group "year" "2023" r v
         ∧ ∀ r' v', earlier_complete yearly_group "year" "2023" r' v' →
                    String.leb v' v = true.
Proof.
  apply (get_best_matching_fallback yearly_group (mkArrow 2023 1 1 0) "year" "2023"
           (yearly_result "2023" EMPTY COPY_LATEST_AVAILABLE_BEFORE)).
  - vm_compute. reflexivity.
  - vm_compute. reflexivity.
  - vm_compute. reflexivity.
  - reflexivity.
  - reflexivity.
  - exists (yearly_result "2021" COMPLETE STRICT), "2021".
    split; [|split; [|split]].
    + cbn. apply elem_of_cons. by left.
    + reflexivity.
    + vm_compute. reflexivity.
    + vm_compute. reflexivity.
Defined.

Example get_best_matching_yearly_2023 :
  get_best_matching yearly_group (mkArrow 2023 1 1 0)
  = Ok (hive_path (pipeline_config (yearly_result "2021" COMPLETE STRICT))).
Proof. vm_compute. reflexivity. Qed.

End PlannerFacts.

(** ** Dataset merge engine *)

Module RecombinerFacts.
Import Calendar Planner Polars Storage StorageFacts Recombiner RecombinerSpec.

(** *** Column conflicts *)

Lemma shared_columns_spec (a b : DataFrame) (c : string) :
  c ∈ shared_columns a b
  ↔ c ∈ columns a ∧ c ∈ columns b ∧ c ≠ "grid_id" ∧ c ≠ "date".
Proof.
  unfold shared_columns, id_columns.
  rewrite list_elem_of_In, filter_In, <- list_elem_of_In.
  rewrite andb_true_iff, negb_true_iff, bool_decide_eq_true, bool_decide_eq_false.
  rewrite !elem_of_cons, elem_of_nil. tauto.
Qed.





Lemma join_full_columns (on : list string) (left right j : DataFrame) (c : string) :
  join_full on left right = Ok j →
  c ∈ columns j ↔ c ∈ columns left ∨ (c ∈ columns right ∧ c ∉ on).
Proof.
  destruct on as [|k on']; [done|]. intros [= <-]. cbn [columns].
  rewrite elem_of_app, elem_of_List_filter.
  rewrite negb_true_iff, bool_decide_eq_false. tauto.
Qed.

Lemma shared_id_columns_spec (a b : DataFrame) (c : string) :
  c ∈ shared_id_columns a b
  ↔ c ∈ columns a ∧ c ∈ columns b ∧ (c = "grid_id" ∨ c = "date").
Proof.
  unfold shared_id_columns, id_columns.
  rewrite list_elem_of_In, filter_In, <- list_elem_of_In.
  rewrite andb_true_iff, !bool_decide_eq_true.
  rewrite !elem_of_cons, elem_of_nil. tauto.
Qed.




Example combine_overwrite_jan :
  (λ df, (columns df, (λ r, r !! "shared_column") <$> rows df))
    <$> (match _combine_all [stage1_overlapping; stage2_overlapping] true with
         | Ok df => Some df
         | Err _ => None
         end)
  = Some (["grid_id"; "date"; "value1"; "value2"; "shared_column"],
          [Some (VInt 4); Some (VInt 5); Some (VInt 6)]).
Proof. vm_compute. reflexivity. Qed.

(** *** The skip check *)

Lemma read_dataframe_metadata_agree (mid : string) (w w' : World) (a : DataArtifactRef) :
  agree_on_month mid w w' →
  read_dataframe_metadata w (for_month a mid) = read_dataframe_metadata w' (for_month a mid).
Proof. intros H. unfold read_dataframe_metadata, read_dataframe. by rewrite (H a). Qed.

Lemma collect_expected_columns_agree (mid : string) (w w' : World)
    (stages : list DataArtifactRef) :
  agree_on_month mid w w' →
  ∀ acc, collect_expected_columns w mid stages acc
         = collect_expected_columns w' mid stages acc.
Proof.
  intros H. induction stages as [|s stages IH]; intros acc; [done|].
  cbn [collect_expected_columns].
  rewrite (read_dataframe_metadata_agree mid w w' s H).
  destruct (read_dataframe_metadata w' (for_month s mid)); cbn; [apply IH|done].
Qed.

Lemma _validate_combined_agree (rc : Recombiner) (w w' : World) (month : Arrow)
    (stages : list DataArtifactRef) :
  agree_on_month (_month_format month) w w' →
  _validate_combined rc w month stages = _validate_combined rc w' month stages.
Proof.
  intros H. unfold _validate_combined.
  rewrite (collect_expected_columns_agree _ w w' stages H).
  rewrite (read_dataframe_metadata_agree _ w w' (output_data_artifact rc) H).
  destruct stages as [|s stages]; [done|].
  destruct (collect_expected_columns w' _ _ _); [|done].
  cbn -[read_dataframe_metadata].
  by rewrite (read_dataframe_metadata_agree _ w w' s H).
Qed.

Lemma _needs_recombining_agree (rc : Recombiner) (w w' : World) (month : Arrow)
    (stages : list DataArtifactRef) :
  agree_on_month (_month_format month) w w' →
  _needs_recombining rc w month stages = _needs_recombining rc w' month stages.
Proof.
  intros H. unfold _needs_recombining.
  rewrite (_validate_combined_agree rc w w' month stages H).
  unfold does_dataset_exist. by rewrite (H (output_data_artifact rc)).
Qed.

(** The check of a month looks at the month through its identifier only. *)
Lemma _needs_recombining_month_id (rc : Recombiner) (w : World) (m m' : Arrow)
    (stages : list DataArtifactRef) :
  _month_format m = _month_format m' →
  _needs_recombining rc w m stages = _needs_recombining rc w m' stages.
Proof.
  intros E. unfold _needs_recombining, _validate_combined. by rewrite E.
Qed.

(** A month that validates has its output partition. *)
Lemma _validate_combined_exists (rc : Recombiner) (w : World) (month : Arrow)
    (stages : list DataArtifactRef) :
  _validate_combined rc w month stages = Ok () →
  does_dataset_exist w (for_month (output_data_artifact rc) (_month_format month)) = true.
Proof.
  unfold _validate_combined, does_dataset_exist.
  destruct (collect_expected_columns _ _ _ _); cbn; [|done].
  destruct stages as [|s stages]; cbn; [done|].
  destruct (read_dataframe_metadata w (for_month s _)); cbn; [|done].
  unfold read_dataframe_metadata at 1, read_dataframe.
  destruct (lookup_partition w _) eqn:E; cbn; [|done].
  intros _. first [done | apply bool_decide_eq_true; eauto].
Qed.

Lemma _needs_recombining_valid (rc : Recombiner) (w : World) (month : Arrow)
    (stages : list DataArtifactRef) :
  _validate_combined rc w month stages = Ok () →
  _needs_recombining rc w month stages = Ok false.
Proof.
  intros H. unfold _needs_recombining.
  by rewrite (_validate_combined_exists _ _ _ _ H), H.
Qed.

Lemma _validate_all_spec (rc : Recombiner) (w : World) (stages : list DataArtifactRef)
    (ms : list Arrow) :
  _validate_all rc w stages ms = Ok () ↔
  ∀ m, m ∈ ms → _validate_combined rc w m stages = Ok ().
Proof.
  unfold _validate_all. rewrite executor_map_reading.
  induction ms as [|m ms IH]; cbn.
  - split; [|done]. intros _ m Hm. by apply elem_of_nil in Hm.
  - destruct (_validate_combined rc w m stages) as [[]|e] eqn:E; cbn.
    + destruct (drain _) as [us|e] eqn:Ed; cbn in *.
      * split; [|done]. intros _ m' [->|Hm']%elem_of_cons; [done|].
        by apply IH.
      * split; [done|]. intros H. apply IH. intros m' Hm'. apply H.
        apply elem_of_cons; by right.
    + split; [done|]. intros H. specialize (H m). rewrite E in H.
      assert (Err e = Ok ()) by (apply H, elem_of_cons; by left). done.
Qed.

(** What [_filter_months_to_update] selects when recombination is not forced. *)
Lemma _filter_months_to_update_spec (rc : Recombiner) (w : World)
    (stages : list DataArtifactRef) (fl : list Arrow) :
  force_recombine rc = false →
  _filter_months_to_update rc w stages = Ok fl →
  ∀ m, m ∈ months rc →
    ∃ b, _needs_recombining rc w m stages = Ok b ∧ (m ∈ fl ↔ b = true).
Proof.
  unfold _filter_months_to_update. intros -> .
  rewrite executor_map_reading.
  destruct (drain _) as [results|e] eqn:Ed; cbn; [|done].
  intros [= <-] m Hm.
  apply drain_fmap_ok in Ed.
  assert (∀ m' r, (m', r) ∈ zip (months rc) results →
                  _needs_recombining rc w m' stages = Ok r.2 ∧ r.1 = m') as Hzip.
  { clear Hm. induction Ed as [|m0 r0 ms rs H0 _ IH]; intros m' r Hin.
    - by apply elem_of_nil in Hin.
    - cbn in Hin. apply elem_of_cons in Hin as [[= -> ->]|Hin]; [|by apply IH].
      destruct (_needs_recombining rc w m0 stages) as [b|e]; cbn in H0; [|done].
      by injection H0 as <-. }
  assert (∀ r, r ∈ results → r.1 ∈ months rc
               ∧ _needs_recombining rc w r.1 stages = Ok r.2) as Hres.
  { clear Hm Hzip. induction Ed as [|m0 r0 ms rs H0 _ IH]; intros r Hin.
    - by apply elem_of_nil in Hin.
    - destruct (_needs_recombining rc w m0 stages) as [b|e] eqn:E0; cbn in H0; [|done].
      injection H0 as <-.
      apply elem_of_cons in Hin as [->|Hin].
      + cbn. split; [apply elem_of_cons; by left|done].
      + destruct (IH r Hin). split; [apply elem_of_cons; by right|done]. }
  assert (∃ r, r ∈ results ∧ r.1 = m) as (r & Hr & <-).
  { clear Hzip Hres. induction Ed as [|m0 r0 ms rs H0 _ IH].
    - by apply elem_of_nil in Hm.
    - apply elem_of_cons in Hm as [->|Hm].
      + exists r0. split; [apply elem_of_cons; by left|].
        destruct (_needs_recombining rc w m0 stages); cbn in H0; [|done].
        by injection H0 as <-.
      + destruct (IH Hm) as (r & Hr & <-). exists r.
        split; [apply elem_of_cons; by right|done]. }
  destruct (Hres r Hr) as [_ Hn].
  exists r.2. split; [done|].
  rewrite list_elem_of_fmap. split.
  - intros (r' & E & Hr'%elem_of_List_filter). destruct Hr' as [Hr' Hs].
    destruct (Hres r' Hr') as [_ Hn']. rewrite E in Hn. congruence.
  - intros Hb. exists r. split; [done|]. by apply elem_of_List_filter.
Qed.

Lemma _filter_months_to_update_none (rc : Recombiner) (w : World)
    (stages : list DataArtifactRef) :
  force_recombine rc = false →
  (∀ m, m ∈ months rc → _needs_recombining rc w m stages = Ok false) →
  _filter_months_to_update rc w stages = Ok [].
Proof.
  unfold _filter_months_to_update. intros -> H.
  rewrite executor_map_reading.
  rewrite (drain_fmap_all_ok _ (λ m, (m, false))).
  - cbn. f_equal. clear H. induction (months rc) as [|m ms IH]; [done|]. cbn. apply IH.
  - intros m Hm. by rewrite (H m Hm).
Qed.

(** The writes of the merge phase touch the output partitions of the months
    it processes and nothing else. *)
Lemma process_month_agree (rc : Recombiner) (stages : list DataArtifactRef)
    (ow : bool) (m : Arrow) (w : World) (mid : string) :
  _month_format m ≠ mid →
  agree_on_month mid w (process_month rc stages ow m w).2.
Proof.
  intros Hne a. unfold process_month.
  destruct (_ ← _read_dfs_to_merge w stages m; _) as [df|e]; cbn [snd]; [|done].
  rewrite lookup_partition_write_ne; [done|].
  intros E. apply for_month_month in E. done.
Qed.

Lemma executor_map_process_agree (rc : Recombiner) (stages : list DataArtifactRef)
    (ow : bool) (ms : list Arrow) (mid : string) :
  (∀ m, m ∈ ms → _month_format m ≠ mid) →
  ∀ w, agree_on_month mid w (executor_map (process_month rc stages ow) ms w).2.
Proof.
  induction ms as [|m ms IH]; intros Hne w; [done|].
  cbn [executor_map].
  pose proof (process_month_agree rc stages ow m w mid
                (Hne m ltac:(apply elem_of_cons; by left))) as H1.
  destruct (process_month rc stages ow m w) as [r w1]. cbn in H1.
  specialize (IH ltac:(intros; apply Hne, elem_of_cons; by right) w1).
  destruct (executor_map _ ms w1) as [rs w2]. cbn in *.
  intros a. by rewrite (H1 a), (IH a).
Qed.

(** After a successful run every month passes the skip check. *)
Lemma recombine_ok_all_valid (rc : Recombiner) (stages : list DataArtifactRef)
    (ow : bool) (w w1 : World) :
  recombine rc stages ow w = (Ok (), w1) →
  ∀ m, m ∈ months rc → _needs_recombining rc w1 m stages = Ok false.
Proof.
  unfold recombine.
  destruct (_filter_months_to_update rc w stages) as [fl|e] eqn:Ef; [|done].
  unfold _process_in_parallel.
  pose proof (executor_map_process_agree rc stages ow fl) as Hagree.
  destruct (executor_map (process_month rc stages ow) fl w) as [rs w'] eqn:Em.
  destruct (drain rs) as [us|e]; cbn; [|done].
  intros [= Hv <-] m Hm.
  assert (∀ m', m' ∈ fl → _needs_recombining rc w' m' stages = Ok false) as Hfl.
  { intros m' Hm'. apply _needs_recombining_valid.
    by apply (proj1 (_validate_all_spec rc w' stages fl) Hv). }
  destruct (force_recombine rc) eqn:Hforce.
  - unfold _filter_months_to_update in Ef. rewrite Hforce in Ef.
    injection Ef as <-. by apply Hfl.
  - destruct (_filter_months_to_update_spec rc w stages fl Hforce Ef m Hm)
      as (b & Hn & Hb).
    destruct b.
    + apply Hfl. by apply Hb.
    + rewrite <- (_needs_recombining_agree rc w w'); [done|].
      enough (∀ m', m' ∈ fl → _month_format m' ≠ _month_format m) as Hother.
      { pose proof (Hagree (_month_format m) Hother w) as Ha. by rewrite Em in Ha. }
      intros m' Hm' E.
      assert (m' ∈ months rc ∧ _needs_recombining rc w m' stages = Ok true) as [_ Hn'].
      { unfold _filter_months_to_update in Ef. rewrite Hforce in Ef.
        rewrite executor_map_reading in Ef.
        destruct (drain _) as [results|e] eqn:Ed; cbn in Ef; [|done].
        injection Ef as <-. apply drain_fmap_ok in Ed.
        apply list_elem_of_fmap in Hm' as (r & -> & [Hr Hs]%elem_of_List_filter).
        clear -Ed Hr Hs. induction Ed as [|m0 r0 ms rs H0 _ IH].
        - by apply elem_of_nil in Hr.
        - destruct (_needs_recombining rc w m0 stages) as [b|e] eqn:E0; cbn in H0; [|done].
          injection H0 as <-.
          apply elem_of_cons in Hr as [->|Hr].
          + cbn in *. subst b. split; [apply elem_of_cons; by left|done].
          + destruct (IH Hr). split; [apply elem_of_cons; by right|done]. }
      rewrite (_needs_recombining_month_id rc w m' m stages E) in Hn'. congruence.
Qed.

(** C2: a second run with [force_recombine] off, on the store a successful
    first run left, selects no month, writes nothing and leaves the store as
    it is. *)
Theorem recombine_idempotent (rc : Recombiner) (stages : list DataArtifactRef)
    (ow ow' : bool) (w w1 : World) :
  recombine rc stages ow w = (Ok (), w1) →
  (∀ m, m ∈ months rc →
     does_dataset_exist w1 (for_month (output_data_artifact rc) (_month_format m)) = true
     ∧ _validate_combined (without_force rc) w1 m stages = Ok ())
  ∧ _filter_months_to_update (without_force rc) w1 stages = Ok []
  ∧ _process_in_parallel (without_force rc) stages [] ow' w1 = (Ok (), w1)
  ∧ recombine (without_force rc) stages ow' w1 = (Ok (), w1).
Proof.
  intros Hrun.
  pose proof (recombine_ok_all_valid rc stages ow w w1 Hrun) as Hall.
  assert (_filter_months_to_update (without_force rc) w1 stages = Ok []) as Hnone.
  { apply _filter_months_to_update_none; [done|]. intros m Hm. by apply Hall. }
  split; [|split; [done|split; [done|]]].
  - intros m Hm. specialize (Hall m Hm). unfold _needs_recombining in Hall.
    destruct (does_dataset_exist w1 _); cbn in Hall; [|done]. split; [done|].
    change (_validate_combined (without_force rc) w1 m stages)
      with (_validate_combined rc w1 m stages).
    destruct (_validate_combined rc w1 m stages) as [[]|[]]; done.
  - unfold recombine. rewrite Hnone. reflexivity.
Qed.

Lemma recombine_idempotent_witness :
  recombine test_recombiner test_stages false test_world = (Ok (), test_world_after)
  ∧ length (write_log test_world_after) = (length (write_log test_world) + 2)%nat
  ∧ recombine (without_force test_recombiner) test_stages false test_world_after
    = (Ok (), test_world_after).
Proof.
  assert (recombine test_recombiner test_stages false test_world
          = (Ok (), test_world_after)) as Hrun by (vm_compute; reflexivity).
  split; [exact Hrun|]. split; [reflexivity|].
  exact (proj2 (proj2 (proj2 (recombine_idempotent test_recombiner test_stages
                                false false test_world test_world_after Hrun)))).
Defined.

End RecombinerFacts.

(** ** Spatial gap-fill orchestrator *)

Module SpatialFacts.
Import Calendar CalendarTactics CalendarFacts Planner PlannerFacts Polars Storage StorageFacts.
Import Recombiner RecombinerSpec RecombinerFacts Spatial SpatialSpec.

(** *** Days of a month identifier *)




Example days_in_month_2023_01 : Spatial._days_in_month "2023-01" = Ok 31.
Proof. reflexivity. Qed.

Section WithGrid.

Variable cells : Z.
Variable mgr : SpatialImputationManager.

(** *** Expected rows *)


(** *** Row preservation *)


(** *** The skip check *)

Lemma drain_fmap_err {A B : Type} (f : A → res B) (xs : list A) (e : exn) :
  drain (f <$> xs) = Err e → ∃ x, x ∈ xs ∧ f x = Err e.
Proof.
  induction xs as [|x xs IH]; cbn; [done|].
  destruct (f x) as [b|e'] eqn:Ef; cbn.
  - destruct (drain (f <$> xs)) as [bs|e'] eqn:Ed; cbn; [done|].
    intros [= ->]. destruct (IH eq_refl) as (y & Hy & Hf).
    exists y. split; [apply elem_of_cons; by right|done].
  - intros [= ->]. exists x. split; [apply elem_of_cons; by left|done].
Qed.

Lemma _needs_recombining_no_value_error (rc : Recombiner) (w : World) (m : Arrow)
    (stages : list DataArtifactRef) (msg : string) :
  _needs_recombining rc w m stages ≠ Err (ValueError msg).
Proof.
  unfold _needs_recombining. case_match; [done|].
  destruct (_validate_combined rc w m stages) as [|[]]; done.
Qed.

Lemma _needs_upload_no_validation_error (w : World) (month_id : string)
    (expected_columns : list string) (msg : string) :
  _needs_upload cells mgr w month_id expected_columns
  ≠ Err (SpatialImputationValidationError msg).
Proof.
  unfold _needs_upload. case_match; [done|].
  destruct (_validate_result cells mgr w month_id expected_columns) as [|[]]; done.
Qed.

(** C7: in the merge engine and in the spatial orchestrator, a validation
    failure raised while re-checking an existing output partition makes the
    month one to recompute, and the skip-check phase never raises it. *)
Theorem skip_check_absorbs_validation_failures :
  (∀ (rc : Recombiner) (w : World) (m : Arrow) (stages : list DataArtifactRef) (msg : string),
     does_dataset_exist w
       (for_month (Recombiner.output_data_artifact rc) (_month_format m)) = true →
     _validate_combined rc w m stages = Err (ValueError msg) →
     _needs_recombining rc w m stages = Ok true)
  ∧ (∀ (rc : Recombiner) (w : World) (stages : list DataArtifactRef) (msg : string),
       _filter_months_to_update rc w stages ≠ Err (ValueError msg))
  ∧ (∀ (w : World) (month_id : string) (expected_columns : list string) (msg : string),
       does_dataset_exist w (for_month (output_data_artifact mgr) month_id) = true →
       _validate_result cells mgr w month_id expected_columns
       = Err (SpatialImputationValidationError msg) →
       _needs_upload cells mgr w month_id expected_columns = Ok true)
  ∧ (∀ (w : World) (expected_columns : list string) (msg : string),
       _identify_months_to_upload cells mgr w expected_columns
       ≠ Err (SpatialImputationValidationError msg)).
Proof.
  split; [|split; [|split]].
  - intros rc w m stages msg He Hv. unfold _needs_recombining. by rewrite He, Hv.
  - intros rc w stages msg. unfold _filter_months_to_update.
    destruct (force_recombine rc); [done|].
    rewrite executor_map_reading.
    destruct (drain _) as [rs|e] eqn:Ed; cbn; [done|].
    intros [= ->]. apply drain_fmap_err in Ed as (m & _ & Hm).
    destruct (_needs_recombining rc w m stages) as [b|e] eqn:En; cbn in Hm; [done|].
    injection Hm as ->. by eapply _needs_recombining_no_value_error.
  - intros w month_id cols msg He Hv. unfold _needs_upload. by rewrite He, Hv.
  - intros w cols msg. unfold _identify_months_to_upload.
    rewrite executor_map_reading.
    destruct (drain _) as [rs|e] eqn:Ed; cbn; [done|].
    intros [= ->]. apply drain_fmap_err in Ed as (m & _ & Hm).
    destruct (_needs_upload cells mgr w m cols) as [b|e] eqn:En; cbn in Hm; [done|].
    injection Hm as ->. by eapply _needs_upload_no_validation_error.
Qed.

End WithGrid.



(** The failure of a month's task does not leave [_impute_all_months]. *)
Example _impute_all_months_discards_failure :
  _impute_all_months (manager_with drop_gaps) fake_data_with_missing ["2023-01"] empty_world
  = (Ok (), empty_world).
Proof. vm_compute. reflexivity. Qed.


Lemma skip_check_absorbs_validation_failures_witness :
  _needs_recombining test_recombiner stale_world (mkArrow 2023 1 1 0) test_stages
  = Ok true
  ∧ _needs_upload 33074 (manager_with fill_with_zero) short_partition_world "2023-01"
      ["grid_id"; "date"]
    = Ok true.
Proof.
  destruct (skip_check_absorbs_validation_failures 33074 (manager_with fill_with_zero))
    as (Hmerge & _ & Hspatial & _).
  split.
  - eapply Hmerge; vm_compute; reflexivity.
  - eapply Hspatial; vm_compute; reflexivity.
Defined.

End SpatialFacts.

(** ** Regression imputation engine *)

Module PredictorFacts.
Import Calendar Planner Polars Storage StorageFacts Predictor PredictorSpec.

(** *** The predictor's test, reproduced *)

Example predict_test_rolling_january :
  written_column (predict (test_predictor (7#10)%Q (9#10)%Q) true test_run).2
    test_output "2023-01" "target_col__imputed_r7d"
  = Some [ Some (VFloat 1%Q); Some (VFloat 2%Q); Some (VFloat 1%Q);
           Some (VFloat (3#2)%Q); Some (VFloat 1%Q); Some (VFloat (5#3)%Q) ].
Proof. vm_compute. reflexivity. Qed.

Example predict_test_rolling_february :
  written_column (predict (test_predictor (7#10)%Q (9#10)%Q) true test_run).2
    test_output "2023-02" "target_col__imputed_r7d"
  = Some [ Some (VFloat 1%Q); Some (VFloat (7#4)%Q); Some (VFloat 1%Q);
           Some (VFloat (8#5)%Q); Some (VFloat 1%Q); Some (VFloat (5#3)%Q) ].
Proof. vm_compute. reflexivity. Qed.

Example predict_test_score_february :
  written_column (predict (test_predictor (7#10)%Q (9#10)%Q) true test_run).2
    test_output "2023-02" "target_col__score"
  = Some [ Some (VFloat (17#20)%Q); Some (VFloat (17#10)%Q); Some (VFloat 1%Q);
           Some (VFloat 1%Q); Some (VFloat (17#20)%Q); Some (VFloat 2%Q) ].
Proof. vm_compute. reflexivity. Qed.

(** *** The quality gate *)

Lemma Qltb_spec (a b : Q) : Qltb a b = true ↔ (a < b)%Q.
Proof.
  unfold Qltb. rewrite negb_true_iff. split.
  - intros H. apply Qnot_le_lt. intros Hle. apply Qle_bool_iff in Hle. congruence.
  - intros H. destruct (Qle_bool b a) eqn:E; [|done].
    apply Qle_bool_iff in E. by apply Qlt_not_le in H.
Qed.

Lemma Qltb_false (a b : Q) : Qltb a b = false ↔ (b <= a)%Q.
Proof.
  unfold Qltb. rewrite negb_false_iff. apply Qle_bool_iff.
Qed.

Lemma append_assoc (a b c : string) : (a +:+ b) +:+ c = a +:+ (b +:+ c).
Proof.
  induction a as [|x a IH]; [done|].
  change (String x ((a +:+ b) +:+ c) = String x (a +:+ (b +:+ c))). by rewrite IH.
Qed.

Lemma too_low_error_contains (name : string) (score : Q) :
  contains "too low" (too_low_error name score).
Proof.
  exists ("Average CV R2 score for the " +:+ name +:+ " model is "),
         (": " +:+ format_2f score +:+ ".").
  unfold too_low_error. by rewrite !append_assoc.
Qed.

Lemma unusually_high_error_contains (name : string) (score : Q) :
  contains "unusually high" (unusually_high_error name score).
Proof.
  exists ("Average CV R2 score for the " +:+ name +:+ " model is "),
         (": " +:+ format_2f score +:+ ".").
  unfold unusually_high_error. by rewrite !append_assoc.
Qed.

(** C6: [predict] computes the mean cross-validation score first; when the
    mean is below [min_r2_score] it raises, whatever the store holds, an
    error whose message contains "too low"; when it is above [max_r2_score]
    it raises one whose message contains "unusually high"; and when it lies
    within the bounds nothing is raised and the months are processed. *)
Theorem predict_quality_gate (p : RegressionModelPredictor) (include_stats : bool)
    (st : Run) :
  let average_cv_score := mean_test_r2 (model p) in
  let min_score := min_r2_score (model_ref p) in
  let max_score := max_r2_score (model_ref p) in
  ((average_cv_score < min_score)%Q →
   ∃ msg, predict p include_stats st = (Err (ValueError msg), st)
          ∧ contains "too low" msg)
  ∧ ((min_score <= average_cv_score)%Q → (max_score < average_cv_score)%Q →
     ∃ msg, predict p include_stats st = (Err (ValueError msg), st)
            ∧ contains "unusually high" msg)
  ∧ ((min_score <= max_score)%Q → (max_score < average_cv_score)%Q →
     ∃ msg, predict p include_stats st = (Err (ValueError msg), st)
            ∧ contains "unusually high" msg)
  ∧ ((min_score <= average_cv_score)%Q → (average_cv_score <= max_score)%Q →
     _check_model_quality p average_cv_score = Ok ()
     ∧ predict p include_stats st
       = predict_loop p average_cv_score include_stats (months p) None st).
Proof.
  intros avg lo hi.
  assert ((lo <= avg)%Q → (hi < avg)%Q →
          ∃ msg, predict p include_stats st = (Err (ValueError msg), st)
                 ∧ contains "unusually high" msg) as Hhigh.
  { intros Hlo Hhi. unfold predict, _check_model_quality. fold avg lo hi.
    rewrite (proj2 (Qltb_false avg lo) Hlo), (proj2 (Qltb_spec hi avg) Hhi).
    eexists. split; [reflexivity|]. apply unusually_high_error_contains. }
  split; [|split; [done|split]].
  - intros Hlt. unfold predict, _check_model_quality. fold avg lo hi.
    rewrite (proj2 (Qltb_spec avg lo) Hlt).
    eexists. split; [reflexivity|]. apply too_low_error_contains.
  - intros Hle Hhi. apply Hhigh; [|done].
    apply Qlt_le_weak. by eapply Qle_lt_trans.
  - intros Hlo Hhi. unfold predict, _check_model_quality. fold avg lo hi.
    by rewrite (proj2 (Qltb_false avg lo) Hlo), (proj2 (Qltb_false hi avg) Hhi).
Qed.

Lemma predict_quality_gate_witness :
  (∃ msg, predict (test_predictor (9#10)%Q 1%Q) true test_run
          = (Err (ValueError msg), test_run)
          ∧ contains "too low" msg)
  ∧ (∃ msg, predict (test_predictor (7#10)%Q (8#10)%Q) true test_run
            = (Err (ValueError msg), test_run)
            ∧ contains "unusually high" msg)
  ∧ _check_model_quality (test_predictor (7#10)%Q (9#10)%Q) (17#20)%Q = Ok ().
Proof.
  split; [|split].
  - apply (proj1 (predict_quality_gate (test_predictor (9#10)%Q 1%Q) true test_run)).
    vm_compute. reflexivity.
  - apply (proj1 (proj2 (proj2 (predict_quality_gate
                                   (test_predictor (7#10)%Q (8#10)%Q) true test_run)))).
    + vm_compute. discriminate.
    + vm_compute. reflexivity.
  - apply (proj2 (proj2 (proj2 (predict_quality_gate
                                   (test_predictor (7#10)%Q (9#10)%Q) true test_run)))).
    + vm_compute. discriminate.
    + vm_compute. discriminate.
Defined.

Example predict_raises_on_low_score :
  (predict (test_predictor (9#10)%Q 1%Q) true test_run).1
  = Err (ValueError "Average CV R2 score for the aod model is too low: 0.85.").
Proof. vm_compute. reflexivity. Qed.

Example predict_raises_on_high_score :
  (predict (test_predictor (7#10)%Q (8#10)%Q) true test_run).1
  = Err (ValueError "Average CV R2 score for the aod model is unusually high: 0.85.").
Proof. vm_compute. reflexivity. Qed.

Example predict_passes_on_valid_score :
  (predict (test_predictor (7#10)%Q (9#10)%Q) true test_run).1 = Ok ().
Proof. vm_compute. reflexivity. Qed.

(** *** One row per input row *)

Lemma length_append (a b : string) :
  String.length (a +:+ b) = (String.length a + String.length b)%nat.
Proof.
  induction a as [|x a IH]; [done|].
  change (S (String.length (a +:+ b)) = S (String.length a + String.length b)).
  by rewrite IH.
Qed.

Lemma rolling_name_not_which (t : string) : rolling_imputed_col_name t ≠ "_which_df".
Proof.
  unfold rolling_imputed_col_name. intros E.
  apply (f_equal String.length) in E. rewrite length_append in E. cbn in E. lia.
Qed.

Lemma with_column_rows_length (name : string) (vals : list (option value))
    (df : DataFrame) :
  length vals = length (rows df) →
  length (rows (with_column name vals df)) = length (rows df).
Proof. intros H. cbn. by rewrite length_zip_with_r_eq. Qed.

Lemma with_literal_rows_length (name : string) (v : value) (df : DataFrame) :
  length (rows (with_literal name v df)) = length (rows df).
Proof.
  unfold with_literal. apply with_column_rows_length. by rewrite length_replicate.
Qed.

Lemma with_series_rows_length (name : string) (vals : list (option value))
    (df df' : DataFrame) :
  with_series name vals df = Ok df' → length (rows df') = length (rows df).
Proof.
  unfold with_series. case_bool_decide as Hlen.
  - intros [= <-]. by apply with_column_rows_length.
  - destruct vals as [|v [|??]]; try done.
    intros [= <-]. apply with_column_rows_length. by rewrite length_replicate.
Qed.

Lemma over_length {B : Type} (key : string) (f : list (gmap string value) → list B)
    (rs : list (gmap string value)) :
  length (over key f rs) = length rs.
Proof. unfold over. apply length_imap. Qed.

Lemma with_aggregates_of_rows_length (t : string) (avg : Q) (df wa : DataFrame) :
  with_aggregates_of t avg df = Ok wa → length (rows wa) = length (rows df).
Proof.
  unfold with_aggregates_of, require_column.
  destruct (has_column t df); cbn -[with_column rows]; [|done].
  destruct (has_column "date" _); cbn -[with_column rows]; [|done].
  intros [= <-].
  set (flagged := with_column (imputed_flag_col_name t) _ df).
  assert (length (rows flagged) = length (rows df)) as H0.
  { apply with_column_rows_length. by rewrite length_fmap. }
  assert (length (zip_with (set_cell (imputed_flag_col_name t))
                    (imputed_flag_of t <$> rows df) (rows df))
          = length (rows df)) as Hz by exact H0.
  set (imputed := with_column (imputed_col_name t) _ flagged).
  assert (length (rows imputed) = length (rows flagged)) as H1.
  { apply with_column_rows_length. rewrite length_fmap, Hz. by symmetry. }
  set (scored := with_column (score_col_name t) _ imputed).
  assert (length (rows scored) = length (rows imputed)) as H2.
  { apply with_column_rows_length. rewrite length_fmap, Hz. congruence. }
  rewrite with_column_rows_length; [congruence|].
  rewrite over_length, Hz. congruence.
Qed.

Lemma with_literal_lookup (name : string) (v : value) (df : DataFrame)
    (r : gmap string value) :
  r ∈ rows (with_literal name v df) → r !! name = Some v.
Proof.
  unfold with_literal. cbn. intros Hr.
  apply list_elem_of_lookup in Hr as (i & Hi).
  apply lookup_zip_with_Some in Hi as (c & r0 & -> & Hc & _).
  apply lookup_replicate in Hc as [-> _]. cbn. by rewrite lookup_insert_eq.
Qed.

Lemma filter_length_Permutation {A : Type} (f : A → bool) (l l' : list A) :
  l ≡ₚ l' → length (List.filter f l) = length (List.filter f l').
Proof.
  induction 1 as [|x l l' _ IH|x y l|l l' l'' _ IH1 _ IH2]; cbn.
  - done.
  - destruct (f x); cbn; by rewrite IH.
  - destruct (f x), (f y); done.
  - by rewrite IH1.
Qed.

Lemma filter_all {A : Type} (f : A → bool) (l : list A) :
  (∀ x, x ∈ l → f x = true) → List.filter f l = l.
Proof.
  induction l as [|x l IH]; intros H; [done|]. cbn.
  rewrite (H x) by (apply elem_of_cons; by left).
  rewrite IH; [done|]. intros y Hy. apply H, elem_of_cons. by right.
Qed.

Lemma filter_none {A : Type} (f : A → bool) (l : list A) :
  (∀ x, x ∈ l → f x = false) → List.filter f l = [].
Proof.
  induction l as [|x l IH]; intros H; [done|]. cbn.
  rewrite (H x) by (apply elem_of_cons; by left).
  apply IH. intros y Hy. apply H, elem_of_cons. by right.
Qed.

(** Among the rows of [both_df] the current ones are as many as the rows of
    the month. *)
Lemma both_df_of_current (t : string) (wa : DataFrame) (previous : option DataFrame)
    (both : DataFrame) :
  both_df_of t wa previous = Ok both →
  length (List.filter is_current (rows both)) = length (rows wa).
Proof.
  assert (List.filter is_current (rows (with_literal "_which_df" (VStr "current") wa))
          = rows (with_literal "_which_df" (VStr "current") wa)) as Hcur.
  { apply filter_all. intros r Hr. unfold is_current.
    by rewrite (with_literal_lookup _ _ _ _ Hr), bool_decide_eq_true_2. }
  unfold both_df_of. destruct previous as [prev|].
  - destruct (drop_strict _ prev) as [dropped|e]; cbn -[with_literal]; [|done].
    unfold concat. case_bool_decide; [|done]. intros [= <-].
    change (length (List.filter is_current
                      (rows (with_literal "_which_df" (VStr "current") wa)
                       ++ rows (with_literal "_which_df" (VStr "previous") dropped))%list)
            = length (rows wa)).
    rewrite List.filter_app, Hcur, (filter_none _ (rows (with_literal _ _ dropped))).
    + by rewrite app_nil_r, with_literal_rows_length.
    + intros r Hr. unfold is_current.
      by rewrite (with_literal_lookup _ _ _ _ Hr), bool_decide_eq_false_2.
  - intros [= <-]. by rewrite Hcur, with_literal_rows_length.
Qed.

Lemma sort_rows (by_ : list string) (df sorted : DataFrame) :
  sort by_ df = Ok sorted →
  rows sorted = merge_sort (λ r1 r2, Is_true (key_leb by_ r1 r2)) (rows df)
  ∧ columns sorted = columns df.
Proof. unfold sort. case_match; [|done]. by intros [= <-]. Qed.

Lemma sort_rows_Permutation (by_ : list string) (df sorted : DataFrame) :
  sort by_ df = Ok sorted → rows sorted ≡ₚ rows df.
Proof. intros [-> _]%sort_rows. apply merge_sort_Permutation. Qed.

Lemma is_current_set_cell (name : string) (c : option value) (r : gmap string value) :
  name ≠ "_which_df" → is_current (set_cell name c r) = is_current r.
Proof.
  intros Hne. unfold is_current, set_cell. destruct c.
  - by rewrite lookup_insert_ne.
  - by rewrite lookup_delete_ne.
Qed.

Lemma filter_zip_with_length {A B : Type} (f : B → bool) (g : A → B → B)
    (vals : list A) (l : list B) :
  length vals = length l →
  (∀ v x, f (g v x) = f x) →
  length (List.filter f (zip_with g vals l)) = length (List.filter f l).
Proof.
  intros Hlen Hf. revert vals Hlen.
  induction l as [|x l IH]; intros [|v vals] Hlen; cbn in *; try done.
  rewrite Hf. destruct (f x); cbn; rewrite IH; auto.
Qed.

Lemma with_rolling_current (t : string) (sorted : DataFrame) :
  length (List.filter is_current (rows (with_rolling t sorted)))
  = length (List.filter is_current (rows sorted)).
Proof.
  unfold with_rolling. cbn [rows with_column].
  apply filter_zip_with_length.
  - by rewrite length_fmap, over_length.
  - intros v x. apply is_current_set_cell, rolling_name_not_which.
Qed.

Lemma keep_current_rows (df result : DataFrame) :
  keep_current df = Ok result →
  rows result = delete "_which_df" <$> List.filter is_current (rows df).
Proof.
  unfold keep_current, drop_strict. case_match; [|done]. by intros [= <-].
Qed.

Lemma add_imputed_details_rows_length (p : RegressionModelPredictor) (avg : Q)
    (data : DataFrame) (predicted : list Q) (previous : option DataFrame)
    (include_stats : bool) (result : DataFrame) :
  _add_imputed_details_to_df p avg data predicted previous include_stats = Ok result →
  length (rows result) = length (rows data).
Proof.
  unfold _add_imputed_details_to_df.
  destruct (with_series _ _ data) as [wp|e] eqn:Ews; cbn -[with_aggregates_of]; [|done].
  apply with_series_rows_length in Ews.
  destruct include_stats; cbn -[with_aggregates_of]; [|by intros [= <-]].
  destruct (with_aggregates_of _ avg wp) as [wa|e] eqn:Ewa; cbn -[both_df_of]; [|done].
  apply with_aggregates_of_rows_length in Ewa.
  destruct (both_df_of _ wa previous) as [both|e] eqn:Eb; cbn -[sort]; [|done].
  apply both_df_of_current in Eb.
  destruct (sort _ both) as [sorted|e] eqn:Es; cbn -[keep_current with_rolling]; [|done].
  apply sort_rows_Permutation in Es.
  destruct (numeric_column _ _); cbn -[keep_current with_rolling]; [|done].
  intros Hk%keep_current_rows.
  rewrite Hk, length_fmap, with_rolling_current.
  rewrite (filter_length_Permutation _ _ _ Es). congruence.
Qed.

Lemma predict_month_warnings (p : RegressionModelPredictor) (avg : Q)
    (include_stats : bool) (month : Arrow) (previous : option DataFrame) (st : Run) :
  warnings (predict_month p avg include_stats month previous st).2 = warnings st.
Proof.
  unfold predict_month.
  destruct (read_dataframe _ _) as [data|e]; cbn -[_add_imputed_details_to_df select sort];
    [|done].
  destruct (select _ data) as [features|e];
    cbn -[_add_imputed_details_to_df select sort]; [|done].
  destruct (predict_values _ features) as [predicted|e];
    cbn -[_add_imputed_details_to_df select sort]; [|done].
  destruct (_add_imputed_details_to_df _ _ _ _ _ _) as [result|e] eqn:Eadd;
    cbn -[select sort]; [|done].
  apply add_imputed_details_rows_length in Eadd.
  assert ((height data =? height result) = true) as ->.
  { apply Z.eqb_eq. unfold height. by rewrite Eadd. }
  cbn -[select sort].
  destruct (_ ← select _ result; _); done.
Qed.

Lemma predict_loop_warnings (p : RegressionModelPredictor) (avg : Q)
    (include_stats : bool) (ms : list Arrow) :
  ∀ (previous : option DataFrame) (st : Run),
    warnings (predict_loop p avg include_stats ms previous st).2 = warnings st.
Proof.
  induction ms as [|m ms IH]; intros previous st; [done|].
  cbn [predict_loop].
  pose proof (predict_month_warnings p avg include_stats m previous st) as Hm.
  destruct (predict_month p avg include_stats m previous st) as [[result|e] st'].
  - by rewrite IH.
  - done.
Qed.

(** C10: for predicted values as many as the rows of the month's input,
    the frame [_add_imputed_details_to_df] returns has as many rows as the
    input, also when the previous month's rows were concatenated for the
    rolling statistic; hence [predict] never logs the length-mismatch
    warning. *)
Theorem add_imputed_details_one_row_per_input_row (p : RegressionModelPredictor) :
  (∀ (avg : Q) (data : DataFrame) (predicted : list Q) (previous : option DataFrame)
     (include_stats : bool) (result : DataFrame),
     length predicted = length (rows data) →
     _add_imputed_details_to_df p avg data predicted previous include_stats = Ok result →
     height result = height data)
  ∧ (∀ (avg : Q) (data : DataFrame) (predicted : list Q) (previous : option DataFrame),
       length predicted = length (rows data) →
       ∃ result, _add_imputed_details_to_df p avg data predicted previous false = Ok result)
  ∧ (∀ (include_stats : bool) (st : Run),
       warnings (predict p include_stats st).2 = warnings st).
Proof.
  split; [|split].
  - intros avg data predicted previous include_stats result _ H.
    unfold height. by rewrite (add_imputed_details_rows_length _ _ _ _ _ _ _ H).
  - intros avg data predicted previous Hlen.
    unfold _add_imputed_details_to_df, with_series.
    rewrite bool_decide_eq_true_2 by by rewrite length_fmap.
    cbn. eauto.
  - intros include_stats st. unfold predict.
    destruct (_check_model_quality _ _); [|done].
    apply predict_loop_warnings.
Qed.

Lemma add_imputed_details_one_row_per_input_row_witness :
  warnings (predict (test_predictor (7#10)%Q (9#10)%Q) true test_run).2 = [].
Proof.
  exact (proj2 (proj2 (add_imputed_details_one_row_per_input_row
                         (test_predictor (7#10)%Q (9#10)%Q))) true test_run).
Defined.

Example january_after_december_has_two_rows :
  length <$> january_rolling = Some 2%nat.
Proof. vm_compute. reflexivity. Qed.

(** *** The rolling statistic across months *)













End PredictorFacts.

(** ** The temporal range *)

Module TemporalFacts.
Import Calendar CalendarTactics CalendarFacts Planner Spatial Temporal TemporalSpec.

Example months_of_test_config :
  months test_temporal_config = [mkArrow 2023 1 1 0; mkArrow 2023 2 1 0].
Proof. vm_compute. reflexivity. Qed.

Example month_ids_of_winter_config :
  month_ids winter_config = ["2022-11"; "2022-12"; "2023-01"; "2023-02"].
Proof. vm_compute. reflexivity. Qed.

(** *** Months on the line of all months *)

Lemma month_index_first_instant (k : Z) :
  month_index (k / 12) (k mod 12 + 1) = k.
Proof. unfold month_index. Z.div_mod_to_equations. lia. Qed.

Lemma first_instant_valid (k : Z) : 12 ≤ k → valid_month (k / 12) (k mod 12 + 1).
Proof. intros Hk. unfold valid_month. Z.div_mod_to_equations. lia. Qed.

Lemma first_instant_of_index (y m : Z) :
  valid_month y m → first_instant_of (month_index y m) = mkArrow y m 1 0.
Proof.
  intros [Hy Hm]. unfold first_instant_of, month_index.
  f_equal; Z.div_mod_to_equations; lia.
Qed.

(** Moving the first instant of a month by whole months gives the first
    instant of the month reached. *)
Lemma shift_first_instant (k i : Z) :
  12 ≤ k → 0 ≤ i → shift_months i (first_instant_of k) = first_instant_of (k + i).
Proof.
  intros Hk Hi. unfold shift_months, first_instant_of.
  cbn [year month day microsecond_of_day].
  assert (k / 12 + (k mod 12 + 1 - 1 + i) / 12 = (k + i) / 12) as ->
    by (Z.div_mod_to_equations; lia).
  assert ((k mod 12 + 1 - 1 + i) mod 12 = (k + i) mod 12) as ->
    by (Z.div_mod_to_equations; lia).
  pose proof (days_in_month_pos _ _ (first_instant_valid (k + i) ltac:(lia))) as Hd.
  f_equal. lia.
Qed.

Lemma toordinal_first_instant_succ (k : Z) :
  12 ≤ k →
  toordinal (first_instant_of (k + 1))
  = toordinal (first_instant_of k) + Calendar._days_in_month (k / 12) (k mod 12 + 1).
Proof.
  intros Hk.
  pose proof (first_of_next_month _ _ 0 (first_instant_valid k Hk)) as Hn.
  fold (first_instant_of k) in Hn.
  rewrite (shift_first_instant k 1) in Hn by lia. lia.
Qed.

Lemma toordinal_first_instant_mono (k n : Z) :
  12 ≤ k → 0 ≤ n →
  toordinal (first_instant_of k) + 28 * n ≤ toordinal (first_instant_of (k + n)).
Proof.
  intros Hk. revert n. apply natlike_ind.
  - replace (k + 0) with k by lia. lia.
  - intros n Hn IH.
    replace (k + Z.succ n) with (k + n + 1) by lia.
    rewrite toordinal_first_instant_succ by lia.
    pose proof (days_in_month_pos _ _ (first_instant_valid (k + n) ltac:(lia))). lia.
Qed.

(** An instant lies between the first instant of its month and the first
    instant of the next month. *)
Lemma instant_within_month (a : Arrow) :
  valid_arrow a →
  instant (first_instant_of (month_index (year a) (month a))) ≤ instant a
  ∧ instant a < instant (first_instant_of (month_index (year a) (month a) + 1)).
Proof.
  intros (V & _ & Hd & Hus).
  assert (12 ≤ month_index (year a) (month a)) as Hk
    by (destruct V; unfold month_index; lia).
  pose proof (toordinal_first_instant_succ _ Hk) as Hs.
  rewrite (first_instant_of_index _ _ V) in *.
  assert (month_index (year a) (month a) / 12 = year a
          ∧ month_index (year a) (month a) mod 12 + 1 = month a) as [Ey Em].
  { pose proof (first_instant_of_index _ _ V) as E. unfold first_instant_of in E.
    by injection E. }
  rewrite Ey, Em in Hs.
  unfold instant in *. rewrite Hs.
  unfold toordinal, _ymd2ord. cbn [year month day microsecond_of_day].
  unfold first_instant_of. cbn [microsecond_of_day].
  unfold DAY_US in *. nia.
Qed.

(** The first instant of month [k] is not after [a] exactly when [k] is not
    after the month of [a]. *)
Lemma first_instant_le (k : Z) (a : Arrow) :
  12 ≤ k → valid_arrow a →
  (instant (first_instant_of k) <=? instant a)
  = (k <=? month_index (year a) (month a)).
Proof.
  intros Hk Ha. destruct (instant_within_month a Ha) as [Hlo Hhi].
  set (ke := month_index (year a) (month a)) in *.
  assert (12 ≤ ke) as Hke by (destruct Ha as ([? ?] & _); unfold ke, month_index; lia).
  assert (∀ j, instant (first_instant_of j) = toordinal (first_instant_of j) * DAY_US)
    as Hi by (intros j; unfold instant, first_instant_of; cbn; lia).
  rewrite Hi in *. unfold DAY_US in *.
  destruct (Z.leb_spec k ke) as [Hle|Hgt].
  - pose proof (toordinal_first_instant_mono k (ke - k) Hk ltac:(lia)) as Hm.
    replace (k + (ke - k)) with ke in Hm by lia.
    apply Z.leb_le. nia.
  - pose proof (toordinal_first_instant_mono (ke + 1) (k - (ke + 1)) ltac:(lia) ltac:(lia))
      as Hm.
    replace (ke + 1 + (k - (ke + 1))) with k in Hm by lia.
    apply Z.leb_gt. nia.
Qed.

Lemma range_month_from_spec (turns : nat) (ks : Z) (end_ : Arrow) (i : Z) :
  12 ≤ ks → valid_arrow end_ → 0 ≤ i →
  (Z.to_nat (month_index (year end_) (month end_) - (ks + i) + 1) ≤ turns)%nat →
  range_month_from turns (first_instant_of ks) end_ i (first_instant_of (ks + i))
  = first_instant_of
      <$> seqZ (ks + i) (month_index (year end_) (month end_) - (ks + i) + 1).
Proof.
  intros Hks He. set (ke := month_index (year end_) (month end_)).
  revert i. induction turns as [|turns IH]; intros i Hi Hn.
  - rewrite seqZ_nil by lia. reflexivity.
  - cbn [range_month_from].
    rewrite (first_instant_le (ks + i) end_) by (done || lia). fold ke.
    destruct (Z.leb_spec (ks + i) ke) as [Hle|Hgt].
    + rewrite (seqZ_cons (ks + i)) by lia. cbn [fmap list_fmap]. f_equal.
      rewrite (shift_first_instant ks (i + 1)) by lia.
      specialize (IH (i + 1) ltac:(lia) ltac:(lia)).
      replace (ks + (i + 1)) with (Z.succ (ks + i)) in IH |- * by lia.
      replace (ke - Z.succ (ks + i) + 1) with (Z.pred (ke - (ks + i) + 1)) in IH by lia.
      exact IH.
    + rewrite seqZ_nil by lia. reflexivity.
Qed.

Lemma months_first_instants (c : TemporalConfig) :
  starts_month (start_date c) →
  valid_arrow (end_date c) →
  months c
  = first_instant_of
      <$> seqZ (month_index (year (start_date c)) (month (start_date c)))
               (month_index (year (end_date c)) (month (end_date c))
                - month_index (year (start_date c)) (month (start_date c)) + 1).
Proof.
  intros (V & Hd & Hus) He.
  destruct c as [[y1 m1 d1 us1] e]. cbn in V, Hd, Hus, He |- *. subst d1 us1.
  unfold months, range_month. cbn [start_date end_date].
  rewrite <- (first_instant_of_index y1 m1 V).
  set (ks := month_index y1 m1).
  assert (12 ≤ ks) as Hks by (destruct V; unfold ks, month_index; lia).
  pose proof (range_month_from_spec MAX_MONTHS ks e 0 Hks He ltac:(lia)) as H.
  rewrite Z.add_0_r in H. apply H.
  destruct He as ([? ?] & ? & _). unfold MAX_MONTHS, month_index. lia.
Qed.

Lemma elem_of_months (c : TemporalConfig) (a : Arrow) :
  starts_month (start_date c) →
  valid_arrow (end_date c) →
  a ∈ months c
  ↔ ∃ k, month_index (year (start_date c)) (month (start_date c)) ≤ k
         ∧ k ≤ month_index (year (end_date c)) (month (end_date c))
         ∧ a = first_instant_of k.
Proof.
  intros Hs He. rewrite (months_first_instants c Hs He), list_elem_of_fmap.
  split.
  - intros (k & -> & Hk). apply elem_of_seqZ in Hk. exists k. repeat split; lia.
  - intros (k & H1 & H2 & ->). exists k. split; [done|]. apply elem_of_seqZ. lia.
Qed.

(** X1: for a range that starts at the first instant of a month, [months]
    lists the first instants of the calendar months from the month of the
    start to the month of the end, both included, in order; there is none
    when the end lies in an earlier month than the start. *)
Theorem months_lists_every_month (c : TemporalConfig) :
  starts_month (start_date c) →
  valid_arrow (end_date c) →
  months c
  = first_instant_of
      <$> seqZ (month_index (year (start_date c)) (month (start_date c)))
               (month_index (year (end_date c)) (month (end_date c))
                - month_index (year (start_date c)) (month (start_date c)) + 1).
Proof. exact (months_first_instants c). Qed.

Lemma months_lists_every_month_witness :
  months winter_config
  = first_instant_of
      <$> seqZ (month_index 2022 11) (month_index 2023 2 - month_index 2022 11 + 1).
Proof.
  apply (months_lists_every_month winter_config).
  - closed_bounds.
  - closed_bounds.
Defined.

(** X2: the years and the months of a range agree: the year of every
    month of [months] is one of [years], and when the start is not in a
    later month than the end, every year of [years] has a month in
    [months]. *)
Theorem years_cover_months (c : TemporalConfig) :
  starts_month (start_date c) →
  valid_arrow (end_date c) →
  (∀ a, a ∈ months c → year a ∈ years c)
  ∧ (month_index (year (start_date c)) (month (start_date c))
     ≤ month_index (year (end_date c)) (month (end_date c)) →
     ∀ y, y ∈ years c → ∃ a, a ∈ months c ∧ year a = y).
Proof.
  intros Hs He.
  pose proof Hs as ([Hy1 Hm1] & _). pose proof He as ([Hy2 Hm2] & _).
  unfold years, py_range. split.
  - intros a Ha. apply (elem_of_months c a Hs He) in Ha as (k & H1 & H2 & ->).
    apply elem_of_seqZ. unfold month_index in *. cbn [year first_instant_of].
    Z.div_mod_to_equations. lia.
  - intros Hle y Hy. apply elem_of_seqZ in Hy.
    set (ks := month_index (year (start_date c)) (month (start_date c))) in *.
    exists (first_instant_of (Z.max ks (12 * y))). split.
    + apply (elem_of_months c _ Hs He). exists (Z.max ks (12 * y)).
      fold ks. unfold month_index in *. repeat split; lia.
    + cbn [year first_instant_of]. unfold ks, month_index in *.
      Z.div_mod_to_equations. lia.
Qed.

Lemma years_cover_months_witness :
  (∀ a, a ∈ months winter_config → year a ∈ years winter_config)
  ∧ ∀ y, y ∈ years winter_config → ∃ a, a ∈ months winter_config ∧ year a = y.
Proof.
  destruct (years_cover_months winter_config) as [H1 H2].
  - closed_bounds.
  - closed_bounds.
  - split; [exact H1|]. apply H2. vm_compute. discriminate.
Defined.

(** *** Month identifiers *)

Lemma year_digits_ok_all (y : Z) : 1 ≤ y ≤ 9999 → year_digits_ok y = true.
Proof.
  intros Hy.
  assert (forallb year_digits_ok (seqZ 1 9999) = true) as H by (vm_compute; reflexivity).
  rewrite forallb_forall in H. apply H. apply list_elem_of_In, elem_of_seqZ. lia.
Qed.

Lemma month_digits_ok_all (m : Z) : 1 ≤ m ≤ 12 → month_digits_ok m = true.
Proof.
  intros Hm.
  assert (forallb month_digits_ok (seqZ 1 12) = true) as H by (vm_compute; reflexivity).
  rewrite forallb_forall in H. apply H. apply list_elem_of_In, elem_of_seqZ. lia.
Qed.

(** A month identifier is read back as the first instant of its month. *)
Lemma strptime_format (y m : Z) :
  1 ≤ y ≤ 9999 → 1 ≤ m ≤ 12 →
  strptime_Ym (format_YYYY_MM y m) = Some (mkArrow y m 1 0).
Proof.
  intros Hy Hm.
  pose proof (year_digits_ok_all y Hy) as Dy.
  pose proof (month_digits_ok_all m Hm) as Dm.
  unfold year_digits_ok, month_digits_ok in Dy, Dm.
  unfold format_YYYY_MM.
  destruct (pad 4 (pretty y)) as [|a [|b [|c [|d [|? ?]]]]]; try discriminate Dy.
  destruct (pad 2 (pretty m)) as [|m1 [|m2 [|? ?]]]; try discriminate Dm.
  destruct (digit_of a) as [d1|] eqn:Ea; [|discriminate Dy].
  destruct (digit_of b) as [d2|] eqn:Eb; [|discriminate Dy].
  destruct (digit_of c) as [d3|] eqn:Ec; [|discriminate Dy].
  destruct (digit_of d) as [d4|] eqn:Ed; [|discriminate Dy].
  destruct (digit_of m1) as [e1|] eqn:E1; [|discriminate Dm].
  destruct (digit_of m2) as [e2|] eqn:E2; [|discriminate Dm].
  apply Z.eqb_eq in Dy. apply Z.eqb_eq in Dm.
  change (String a (String b (String c (String d ""))) +:+ "-" +:+ String m1 (String m2 ""))
    with (String a (String b (String c (String d (String "-"%char
            (String m1 (String m2 ""))))))).
  unfold strptime_Ym. cbv beta iota.
  rewrite Ea, Eb, Ec, Ed, E1, E2. simpl.
  rewrite Dy, Dm.
  destruct (Z.leb_spec 1 y); [|lia].
  destruct (Z.leb_spec 1 m); [|lia].
  destruct (Z.leb_spec m 12); [|lia].
  reflexivity.
Qed.

Lemma strptime_month_format (a : Arrow) :
  starts_month a → year a ≤ 9999 → strptime_Ym (_month_format a) = Some a.
Proof.
  intros ([Hy Hm] & Hd & Hus) Hmax. destruct a as [y m d us]. cbn in *. subst d us.
  unfold _month_format. cbn [year month]. apply strptime_format; lia.
Qed.

Lemma months_start_months (c : TemporalConfig) (a : Arrow) :
  starts_month (start_date c) →
  valid_arrow (end_date c) →
  a ∈ months c → starts_month a ∧ year a ≤ 9999.
Proof.
  intros Hs He Ha. apply (elem_of_months c a Hs He) in Ha as (k & H1 & H2 & ->).
  destruct Hs as ([? ?] & _). destruct He as ([? ?] & ? & _).
  assert (12 ≤ k) as Hk by (unfold month_index in *; lia).
  split.
  - split; [by apply first_instant_valid|done].
  - cbn [year first_instant_of]. unfold month_index in *. Z.div_mod_to_equations. lia.
Qed.

(** X10: the identifiers of the months of a range are read back by
    [strptime] as the months they name, so that no two months of the range
    have the same identifier. *)
Theorem month_ids_round_trip (c : TemporalConfig) :
  starts_month (start_date c) →
  valid_arrow (end_date c) →
  strptime_Ym <$> month_ids c = Some <$> months c
  ∧ NoDup (month_ids c).
Proof.
  intros Hs He.
  assert (∀ a, a ∈ months c → strptime_Ym (_month_format a) = Some a) as Hback.
  { intros a Ha. destruct (months_start_months c a Hs He Ha). by apply strptime_month_format. }
  split.
  - unfold month_ids. rewrite <- list_fmap_compose.
    apply Forall_fmap_ext_1, Forall_forall. intros a Ha. by apply Hback.
  - unfold month_ids. apply NoDup_fmap_2_strong.
    + intros a b Ha Hb E. apply Hback in Ha, Hb. congruence.
    + rewrite (months_first_instants c Hs He). apply NoDup_fmap_2_strong.
      * intros j k _ _ E. unfold first_instant_of in E.
        injection E as E1 E2. Z.div_mod_to_equations. lia.
      * apply NoDup_seqZ.
Qed.

Lemma month_ids_round_trip_witness :
  strptime_Ym <$> month_ids winter_config = Some <$> months winter_config
  ∧ NoDup (month_ids winter_config).
Proof.
  apply (month_ids_round_trip winter_config).
  - closed_bounds.
  - closed_bounds.
Defined.

End TemporalFacts.

(** ** Combine plan builder *)

Module PlanBuilderFacts.
Import Calendar CalendarFacts Planner PlannerSpec PlannerFacts Spatial.
Import Temporal TemporalSpec TemporalFacts PlanBuilder PlanBuilderSpec StorageFacts.

Example plan_of_fallback_results :
  (λ p, (month_id p, (λ path, metadata path !! "dataset") <$> paths p))
    <$> fallback_plans
  = [ ("2023-01", [Some "static_dataset"; Some "yearly_dataset";
                   Some "monthly_dataset1"; Some "monthly_dataset2"]);
      ("2023-02", [Some "static_dataset"; Some "yearly_dataset";
                   Some "monthly_dataset1"; Some "monthly_dataset2"]) ].
Proof. vm_compute. reflexivity. Qed.

(** *** Comprehensions that may fail *)

Lemma mapM_Ok {A B : Type} (f : A → res B) (l : list A) (ys : list B) :
  mapM f l = Ok ys ↔ Forall2 (λ x y, f x = Ok y) l ys.
Proof.
  revert ys. induction l as [|x l IH]; intros ys; cbn.
  - split.
    + intros [= <-]. constructor.
    + intros H. by inversion H.
  - split.
    + destruct (f x) as [y|e] eqn:Ef; cbn; [|done].
      destruct (mapM f l) as [k|e] eqn:Em; cbn; [|done].
      intros [= <-]. constructor; [done|]. by apply IH.
    + intros H. inversion H as [|? y ? k Hy Hk]; subst.
      rewrite Hy. cbn. apply IH in Hk. rewrite Hk. reflexivity.
Qed.

Lemma mapM_Err {A B : Type} (f : A → res B) (l : list A) (e : exn) :
  mapM f l = Err e → ∃ x, x ∈ l ∧ f x = Err e.
Proof.
  induction l as [|x l IH]; cbn; [done|].
  destruct (f x) as [y|e'] eqn:Ef; cbn.
  - destruct (mapM f l) as [k|e'] eqn:Em; cbn; [done|].
    intros [= ->]. destruct (IH eq_refl) as (x' & Hx' & He).
    exists x'. split; [|done]. apply elem_of_cons. by right.
  - intros [= ->]. exists x. split; [|done]. apply elem_of_cons. by left.
Qed.

Lemma Forall2_elem_of_l {A B : Type} (P : A → B → Prop) (l : list A) (k : list B) (x : A) :
  Forall2 P l k → x ∈ l → ∃ y, y ∈ k ∧ P x y.
Proof.
  intros H Hx. apply list_elem_of_lookup in Hx as [i Hi].
  destruct (Forall2_lookup_l _ _ _ _ _ H Hi) as (y & Hy & HP).
  exists y. split; [|done]. by eapply list_elem_of_lookup_2.
Qed.

Lemma Forall2_elem_of_r {A B : Type} (P : A → B → Prop) (l : list A) (k : list B) (y : B) :
  Forall2 P l k → y ∈ k → ∃ x, x ∈ l ∧ P x y.
Proof.
  intros H Hy. apply list_elem_of_lookup in Hy as [i Hi].
  destruct (Forall2_lookup_r _ _ _ _ _ H Hi) as (x & Hx & HP).
  exists x. split; [|done]. by eapply list_elem_of_lookup_2.
Qed.

(** *** Grouping by dataset *)

Lemma metadata_item_Ok (key : string) (p : HivePath) (v : string) :
  metadata_item key p = Ok v ↔ metadata p !! key = Some v.
Proof.
  unfold metadata_item. destruct (metadata p !! key); split; congruence.
Qed.

Lemma dataset_names_Ok (rs : list UploadResult) (ns : list string) :
  dataset_names rs = Ok ns →
  NoDup ns ∧ (∀ r, r ∈ rs → is_Some (meta r !! "dataset"))
  ∧ ∀ n, n ∈ ns ↔ ∃ r, r ∈ rs ∧ meta r !! "dataset" = Some n.
Proof.
  unfold dataset_names.
  destruct (mapM _ rs) as [names|e] eqn:Em; cbn; [|done].
  intros [= <-]. apply mapM_Ok in Em. split; [apply NoDup_remove_dups|]. split.
  - intros r Hr. destruct (Forall2_elem_of_l _ _ _ _ Em Hr) as (n & _ & Hn).
    apply metadata_item_Ok in Hn. unfold meta. eauto.
  - intros n. rewrite elem_of_remove_dups. split.
    + intros Hn. destruct (Forall2_elem_of_r _ _ _ _ Em Hn) as (r & Hr & Hrn).
      apply metadata_item_Ok in Hrn. eauto.
    + intros (r & Hr & Hrn).
      destruct (Forall2_elem_of_l _ _ _ _ Em Hr) as (n' & Hn' & Hrn').
      apply metadata_item_Ok in Hrn'. unfold meta in Hrn. congruence.
Qed.

Lemma group_by_dataset_Ok (rs : list UploadResult) (gs : list _DatasetResultGroup) :
  group_by_dataset rs = Ok gs →
  NoDup (dataset <$> gs)
  ∧ (∀ g, g ∈ gs →
          results g ≠ []
          ∧ ∀ r, r ∈ results g ↔ r ∈ rs ∧ meta r !! "dataset" = Some (dataset g))
  ∧ (∀ r, r ∈ rs → ∃ g, g ∈ gs ∧ r ∈ results g).
Proof.
  unfold group_by_dataset.
  destruct (dataset_names rs) as [ns|e] eqn:En; cbn; [|done].
  intros [= <-]. destruct (dataset_names_Ok rs ns En) as (Hnd & Hall & Hns).
  assert (∀ n r,
            r ∈ List.filter (λ r, bool_decide (meta r !! "dataset" = Some n)) rs
            ↔ r ∈ rs ∧ meta r !! "dataset" = Some n) as Hf.
  { intros n r. rewrite elem_of_List_filter, bool_decide_eq_true. tauto. }
  split; [|split].
  - rewrite <- list_fmap_compose.
    enough (∀ (f : string → _DatasetResultGroup) (l : list string),
              (∀ n, dataset (f n) = n) → dataset ∘ f <$> l = l) as -> by done.
    intros f l Hfl. induction l as [|n l IH]; cbn; [done|]. by rewrite Hfl, IH.
  - intros g Hg. apply list_elem_of_fmap in Hg as (n & -> & Hn). cbn. split.
    + apply Hns in Hn as (r & Hr & Hrn).
      intros E. assert (r ∈ List.filter
                             (λ r, bool_decide (meta r !! "dataset" = Some n)) rs) as Hin
        by by apply Hf.
      rewrite E in Hin. by apply elem_of_nil in Hin.
    + apply Hf.
  - intros r Hr. destruct (Hall r Hr) as [n Hn].
    eexists. split.
    + apply list_elem_of_fmap. exists n. split; [reflexivity|].
      apply Hns. eauto.
    + cbn. by apply Hf.
Qed.

(** X3: [group_by_dataset] splits the results by their dataset name: no
    two groups have the same name, no group is empty, a group holds exactly
    the results of its dataset, and every result is in a group. *)
Theorem group_by_dataset_partitions (rs : list UploadResult)
    (gs : list _DatasetResultGroup) :
  group_by_dataset rs = Ok gs →
  NoDup (dataset <$> gs)
  ∧ (∀ g, g ∈ gs →
          results g ≠ []
          ∧ ∀ r, r ∈ results g ↔ r ∈ rs ∧ meta r !! "dataset" = Some (dataset g))
  ∧ (∀ r, r ∈ rs → ∃ g, g ∈ gs ∧ r ∈ results g).
Proof. exact (group_by_dataset_Ok rs gs). Qed.

Lemma group_by_dataset_partitions_witness :
  NoDup (dataset <$> fallback_groups)
  ∧ (∀ g, g ∈ fallback_groups →
          results g ≠ []
          ∧ ∀ r, r ∈ results g
                 ↔ r ∈ fallback_results ∧ meta r !! "dataset" = Some (dataset g))
  ∧ (∀ r, r ∈ fallback_results → ∃ g, g ∈ fallback_groups ∧ r ∈ results g).
Proof.
  apply (group_by_dataset_partitions fallback_results fallback_groups).
  vm_compute. reflexivity.
Defined.

(** X4: [group_by_dataset] raises a [KeyError] for the key [dataset]
    exactly when a result has no dataset name in its partition reference,
    and returns otherwise. *)
Theorem group_by_dataset_missing_name (rs : list UploadResult) :
  (group_by_dataset rs = Err (KeyError "dataset")
   ↔ ∃ r, r ∈ rs ∧ meta r !! "dataset" = None)
  ∧ (is_ok (group_by_dataset rs) = true
     ↔ ∀ r, r ∈ rs → is_Some (meta r !! "dataset")).
Proof.
  assert (∀ e, group_by_dataset rs = Err e →
               e = KeyError "dataset" ∧ ∃ r, r ∈ rs ∧ meta r !! "dataset" = None) as He.
  { intros e. unfold group_by_dataset, dataset_names.
    destruct (mapM _ rs) as [names|e'] eqn:Em; cbn; [done|].
    intros [= ->]. apply mapM_Err in Em as (r & Hr & Hrn).
    unfold metadata_item in Hrn. fold (meta r) in Hrn.
    destruct (meta r !! "dataset") eqn:E; [done|].
    injection Hrn as <-. eauto. }
  assert (∀ gs, group_by_dataset rs = Ok gs →
                ∀ r, r ∈ rs → is_Some (meta r !! "dataset")) as Hok.
  { intros gs Hgs r Hr.
    destruct (group_by_dataset_Ok rs gs Hgs) as (_ & Hg & Hall).
    destruct (Hall r Hr) as (g & Hgin & Hrg).
    apply (Hg g Hgin) in Hrg as [_ ->]. eauto. }
  destruct (group_by_dataset rs) as [gs|e] eqn:E; cbn; split; split; try done.
  - intros (r & Hr & Hn). destruct (Hok gs eq_refl r Hr) as [? ?]. congruence.
  - intros _. by apply (Hok gs).
  - intros _. by destruct (He e eq_refl) as [_ ?].
  - intros _. by destruct (He e eq_refl) as [-> _].
  - intros Hall. destruct (He e eq_refl) as (_ & r & Hr & Hn).
    destruct (Hall r Hr) as [? ?]. congruence.
Qed.

(** *** The partition chosen for a month *)

Lemma actual_match_Ok (key value : string) (rs : list UploadResult) (m : UploadResult) :
  actual_match key value rs = Ok m → m ∈ rs ∧ meta m !! key = Some value.
Proof.
  unfold actual_match. destruct (List.find _ rs) as [r|] eqn:Ef; [|done].
  intros [= <-]. apply find_some in Ef as [Hin Hb].
  apply bool_decide_eq_true in Hb. by apply list_elem_of_In in Hin.
Qed.

Lemma actual_match_none (key value : string) (rs : list UploadResult) :
  (∀ r, r ∈ rs → meta r !! key ≠ Some value) →
  actual_match key value rs = Err StopIteration.
Proof.
  intros Hno. unfold actual_match.
  destruct (List.find _ rs) as [r|] eqn:Ef; [|done].
  apply find_some in Ef as [Hin Hb]. apply bool_decide_eq_true in Hb.
  apply list_elem_of_In in Hin. by destruct (Hno r Hin).
Qed.

Lemma max_by_metadata_elem (key : string) (ps : list HivePath) (p : HivePath) :
  (∀ q, q ∈ ps → is_Some (metadata q !! key)) →
  max_by_metadata key ps = Ok p → p ∈ ps.
Proof.
  intros Hk Hmax. destruct ps as [|p0 ps]; [done|].
  destruct (max_by_metadata_spec key (p0 :: ps) ltac:(done) Hk) as (p' & v & Hp' & Hin & _).
  congruence.
Qed.

Lemma get_best_matching_member (g : _DatasetResultGroup) (a : Arrow) (p : HivePath) :
  get_best_matching g a = Ok p →
  ∃ r, r ∈ results g ∧ hive_path (pipeline_config r) = p ∧ completeness r = COMPLETE.
Proof.
  unfold get_best_matching.
  destruct (dataset_key g) as [key|e] eqn:Ek; cbn; [|done].
  destruct (extract_value g a) as [value|e] eqn:Ev; cbn; [|done].
  destruct (actual_match key value (results g)) as [m|e] eqn:Em; cbn; [|done].
  apply actual_match_Ok in Em as [Hm _].
  destruct (completeness m) eqn:Ec; cbn.
  - intros [= <-]. eauto.
  - destruct (heuristic_eqb _ _); [|done].
    pose proof (dataset_key_has_key g key Ek) as Hall.
    rewrite (earlier_available_paths_filter key value (results g) Hall). cbn.
    intros Hmax. apply max_by_metadata_elem in Hmax.
    + apply list_elem_of_fmap in Hmax as (r & -> & Hr).
      apply elem_of_List_filter in Hr as [Hr Hav].
      unfold is_earlier_available in Hav. apply andb_true_iff in Hav as [Hav _].
      exists r. repeat split; [done|]. by destruct (completeness r).
    + intros q Hq. apply list_elem_of_fmap in Hq as (r & -> & Hr).
      apply elem_of_List_filter in Hr as [Hr _]. by apply Hall.
Qed.

(** X5: the partition [get_best_matching] returns is always that of a
    member of the group that has data: an EMPTY partition is never
    selected, with or without a fallback. *)
Theorem get_best_matching_has_data (g : _DatasetResultGroup) (a : Arrow) (p : HivePath) :
  get_best_matching g a = Ok p →
  ∃ r, r ∈ results g ∧ hive_path (pipeline_config r) = p ∧ completeness r = COMPLETE.
Proof. exact (get_best_matching_member g a p). Qed.

Lemma get_best_matching_has_data_witness :
  ∃ r, r ∈ results yearly_group
       ∧ hive_path (pipeline_config r)
         = hive_path (pipeline_config (yearly_result "2021" COMPLETE STRICT))
       ∧ completeness r = COMPLETE.
Proof.
  apply (get_best_matching_has_data yearly_group (mkArrow 2023 1 1 0)).
  vm_compute. reflexivity.
Defined.

(** X6: the fallback needs a member for the target month: when no member
    of the group carries the target value under the discriminator key,
    [get_best_matching] ends in the [StopIteration] of [next], whatever the
    policy of the members and whatever earlier partitions have data. *)
Theorem get_best_matching_without_member
    (g : _DatasetResultGroup) (a : Arrow) (key value : string) :
  dataset_key g = Ok key →
  extract_value g a = Ok value →
  (∀ r, r ∈ results g → meta r !! key ≠ Some value) →
  get_best_matching g a = Err StopIteration.
Proof.
  intros Hk Hv Hno. unfold get_best_matching. rewrite Hk, Hv. cbn.
  by rewrite (actual_match_none key value (results g) Hno).
Qed.

Lemma get_best_matching_without_member_witness :
  get_best_matching december_only (mkArrow 2023 1 1 0) = Err StopIteration.
Proof.
  apply (get_best_matching_without_member december_only (mkArrow 2023 1 1 0)
           "month" "2023-01").
  - vm_compute. reflexivity.
  - vm_compute. reflexivity.
  - intros r Hr. apply list_elem_of_singleton in Hr as ->. vm_compute. discriminate.
Defined.

(** *** The plans *)

Lemma all_value_columns_Ok (rs : list UploadResult) (cs : list string) :
  all_value_columns rs = Ok cs →
  NoDup cs
  ∧ ∀ c, c ∈ cs
         ↔ ∃ r d col, r ∈ rs ∧ meta r !! "dataset" = Some d
                      ∧ col ∈ value_column_type_map (pipeline_config r)
                      ∧ c = d +:+ "__" +:+ col.
Proof.
  unfold all_value_columns.
  destruct (mapM _ rs) as [columns|e] eqn:Em; cbn; [|done].
  intros [= <-]. apply mapM_Ok in Em. split; [apply NoDup_remove_dups|].
  assert (∀ r (k : list string),
            mapM (λ column,
                    dataset ← require_key "dataset" (hive_path (pipeline_config r));
                    Ok (dataset +:+ "__" +:+ column))
                 (value_column_type_map (pipeline_config r)) = Ok k →
            ∀ c, c ∈ k ↔ ∃ d col, meta r !! "dataset" = Some d
                                  ∧ col ∈ value_column_type_map (pipeline_config r)
                                  ∧ c = d +:+ "__" +:+ col) as Hrow.
  { intros r k Hk c. apply mapM_Ok in Hk. unfold require_key in Hk. fold (meta r) in Hk.
    split.
    - intros Hc. destruct (Forall2_elem_of_r _ _ _ _ Hk Hc) as (col & Hcol & Hgen).
      destruct (meta r !! "dataset") as [d|]; [|done]. cbn in Hgen.
      injection Hgen as <-. eauto.
    - intros (d & col & Hd & Hcol & ->).
      destruct (Forall2_elem_of_l _ _ _ _ Hk Hcol) as (c & Hc & Hgen).
      rewrite Hd in Hgen. cbn in Hgen. by injection Hgen as <-. }
  intros c. rewrite elem_of_remove_dups, list_elem_of_join. split.
  - intros (k & Hc & Hk).
    destruct (Forall2_elem_of_r _ _ _ _ Em Hk) as (r & Hr & Hrk).
    apply (Hrow r k Hrk) in Hc as (d & col & ? & ? & ?). eauto 8.
  - intros (r & d & col & Hr & Hd & Hcol & ->).
    destruct (Forall2_elem_of_l _ _ _ _ Em Hr) as (k & Hk & Hrk).
    exists k. split; [|done]. apply (Hrow r k Hrk). eauto.
Qed.

(** X7: [plan] returns one plan per month of the range, in the order of
    the months, and every plan expects the same columns: the identifier
    columns of all results and the value columns of every result, each
    prefixed by the name of its dataset. *)
Theorem plan_one_per_month (planner : CombinePlanner) (rs : list UploadResult)
    (ps : list CombinePlan) :
  plan planner rs = Ok ps →
  plan_month <$> ps = months planner
  ∧ ∀ p, p ∈ ps →
         NoDup (expected_columns p)
         ∧ ∀ c, c ∈ expected_columns p
                ↔ (∃ r, r ∈ rs ∧ c ∈ id_columns (pipeline_config r))
                  ∨ (∃ r d col, r ∈ rs ∧ meta r !! "dataset" = Some d
                                ∧ col ∈ value_column_type_map (pipeline_config r)
                                ∧ c = d +:+ "__" +:+ col).
Proof.
  unfold plan.
  destruct (all_value_columns rs) as [vcs|e] eqn:Ev; cbn; [|done].
  destruct (all_value_columns_Ok rs vcs Ev) as [Hnd Hvcs].
  intros Hm. apply mapM_Ok in Hm. split.
  - clear -Hm. induction Hm as [|month p ms ps' Hp _ IH]; [done|].
    cbn. rewrite IH. f_equal.
    destruct (_list_paths_to_merge month rs); cbn in Hp; [|done].
    by injection Hp as <-.
  - intros p Hp. destruct (Forall2_elem_of_r _ _ _ _ Hm Hp) as (month & _ & Hmk).
    destruct (_list_paths_to_merge month rs); cbn in Hmk; [|done].
    injection Hmk as <-. cbn [expected_columns]. split.
    + apply NoDup_list_union; [apply NoDup_remove_dups|done].
    + intros c. rewrite list_elem_of_union, <- Hvcs.
      unfold all_id_columns. rewrite elem_of_remove_dups, list_elem_of_bind.
      split; (intros [(r & ? & ?)|?]; [left; exists r; tauto|by right]).
Qed.

Lemma plan_one_per_month_witness :
  plan_month <$> fallback_plans = months test_planner
  ∧ ∀ p, p ∈ fallback_plans →
         NoDup (expected_columns p)
         ∧ ∀ c, c ∈ expected_columns p
                ↔ (∃ r, r ∈ fallback_results ∧ c ∈ id_columns (pipeline_config r))
                  ∨ (∃ r d col, r ∈ fallback_results ∧ meta r !! "dataset" = Some d
                                ∧ col ∈ value_column_type_map (pipeline_config r)
                                ∧ c = d +:+ "__" +:+ col).
Proof.
  apply (plan_one_per_month test_planner fallback_results fallback_plans).
  vm_compute. reflexivity.
Defined.

(** X8: every plan holds exactly one partition for each dataset of the
    results, and each of them has data: a partition of a plan belongs to a
    COMPLETE result, every result's dataset has a partition in the plan,
    and two partitions of a plan are of different datasets. *)
Theorem plan_one_partition_per_dataset (planner : CombinePlanner)
    (rs : list UploadResult) (ps : list CombinePlan) :
  plan planner rs = Ok ps →
  ∀ p, p ∈ ps →
       (∀ path, path ∈ paths p →
                ∃ r, r ∈ rs ∧ hive_path (pipeline_config r) = path
                     ∧ completeness r = COMPLETE)
       ∧ (∀ r, r ∈ rs →
               ∃ path, path ∈ paths p ∧ metadata path !! "dataset" = meta r !! "dataset")
       ∧ (∀ path1 path2, path1 ∈ paths p → path2 ∈ paths p →
                         metadata path1 !! "dataset" = metadata path2 !! "dataset" →
                         path1 = path2).
Proof.
  unfold plan.
  destruct (all_value_columns rs) as [vcs|e] eqn:Ev; cbn; [|done].
  intros Hm p Hp. apply mapM_Ok in Hm.
  destruct (Forall2_elem_of_r _ _ _ _ Hm Hp) as (month & _ & Hmk).
  unfold _list_paths_to_merge in Hmk.
  destruct (group_by_dataset rs) as [gs|e] eqn:Eg; cbn in Hmk; [|done].
  destruct (mapM _ gs) as [chosen|e] eqn:Ec; cbn in Hmk; [|done].
  injection Hmk as <-. cbn [paths]. apply mapM_Ok in Ec.
  destruct (group_by_dataset_Ok rs gs Eg) as (Hnd & Hg & Hall).
  assert (∀ g path, g ∈ gs → get_best_matching g month = Ok path →
                    metadata path !! "dataset" = Some (dataset g)
                    ∧ ∃ r, r ∈ rs ∧ hive_path (pipeline_config r) = path
                           ∧ completeness r = COMPLETE) as Hsel.
  { intros g path Hgin Hbest.
    destruct (get_best_matching_member g month path Hbest) as (r & Hr & <- & Hc).
    apply (Hg g Hgin) in Hr as [Hr Hd]. split; [exact Hd|eauto]. }
  split; [|split].
  - intros path Hpath. rewrite elem_of_remove_dups in Hpath.
    destruct (Forall2_elem_of_r _ _ _ _ Ec Hpath) as (g & Hgin & Hbest).
    by destruct (Hsel g path Hgin Hbest).
  - intros r Hr. destruct (Hall r Hr) as (g & Hgin & Hrg).
    destruct (Forall2_elem_of_l _ _ _ _ Ec Hgin) as (path & Hpath & Hbest).
    exists path. split; [by apply elem_of_remove_dups|].
    destruct (Hsel g path Hgin Hbest) as [-> _].
    apply (Hg g Hgin) in Hrg as [_ ->]. reflexivity.
  - intros path1 path2 H1 H2 Hsame.
    rewrite elem_of_remove_dups in H1, H2.
    apply list_elem_of_lookup in H1 as [i1 Hi1].
    apply list_elem_of_lookup in H2 as [i2 Hi2].
    destruct (Forall2_lookup_r _ _ _ _ _ Ec Hi1) as (g1 & Hg1 & Hb1).
    destruct (Forall2_lookup_r _ _ _ _ _ Ec Hi2) as (g2 & Hg2 & Hb2).
    destruct (Hsel g1 path1 (list_elem_of_lookup_2 _ _ _ Hg1) Hb1) as [Hd1 _].
    destruct (Hsel g2 path2 (list_elem_of_lookup_2 _ _ _ Hg2) Hb2) as [Hd2 _].
    assert (i1 = i2) as ->.
    { eapply (NoDup_lookup _ _ _ _ Hnd); rewrite list_lookup_fmap.
      - by rewrite Hg1.
      - rewrite Hg2. cbn. f_equal. congruence. }
    congruence.
Qed.

Lemma plan_one_partition_per_dataset_witness :
  (∀ path, path ∈ paths first_fallback_plan →
           ∃ r, r ∈ fallback_results ∧ hive_path (pipeline_config r) = path
                ∧ completeness r = COMPLETE)
  ∧ (∀ r, r ∈ fallback_results →
          ∃ path, path ∈ paths first_fallback_plan
                  ∧ metadata path !! "dataset" = meta r !! "dataset")
  ∧ (∀ path1 path2, path1 ∈ paths first_fallback_plan →
                    path2 ∈ paths first_fallback_plan →
                    metadata path1 !! "dataset" = metadata path2 !! "dataset" →
                    path1 = path2).
Proof.
  apply (plan_one_partition_per_dataset test_planner fallback_results fallback_plans).
  - vm_compute. reflexivity.
  - apply elem_of_cons. by left.
Defined.

(** *** The days of a plan's month *)



End PlanBuilderFacts.

(** ** The run of the spatial gap-fill orchestrator *)

Module SpatialRunFacts.
Import Calendar CalendarFacts Planner PlannerFacts Polars Storage StorageFacts.
Import Spatial SpatialSpec SpatialRun SpatialRunSpec.

Example impute_february :
  february_run.1 = Ok ()
  ∧ write_log february_after
    = [for_month (output_data_artifact february_manager) "2023-02"].
Proof. split; reflexivity. Qed.

Example check_all_months_present_january_only :
  _check_all_months_present (manager_with fill_with_zero) january_only
  = Err (ValueError "The following months are not present in the dataset: 2023-02.").
Proof. vm_compute. reflexivity. Qed.

(** *** Sorted lists of strings *)

Lemma leb_total (a b : string) : String.leb a b = true ∨ String.leb b a = true.
Proof.
  destruct (String.ltb a b) eqn:E.
  - left. by apply ltb_leb.
  - right. by apply ltb_false_leb.
Qed.

Lemma sorted_Sorted (l : list string) :
  Sorted (λ a b, Is_true (String.leb a b)) (sorted l).
Proof.
  apply (Sorted_merge_sort (λ a b, Is_true (String.leb a b)));
    intros a b; destruct (leb_total a b) as [H|H]; rewrite H; cbn; tauto.
Qed.

Lemma elem_of_sorted (l : list string) (x : string) : x ∈ sorted l ↔ x ∈ l.
Proof. unfold sorted. by rewrite merge_sort_Permutation. Qed.

Lemma NoDup_sorted (l : list string) : NoDup l → NoDup (sorted l).
Proof. unfold sorted. by rewrite merge_sort_Permutation. Qed.

(** *** The months of the dataset *)

Lemma select_month_only (ds : DataFrame) :
  has_column "month" ds = true →
  select ["month"] ds
  = Ok {| columns := ["month"];
          rows := (λ r, filter (λ kv : string * value, kv.1 ∈ ["month"]) r) <$> rows ds |}.
Proof.
  intros H. unfold select. cbn [forallb]. rewrite H. cbn [andb negb].
  rewrite bool_decide_eq_true_2 by apply NoDup_singleton. reflexivity.
Qed.

Lemma available_to_process_spec (ds : DataFrame) :
  has_column "month" ds = true →
  ∃ available, available_to_process ds = Ok available
    ∧ ∀ v, Some v ∈ available ↔ ∃ r, r ∈ rows ds ∧ r !! "month" = Some v.
Proof.
  intros H. unfold available_to_process. rewrite (select_month_only ds H). cbn.
  eexists. split; [reflexivity|]. intros v.
  rewrite merge_sort_Permutation, elem_of_remove_dups, list_elem_of_fmap.
  split.
  - intros (r' & Hv & Hr'). apply list_elem_of_fmap in Hr' as (r & -> & Hr).
    symmetry in Hv. apply map_lookup_filter_Some in Hv as [Hv _]. eauto.
  - intros (r & Hr & Hv). eexists. split; [|apply list_elem_of_fmap; eauto].
    symmetry. apply map_lookup_filter_Some. split; [done|].
    cbn. apply elem_of_cons. by left.
Qed.

Section WithGrid.

Variable cells : Z.
Variable mgr : SpatialImputationManager.
Variable scan_stage : World → string → res DataFrame.

(** The month [m] has a row in the dataset. *)
Let present (ds : DataFrame) (m : string) : Prop :=
  ∃ r, r ∈ rows ds ∧ r !! "month" = Some (VStr m).

Lemma _check_all_months_present_cases (ds : DataFrame) :
  has_column "month" ds = true →
  ∃ missing,
    NoDup missing
    ∧ (∀ m, m ∈ missing ↔ m ∈ months_as_ids mgr ∧ ¬ present ds m)
    ∧ (∀ m, m ∈ months_as_ids mgr → m ∉ missing → present ds m)
    ∧ _check_all_months_present mgr ds
      = match missing with
        | [] => Ok ()
        | _ => Err (ValueError (missing_months_error (String.concat ", " (sorted missing))))
        end.
Proof.
  intros H. unfold _check_all_months_present.
  destruct (available_to_process_spec ds H) as (available & -> & Hav). cbn.
  eexists. split; [|split; [|split; [|reflexivity]]].
  - apply NoDup_ListNoDup, List.NoDup_filter, NoDup_ListNoDup, NoDup_remove_dups.
  - intros m. rewrite elem_of_List_filter, elem_of_remove_dups.
    rewrite negb_true_iff, bool_decide_eq_false, Hav. reflexivity.
  - intros m Hin Hout. apply Hav.
    destruct (decide (Some (VStr m) ∈ available)) as [Hs|Hs]; [exact Hs|].
    destruct Hout. rewrite elem_of_List_filter, elem_of_remove_dups.
    by rewrite negb_true_iff, bool_decide_eq_false.
Qed.

(** X11: on a dataset with a [month] column, the check of the months
    passes exactly when every month of the range has a row; otherwise it
    raises a [ValueError] whose message lists the identifiers of the months
    without a row, each once, in ascending order. *)
Theorem check_all_months_present_spec (ds : DataFrame) :
  has_column "month" ds = true →
  (_check_all_months_present mgr ds = Ok ()
   ↔ ∀ m, m ∈ months_as_ids mgr → ∃ r, r ∈ rows ds ∧ r !! "month" = Some (VStr m))
  ∧ (∀ e, _check_all_months_present mgr ds = Err e →
          ∃ missing,
            e = ValueError (missing_months_error (String.concat ", " missing))
            ∧ Sorted (λ a b, Is_true (String.leb a b)) missing
            ∧ NoDup missing
            ∧ ∀ m, m ∈ missing
                   ↔ m ∈ months_as_ids mgr
                     ∧ ¬ ∃ r, r ∈ rows ds ∧ r !! "month" = Some (VStr m)).
Proof.
  intros H.
  destruct (_check_all_months_present_cases ds H) as (missing & Hnd & Hm & Hp & ->).
  split.
  - destruct missing as [|m0 missing].
    + split; [|done]. intros _ m Hin. apply (Hp m Hin), not_elem_of_nil.
    + split; [done|]. intros Hall.
      assert (m0 ∈ m0 :: missing) as Hin by (apply elem_of_cons; by left).
      apply Hm in Hin as [Hin Hno]. destruct Hno. by apply Hall.
  - intros e He. destruct missing as [|m0 missing]; [done|].
    injection He as <-. exists (sorted (m0 :: missing)).
    split; [done|]. split; [apply sorted_Sorted|]. split; [by apply NoDup_sorted|].
    intros m. rewrite elem_of_sorted. apply Hm.
Qed.

(** *** What a run writes *)

Lemma process_month_independent (ds : DataFrame) (m : string) (w w0 : World) :
  (process_month mgr ds m w).1 = (process_month mgr ds m w0).1
  ∧ write_log (process_month mgr ds m w).2
    = ((if is_ok (process_month mgr ds m w0).1
        then [for_month (output_data_artifact mgr) m] else [])
       ++ write_log w)%list
  ∧ ∀ p, (∀ a, p ≠ for_month a m) ∨ is_ok (process_month mgr ds m w0).1 = false →
         lookup_partition (process_month mgr ds m w).2 p = lookup_partition w p.
Proof.
  unfold process_month.
  destruct (impute_and_select mgr _) as [df|e]; cbn; [|by auto].
  destruct (negb _); cbn; [by auto|].
  split; [done|]. split; [done|]. intros p [Hp|Hp]; [|done].
  unfold str_format. apply lookup_partition_write_ne.
  intros E. apply (Hp (output_data_artifact mgr)). destruct p as [mp]. cbn in E.
  subst mp. reflexivity.
Qed.

Lemma _impute_all_months_log (ds : DataFrame) (ms : list string) (w w0 : World) :
  (_impute_all_months mgr ds ms w).1 = Ok ()
  ∧ write_log (_impute_all_months mgr ds ms w).2
    = (rev (for_month (output_data_artifact mgr)
              <$> List.filter (λ m, is_ok (process_month mgr ds m w0).1) ms)
       ++ write_log w)%list
  ∧ ∀ m' a, m' ∉ ms →
            lookup_partition (_impute_all_months mgr ds ms w).2 (for_month a m')
            = lookup_partition w (for_month a m').
Proof.
  unfold _impute_all_months.
  enough (write_log (executor_map (process_month mgr ds) ms w).2
          = (rev (for_month (output_data_artifact mgr)
                    <$> List.filter (λ m, is_ok (process_month mgr ds m w0).1) ms)
             ++ write_log w)%list
          ∧ ∀ m' a, m' ∉ ms →
              lookup_partition (executor_map (process_month mgr ds) ms w).2 (for_month a m')
              = lookup_partition w (for_month a m')) as H.
  { by destruct (executor_map (process_month mgr ds) ms w). }
  revert w. induction ms as [|m ms IH]; intros w; [done|].
  cbn [executor_map List.filter].
  destruct (process_month_independent ds m w w0) as (_ & Hlog & Hlook).
  destruct (process_month mgr ds m w) as [r w1]. cbn [snd] in Hlog, Hlook.
  destruct (IH w1) as [IHlog IHlook].
  destruct (executor_map (process_month mgr ds) ms w1) as [rs w2]. cbn [snd] in *.
  split.
  - rewrite IHlog, Hlog. destruct (is_ok (process_month mgr ds m w0).1); cbn.
    + by rewrite <- app_assoc.
    + done.
  - intros m' a Hm'. rewrite not_elem_of_cons in Hm'. destruct Hm' as [Hne Hm'].
    rewrite IHlook by done. apply Hlook. left. intros a' E.
    apply (f_equal metadata), for_month_month in E. done.
Qed.


(** *** Validation of a month *)

Lemma _validate_result_lookup (w w' : World) (m : string) (cols : list string) :
  lookup_partition w' (for_month (output_data_artifact mgr) m)
  = lookup_partition w (for_month (output_data_artifact mgr) m) →
  _validate_result cells mgr w' m cols = _validate_result cells mgr w m cols.
Proof.
  intros E. unfold _validate_result, read_dataframe_metadata, read_dataframe.
  by rewrite E.
Qed.



(** *** The whole run *)

Lemma _identify_months_to_upload_Ok (w : World) (cols mtu : list string) :
  _identify_months_to_upload cells mgr w cols = Ok mtu →
  ∀ m, (m ∈ mtu → m ∈ months_as_ids mgr)
       ∧ (m ∈ months_as_ids mgr → m ∉ mtu → _validate_result cells mgr w m cols = Ok ()).
Proof.
  unfold _identify_months_to_upload. rewrite executor_map_reading.
  destruct (drain _) as [rs|e] eqn:Ed; cbn; [|done].
  intros [= <-]. apply drain_fmap_ok in Ed.
  induction Ed as [|m0 r0 ms rs H0 _ IH]; intros m.
  - split; [by intros ?%elem_of_nil|by intros ?%elem_of_nil].
  - destruct (_needs_upload cells mgr w m0 cols) as [b|e] eqn:En; cbn in H0; [|done].
    injection H0 as <-. destruct (IH m) as [IH1 IH2].
    destruct b; cbn.
    + split.
      * intros [->|Hin]%elem_of_cons; apply elem_of_cons; [by left|right; by apply IH1].
      * intros [->|Hin]%elem_of_cons Hout; rewrite not_elem_of_cons in Hout.
        -- by destruct Hout.
        -- apply IH2; tauto.
    + split.
      * intros Hin. apply elem_of_cons. right. by apply IH1.
      * intros [->|Hin]%elem_of_cons Hout; [|by apply IH2].
        unfold _needs_upload in En. destruct (negb _); [done|].
        destruct (_validate_result cells mgr w m0 cols) as [[]|[]]; done.
Qed.

Lemma _validate_all_Ok (w : World) (ms cols : list string) :
  Spatial._validate_all cells mgr w ms cols = Ok () →
  ∀ m, m ∈ ms → _validate_result cells mgr w m cols = Ok ().
Proof.
  unfold Spatial._validate_all. rewrite executor_map_reading.
  destruct (drain _) as [us|e] eqn:Ed; cbn; [|done].
  intros _ m Hm. apply drain_fmap_ok in Ed.
  apply list_elem_of_lookup in Hm as [i Hi].
  destruct (Forall2_lookup_l _ _ _ _ _ Ed Hi) as ([] & _ & H). exact H.
Qed.

(** X14: after a run of [impute] that returns, the output partition of
    every month of the range passes the validation, whether the run wrote
    it or found it valid and skipped it. *)
Theorem impute_leaves_every_month_valid (w w' : World) (scanned : DataFrame) :
  scan_stage w "combined_monthly" = Ok scanned →
  impute cells mgr scan_stage w = (Ok (), w') →
  ∀ m, m ∈ months_as_ids mgr →
       _validate_result cells mgr w' m
         ((["month"; "grid_id"; "date"]
             ++ List.filter (selected (spatial_imputer mgr)) (columns scanned))%list)
       = Ok ().
Proof.
  intros Hscan. unfold impute. rewrite Hscan. cbn -[_check_all_months_present].
  destruct (select _ scanned) as [ds|e] eqn:Es; cbn -[_check_all_months_present]; [|done].
  assert (columns ds
          = (["month"; "grid_id"; "date"]
               ++ List.filter (selected (spatial_imputer mgr)) (columns scanned))%list)
    as Ecols.
  { unfold select in Es. repeat case_match; try done. by injection Es as <-. }
  destruct (_check_all_months_present mgr ds) as [[]|e];
    cbn -[_check_all_months_present]; [|done].
  destruct (_identify_months_to_upload cells mgr w (columns ds)) as [mtu|e] eqn:Ei;
    cbn; [|done].
  destruct (_impute_all_months_log ds mtu w w) as (_ & _ & Hlook).
  destruct (_impute_all_months mgr ds mtu w) as [r w1]. cbn [snd] in Hlook.
  intros [= Hv <-] m Hm. rewrite Ecols in Hv, Ei.
  destruct (decide (m ∈ mtu)) as [Hin|Hout].
  - by apply (_validate_all_Ok w1 mtu).
  - rewrite (_validate_result_lookup w w1) by by apply Hlook.
    by apply (_identify_months_to_upload_Ok w _ mtu Ei m).
Qed.

(** X15: a month of the range without a row in the scanned dataset is
    fatal: [impute] raises a [ValueError] before any month is processed,
    and the store is left as it was. *)
Theorem impute_missing_month_is_fatal (w : World) (scanned ds : DataFrame) (m : string) :
  scan_stage w "combined_monthly" = Ok scanned →
  select ((["month"; "grid_id"; "date"]
             ++ List.filter (selected (spatial_imputer mgr)) (columns scanned))%list)
         scanned
  = Ok ds →
  m ∈ months_as_ids mgr →
  (∀ r, r ∈ rows ds → r !! "month" ≠ Some (VStr m)) →
  ∃ msg, impute cells mgr scan_stage w = (Err (ValueError msg), w).
Proof.
  intros Hscan Hsel Hm Hno. unfold impute. rewrite Hscan. cbn [mbind res_bind].
  rewrite Hsel. cbn [mbind res_bind].
  assert (has_column "month" ds = true) as Hcol.
  { unfold select in Hsel. repeat case_match; try done. injection Hsel as <-.
    unfold has_column. cbn. apply bool_decide_eq_true, elem_of_cons. by left. }
  destruct (_check_all_months_present_cases ds Hcol) as (missing & _ & Hmiss & _ & ->).
  destruct missing as [|m0 missing].
  - assert (m ∈ []) as Hin.
    { apply Hmiss. split; [done|]. intros (r & Hr & Hrm). by apply (Hno r Hr). }
    by apply elem_of_nil in Hin.
  - cbn. eauto.
Qed.

End WithGrid.

Lemma check_all_months_present_spec_witness :
  (_check_all_months_present (manager_with fill_with_zero) january_only = Ok ()
   ↔ ∀ m, m ∈ months_as_ids (manager_with fill_with_zero) →
          ∃ r, r ∈ rows january_only ∧ r !! "month" = Some (VStr m))
  ∧ (∀ e, _check_all_months_present (manager_with fill_with_zero) january_only = Err e →
          ∃ missing,
            e = ValueError (missing_months_error (String.concat ", " missing))
            ∧ Sorted (λ a b, Is_true (String.leb a b)) missing
            ∧ NoDup missing
            ∧ ∀ m, m ∈ missing
                   ↔ m ∈ months_as_ids (manager_with fill_with_zero)
                     ∧ ¬ ∃ r, r ∈ rows january_only ∧ r !! "month" = Some (VStr m)).
Proof.
  apply (check_all_months_present_spec (manager_with fill_with_zero) january_only).
  vm_compute. reflexivity.
Defined.


Lemma impute_leaves_every_month_valid_witness :
  _validate_result 1 february_manager february_after "2023-02"
    ((["month"; "grid_id"; "date"]
        ++ List.filter (selected (spatial_imputer february_manager))
                       (columns february))%list)
  = Ok ().
Proof.
  apply (impute_leaves_every_month_valid 1 february_manager (scan_to february)
           empty_world february_after february).
  - reflexivity.
  - vm_compute. reflexivity.
  - refine (bool_decide_unpack _ _). vm_compute. exact I.
Defined.

Lemma impute_missing_month_is_fatal_witness :
  ∃ msg, impute 1 (manager_with fill_with_zero) (scan_to january_only) empty_world
         = (Err (ValueError msg), empty_world).
Proof.
  apply (impute_missing_month_is_fatal 1 (manager_with fill_with_zero)
           (scan_to january_only) empty_world january_only january_only "2023-02").
  - reflexivity.
  - vm_compute. reflexivity.
  - vm_compute. apply elem_of_cons. right. apply elem_of_cons. by left.
  - apply Forall_forall. refine (bool_decide_unpack _ _). vm_compute. exact I.
Defined.

End SpatialRunFacts.

(** ** Sampling of the rows that have a value *)

Module SamplerFacts.
Import Calendar Planner Polars Storage StorageFacts Temporal Sampler SamplerSpec.

Example sample_january :
  (sample one_month_sampler january_world).1 = Ok ()
  ∧ lookup_partition (sample one_month_sampler january_world).2
      (for_month result_artifact "2023-01")
    = Some (mkDataFrame ["grid_id"; "date"; "col_1"]
              [ sample_row 1 "2023-01-01" (Some (10#1)%Q);
                sample_row 3 "2023-01-02" (Some (30#1)%Q) ]).
Proof. split; vm_compute; reflexivity. Qed.

Lemma for_month_stage_ne (a b : DataArtifactRef) (m m' : string) :
  initial_path a ≠ initial_path b →
  metadata (for_month a m) ≠ metadata (for_month b m').
Proof.
  intros Hne E. apply Hne. cbn in E.
  assert ((<["stage":=initial_path a]> (<["month":=m]> (∅ : gmap string string))) !! "stage"
          = Some (initial_path a)) as H1 by by simplify_map_eq.
  rewrite E in H1. by simplify_map_eq.
Qed.

Section WithSampler.

Variable s : FullModelSampler.
Variable w : World.

Hypothesis Hstages :
  initial_path (input_data_artifact s) ≠ initial_path (output_data_artifact s).

(** The month [m] can be sampled: its input partition exists and has the
    column. *)
Let ready (m : string) : Prop :=
  ∃ df, lookup_partition w (for_month (input_data_artifact s) m) = Some df
        ∧ has_column (column_name s) df = true.

Let inputs_as_in (w0 : World) : Prop :=
  ∀ m, lookup_partition w0 (for_month (input_data_artifact s) m)
       = lookup_partition w (for_month (input_data_artifact s) m).

Lemma _process_month_cases (m : string) (w0 : World) :
  inputs_as_in w0 →
  (∃ df, lookup_partition w (for_month (input_data_artifact s) m) = Some df
         ∧ has_column (column_name s) df = true
         ∧ _process_month s m w0
           = (Ok (),
              write_to_destination (rows_with_value (column_name s) df)
                (for_month (output_data_artifact s) m) w0))
  ∨ (¬ ready m ∧ ∃ e, _process_month s m w0 = (Err e, w0)).
Proof.
  intros Hin. unfold _process_month, read_dataframe. rewrite Hin.
  destruct (lookup_partition w _) as [df|] eqn:El; cbn.
  - unfold filter_not_null. destruct (has_column (column_name s) df) eqn:Hc.
    + left. exists df. by repeat split.
    + right. split; [|eauto]. intros (df' & E & Hc'). congruence.
  - right. split; [|eauto]. intros (df' & E & _). congruence.
Qed.

Lemma executor_map_process_month (ms : list string) :
  ∀ w0, inputs_as_in w0 →
    inputs_as_in (executor_map (_process_month s) ms w0).2
    ∧ (∀ m df, m ∈ ms →
         lookup_partition w (for_month (input_data_artifact s) m) = Some df →
         has_column (column_name s) df = true →
         lookup_partition (executor_map (_process_month s) ms w0).2
           (for_month (output_data_artifact s) m)
         = Some (rows_with_value (column_name s) df))
    ∧ (∀ m, m ∉ ms →
         lookup_partition (executor_map (_process_month s) ms w0).2
           (for_month (output_data_artifact s) m)
         = lookup_partition w0 (for_month (output_data_artifact s) m))
    ∧ (is_ok (drain (executor_map (_process_month s) ms w0).1) = true
       ↔ ∀ m, m ∈ ms → ready m).
Proof.
  induction ms as [|m0 ms IH]; intros w0 Hin.
  - cbn. repeat split; try done.
    + by intros m df ?%elem_of_nil.
    + by intros _ m ?%elem_of_nil.
  - cbn [executor_map].
    assert (∀ df m, inputs_as_in (write_to_destination df
                                    (for_month (output_data_artifact s) m) w0)) as Hkeep.
    { intros df m m'. rewrite lookup_partition_write_ne; [apply Hin|].
      intros E. by apply (for_month_stage_ne _ _ m' m Hstages). }
    destruct (_process_month_cases m0 w0 Hin)
      as [(df0 & El0 & Hc0 & ->)|(Hnot & e & ->)].
    + specialize (IH _ (Hkeep (rows_with_value (column_name s) df0) m0))
        as (IHin & IHout & IHother & IHok).
      destruct (executor_map (_process_month s) ms _) as [rs w1]. cbn [fst snd] in *.
      split; [done|]. split; [|split].
      * intros m df [->|Hm]%elem_of_cons El Hc.
        -- destruct (decide (m0 ∈ ms)) as [Hin0|Hout0]; [by apply IHout|].
           rewrite IHother by done. rewrite lookup_partition_write_eq. congruence.
        -- by apply IHout.
      * intros m Hm. rewrite not_elem_of_cons in Hm. destruct Hm as [Hne Hm].
        rewrite IHother by done. apply lookup_partition_write_ne.
        intros E. by apply for_month_month in E.
      * cbn. destruct (drain rs); cbn in *.
        -- split; [|done]. intros _ m [->|Hm]%elem_of_cons.
           ++ exists df0. by split.
           ++ by apply IHok.
        -- split; [done|]. intros Hall. apply IHok. intros m Hm.
           apply Hall, elem_of_cons. by right.
    + specialize (IH _ Hin) as (IHin & IHout & IHother & IHok).
      destruct (executor_map (_process_month s) ms w0) as [rs w1]. cbn [fst snd] in *.
      split; [done|]. split; [|split].
      * intros m df [->|Hm]%elem_of_cons El Hc.
        -- destruct Hnot. exists df. by split.
        -- by apply IHout.
      * intros m Hm. rewrite not_elem_of_cons in Hm. destruct Hm as [Hne Hm].
        by apply IHother.
      * cbn. split; [done|]. intros Hall. destruct Hnot.
        apply Hall, elem_of_cons. by left.
Qed.

(** X16: when the input and the output artifact are different stages,
    [sample] returns exactly when the input partition of every month of the
    range exists and has the sampled column; otherwise it raises. *)
Theorem sample_returns_iff_inputs_ready :
  (sample s w).1 = Ok ()
  ↔ ∀ m, m ∈ month_ids (temporal_config s) →
         ∃ df, lookup_partition w (for_month (input_data_artifact s) m) = Some df
               ∧ has_column (column_name s) df = true.
Proof.
  destruct (executor_map_process_month (month_ids (temporal_config s)) w ltac:(done))
    as (_ & _ & _ & Hok).
  unfold sample.
  destruct (executor_map (_process_month s) _ w) as [rs w1]. cbn [fst snd] in *.
  transitivity (is_ok (drain rs) = true); [|exact Hok].
  destruct (drain rs); cbn; split; done.
Qed.

(** X17: whatever happens to the other months, [sample] writes for every
    month whose input partition exists and has the sampled column the rows
    of that partition that have a value in the column, in their order and
    with the columns of the input; no input partition is changed. *)
Theorem sample_writes_rows_with_value (m : string) (df : DataFrame) :
  m ∈ month_ids (temporal_config s) →
  lookup_partition w (for_month (input_data_artifact s) m) = Some df →
  has_column (column_name s) df = true →
  lookup_partition (sample s w).2 (for_month (output_data_artifact s) m)
  = Some {| columns := columns df;
            rows := List.filter (λ r, bool_decide (is_Some (r !! column_name s))) (rows df) |}
  ∧ ∀ m', lookup_partition (sample s w).2 (for_month (input_data_artifact s) m')
          = lookup_partition w (for_month (input_data_artifact s) m').
Proof.
  intros Hm El Hc.
  destruct (executor_map_process_month (month_ids (temporal_config s)) w ltac:(done))
    as (Hin & Hout & _ & _).
  unfold sample.
  destruct (executor_map (_process_month s) _ w) as [rs w1]. cbn [fst snd] in *.
  split; [by apply Hout|apply Hin].
Qed.

End WithSampler.

Lemma sample_returns_iff_inputs_ready_witness :
  (sample two_months_sampler january_world).1 = Ok ()
  ↔ ∀ m, m ∈ month_ids (temporal_config two_months_sampler) →
         ∃ df, lookup_partition january_world
                 (for_month (input_data_artifact two_months_sampler) m) = Some df
               ∧ has_column (column_name two_months_sampler) df = true.
Proof.
  apply (sample_returns_iff_inputs_ready two_months_sampler january_world).
  vm_compute. discriminate.
Defined.

Lemma sample_writes_rows_with_value_witness :
  lookup_partition (sample two_months_sampler january_world).2
    (for_month (output_data_artifact two_months_sampler) "2023-01")
  = Some {| columns := columns january_frame;
            rows := List.filter
                      (λ r, bool_decide (is_Some (r !! column_name two_months_sampler)))
                      (rows january_frame) |}
  ∧ ∀ m', lookup_partition (sample two_months_sampler january_world).2
            (for_month (input_data_artifact two_months_sampler) m')
          = lookup_partition january_world
              (for_month (input_data_artifact two_months_sampler) m').
Proof.
  apply (sample_writes_rows_with_value two_months_sampler january_world).
  - vm_compute. discriminate.
  - vm_compute. apply elem_of_cons. by left.
  - vm_compute. reflexivity.
  - vm_compute. reflexivity.
Defined.

End SamplerFacts.

(** ** Dataset merge engine: columns and writes *)

Module MergeFacts.
Import Calendar Planner Polars Storage StorageFacts Recombiner RecombinerSpec.
Import RecombinerFacts PlanBuilderFacts SamplerFacts MergeSpec.

(** *** The columns of the combined frame *)

Lemma NoDup_List_filter {A : Type} (f : A → bool) (l : list A) :
  NoDup l → NoDup (List.filter f l).
Proof. intros H. by apply NoDup_ListNoDup, List.NoDup_filter, NoDup_ListNoDup. Qed.

Lemma join_step_columns (acc acc' df j : DataFrame) (dropped : list string) :
  (∀ c, c ∈ columns acc' ↔ c ∈ columns acc ∧ c ∉ dropped) →
  (∀ c, c ∈ dropped → c ∈ columns df ∧ c ≠ "grid_id" ∧ c ≠ "date") →
  (∀ c, c ∈ columns acc → c ∈ columns df →
        c = "grid_id" ∨ c = "date" ∨ c ∈ dropped) →
  join_full (shared_id_columns acc' df) acc' df = Ok j →
  (∀ c, c ∈ columns j ↔ c ∈ columns acc ∨ c ∈ columns df)
  ∧ (NoDup (columns acc') → NoDup (columns df) → NoDup (columns j)).
Proof.
  intros Hacc' Hdropped Hshared Hj.
  assert (∀ c, c ∈ columns acc' → c ∈ columns df →
               c ∈ shared_id_columns acc' df) as Hon.
  { intros c Hc Hd. apply shared_id_columns_spec. repeat split; [done..|].
    apply Hacc' in Hc as [Hc Hnd].
    destruct (Hshared c Hc Hd) as [?|[?|?]]; tauto. }
  split.
  - intros c. rewrite (join_full_columns _ _ _ _ c Hj), Hacc'. split.
    + intros [[? ?]|[? ?]]; tauto.
    + intros [Hc|Hc].
      * destruct (decide (c ∈ dropped)) as [Hd|Hd]; [|tauto].
        right. split; [by apply Hdropped|].
        intros Hin. apply shared_id_columns_spec in Hin as (Hin & _ & Hid).
        apply Hdropped in Hd. tauto.
      * destruct (decide (c ∈ shared_id_columns acc' df)) as [Hin|Hout]; [|tauto].
        left. apply Hacc'. by apply shared_id_columns_spec in Hin as (Hin & _).
  - intros Hnd1 Hnd2.
    destruct (shared_id_columns acc' df) as [|k on] eqn:Eon; [done|].
    injection Hj as <-. cbn [columns]. apply NoDup_app. split; [done|]. split.
    + intros c Hc Hf. apply elem_of_List_filter in Hf as [Hd Hb].
      rewrite negb_true_iff, bool_decide_eq_false in Hb. apply Hb.
      by apply Hon.
    + by apply NoDup_List_filter.
Qed.

Lemma combine_step_columns (ov : bool) (acc df j : DataFrame) :
  combine_step ov acc df = Ok j →
  (∀ c, c ∈ columns j ↔ c ∈ columns acc ∨ c ∈ columns df)
  ∧ (NoDup (columns acc) → NoDup (columns df) → NoDup (columns j)).
Proof.
  unfold combine_step.
  pose proof (shared_columns_spec acc df) as Hs.
  destruct (shared_columns acc df) as [|c0 shared] eqn:Es; cbn.
  - apply (join_step_columns acc acc df j []).
    + intros c. rewrite elem_of_nil. tauto.
    + by intros c ?%elem_of_nil.
    + intros c Hc Hd.
      destruct (decide (c = "grid_id")) as [|H1]; [tauto|].
      destruct (decide (c = "date")) as [|H2]; [tauto|].
      assert (c ∈ []) as Hin by (apply Hs; tauto). by apply elem_of_nil in Hin.
  - destruct ov; cbn; [|done]. intros Hj.
    destruct (join_step_columns acc (drop (c0 :: shared) acc) df j (c0 :: shared))
      as [Hcols Hnd]; try done.
    + intros c. cbn [columns drop]. rewrite elem_of_List_filter.
      by rewrite negb_true_iff, bool_decide_eq_false.
    + intros c Hc. apply Hs in Hc. tauto.
    + intros c Hc Hd.
      destruct (decide (c = "grid_id")) as [|H1]; [tauto|].
      destruct (decide (c = "date")) as [|H2]; [tauto|].
      right. right. apply Hs. tauto.
    + split; [done|]. intros H1 H2. apply Hnd; [|done].
      cbn [columns drop]. by apply NoDup_List_filter.
Qed.

Lemma combine_loop_columns (ov : bool) (dfs : list DataFrame) :
  ∀ acc out, combine_loop ov acc dfs = Ok out →
    (∀ c, c ∈ columns out ↔ c ∈ columns acc ∨ ∃ df, df ∈ dfs ∧ c ∈ columns df)
    ∧ (NoDup (columns acc) → (∀ df, df ∈ dfs → NoDup (columns df)) →
       NoDup (columns out)).
Proof.
  induction dfs as [|df dfs IH]; intros acc out; cbn [combine_loop].
  - intros [= <-]. split; [|done]. intros c. split; [tauto|].
    intros [?|(df & ?%elem_of_nil & _)]; done.
  - destruct (combine_step ov acc df) as [j|e] eqn:Ej; cbn; [|done].
    intros Hout. destruct (combine_step_columns ov acc df j Ej) as [Hj Hndj].
    destruct (IH j out Hout) as [Ho Hndo]. split.
    + intros c. rewrite Ho, Hj. split.
      * intros [[?|?]|(df' & Hin & ?)]; [tauto|right; exists df|right; exists df'];
          (split; [apply elem_of_cons; tauto|done]).
      * intros [?|(df' & [->|Hin]%elem_of_cons & ?)]; [tauto|tauto|right; eauto].
    + intros Hnd Hall. apply Hndo.
      * apply Hndj; [done|]. apply Hall, elem_of_cons. by left.
      * intros df' Hin. apply Hall, elem_of_cons. by right.
Qed.

Lemma combine_all_columns_aux (stage_dfs : list DataFrame) (ov : bool) (out : DataFrame) :
  _combine_all stage_dfs ov = Ok out →
  (∀ c, c ∈ columns out ↔ ∃ df, df ∈ stage_dfs ∧ c ∈ columns df)
  ∧ ((∀ df, df ∈ stage_dfs → NoDup (columns df)) → NoDup (columns out)).
Proof.
  destruct stage_dfs as [|first rest]; [done|]. cbn [_combine_all]. intros H.
  destruct (combine_loop_columns ov rest first out H) as [Hc Hnd]. split.
  - intros c. rewrite Hc. split.
    + intros [?|(df & Hin & ?)]; [exists first|exists df];
        (split; [apply elem_of_cons; tauto|done]).
    + intros (df & [->|Hin]%elem_of_cons & ?); [tauto|right; eauto].
  - intros Hall. apply Hnd.
    + apply Hall, elem_of_cons. by left.
    + intros df Hin. apply Hall, elem_of_cons. by right.
Qed.

(** X18: the frame [_combine_all] returns has exactly the columns of the
    stage frames: a column is in the result when and only when one of the
    frames has it, and when no frame repeats a column, neither does the
    result. *)
Theorem combine_all_columns (stage_dfs : list DataFrame) (ov : bool) (out : DataFrame) :
  _combine_all stage_dfs ov = Ok out →
  (∀ c, c ∈ columns out ↔ ∃ df, df ∈ stage_dfs ∧ c ∈ columns df)
  ∧ ((∀ df, df ∈ stage_dfs → NoDup (columns df)) → NoDup (columns out)).
Proof. exact (combine_all_columns_aux stage_dfs ov out). Qed.

Lemma combine_all_columns_witness :
  ∃ out, _combine_all [stage1_overlapping; stage2_overlapping] true = Ok out
  ∧ (∀ c, c ∈ columns out
          ↔ ∃ df, df ∈ [stage1_overlapping; stage2_overlapping] ∧ c ∈ columns df)
  ∧ ((∀ df, df ∈ [stage1_overlapping; stage2_overlapping] → NoDup (columns df)) →
     NoDup (columns out)).
Proof.
  eexists. split; [vm_compute; reflexivity|].
  apply (combine_all_columns [stage1_overlapping; stage2_overlapping] true).
  vm_compute. reflexivity.
Defined.

(** *** Validation after a merge *)

Lemma update_set_spec (acc names : list string) (c : string) :
  c ∈ update_set acc names ↔ c ∈ acc ∨ c ∈ names.
Proof.
  unfold update_set. rewrite elem_of_app, elem_of_List_filter, elem_of_remove_dups.
  rewrite negb_true_iff, bool_decide_eq_false.
  destruct (decide (c ∈ acc)); tauto.
Qed.

Lemma collect_expected_columns_read (w : World) (mid : string)
    (stages : list DataArtifactRef) (dfs : list DataFrame) :
  Forall2 (λ st df, read_dataframe w (for_month st mid) = Ok df) stages dfs →
  ∀ acc, ∃ cols,
    collect_expected_columns w mid stages acc = Ok cols
    ∧ ∀ c, c ∈ cols ↔ c ∈ acc ∨ ∃ df, df ∈ dfs ∧ c ∈ columns df.
Proof.
  induction 1 as [|st df stages dfs Hr _ IH]; intros acc.
  - exists acc. split; [done|]. intros c. split; [tauto|].
    intros [?|(df & ?%elem_of_nil & _)]; done.
  - cbn [collect_expected_columns]. unfold read_dataframe_metadata. rewrite Hr. cbn.
    destruct (IH (update_set acc (columns df))) as (cols & -> & Hcols).
    exists cols. split; [done|]. intros c. rewrite Hcols, update_set_spec. split.
    + intros [[?|?]|(df' & Hin & ?)]; [tauto|right; exists df|right; exists df'];
        (split; [apply elem_of_cons; tauto|done]).
    + intros [?|(df' & [->|Hin]%elem_of_cons & ?)]; [tauto|tauto|right; eauto].
Qed.

Lemma Forall2_impl_elem {A B : Type} (P Q : A → B → Prop) (l : list A) (k : list B) :
  Forall2 P l k → (∀ x y, x ∈ l → P x y → Q x y) → Forall2 Q l k.
Proof.
  induction 1 as [|x y l k Hxy _ IH]; intros Himp; constructor.
  - apply Himp; [apply elem_of_cons; by left|done].
  - apply IH. intros x' y' Hin. apply Himp, elem_of_cons. by right.
Qed.

Lemma process_month_then_validate (rc : Recombiner) (stages : list DataArtifactRef)
    (ov : bool) (month : Arrow) (w w' : World) :
  (∀ st, st ∈ stages → initial_path st ≠ initial_path (output_data_artifact rc)) →
  process_month rc stages ov month w = (Ok (), w') →
  ∃ first rest combined,
    _read_dfs_to_merge w stages month = Ok (first :: rest)
    ∧ lookup_partition w' (for_month (output_data_artifact rc) (_month_format month))
      = Some combined
    ∧ _validate_combined rc w' month stages
      = if height combined =? height first then Ok ()
        else Err (ValueError (row_count_error (height first) (_month_format month)
                                (height combined))).
Proof.
  intros Hst. unfold process_month.
  destruct (_read_dfs_to_merge w stages month) as [dfs|e] eqn:Er; cbn; [|done].
  destruct (_combine_all dfs ov) as [combined|e] eqn:Ec; [|done].
  intros [= <-].
  destruct dfs as [|first rest]; [done|].
  exists first, rest, combined. split; [done|].
  split; [apply lookup_partition_write_eq|].
  set (mid := _month_format month) in *.
  set (w' := write_to_destination combined (for_month (output_data_artifact rc) mid) w).
  unfold _read_dfs_to_merge in Er. apply mapM_Ok in Er. fold mid in Er.
  assert (Forall2 (λ st df, read_dataframe w' (for_month st mid) = Ok df)
                  stages (first :: rest)) as Er'.
  { eapply Forall2_impl_elem; [exact Er|].
    intros st df Hin Hr. unfold read_dataframe in *. unfold w'.
    rewrite lookup_partition_write_ne; [done|].
    apply for_month_stage_ne. intros E. by apply (Hst st Hin). }
  destruct (collect_expected_columns_read w' mid stages (first :: rest) Er' [])
    as (cols & Hcollect & Hcols).
  unfold _validate_combined. fold mid. rewrite Hcollect. cbn [mbind res_bind].
  inversion Er' as [|s0 ? stages' ? Hr0 _]; subst.
  cbn [mbind res_bind].
  assert (read_dataframe_metadata w' (for_month s0 mid)
          = Ok (mkFileMetaData (height first) (columns first))) as ->
    by (unfold read_dataframe_metadata; by rewrite Hr0).
  assert (read_dataframe_metadata w' (for_month (output_data_artifact rc) mid)
          = Ok (mkFileMetaData (height combined) (columns combined))) as ->.
  { unfold read_dataframe_metadata, read_dataframe, w'.
    by rewrite lookup_partition_write_eq. }
  cbn [mbind res_bind num_rows schema_names].
  destruct (height combined =? height first); cbn [negb]; [|done].
  destruct (combine_all_columns_aux (first :: rest) ov combined Ec) as [Hall _].
  destruct (List.filter _ cols) as [|c0 l] eqn:Ef; [done|].
  assert (c0 ∈ c0 :: l) as Hin by (apply elem_of_cons; by left).
  rewrite <- Ef in Hin. apply elem_of_List_filter in Hin as [Hin Hb].
  rewrite negb_true_iff, bool_decide_eq_false in Hb. destruct Hb.
  apply Hall. apply Hcols in Hin as [?%elem_of_nil|?]; done.
Qed.

(** X19: when the output artifact is not one of the stages, the validation
    of a month that the merge phase has just written can fail on the number
    of rows only: it passes when the combined frame has as many rows as the
    frame of the first stage, and raises the row count error otherwise; the
    combined frame never lacks an expected column. *)
Theorem validation_after_merge (rc : Recombiner) (stages : list DataArtifactRef)
    (ov : bool) (month : Arrow) (w w' : World) :
  (∀ st, st ∈ stages → initial_path st ≠ initial_path (output_data_artifact rc)) →
  process_month rc stages ov month w = (Ok (), w') →
  ∃ first rest combined,
    _read_dfs_to_merge w stages month = Ok (first :: rest)
    ∧ lookup_partition w' (for_month (output_data_artifact rc) (_month_format month))
      = Some combined
    ∧ _validate_combined rc w' month stages
      = if height combined =? height first then Ok ()
        else Err (ValueError (row_count_error (height first) (_month_format month)
                                (height combined))).
Proof. exact (process_month_then_validate rc stages ov month w w'). Qed.

Lemma validation_after_merge_witness :
  ∃ first rest combined,
    _read_dfs_to_merge test_world test_stages (mkArrow 2023 1 1 0) = Ok (first :: rest)
    ∧ lookup_partition january_merged
        (for_month (output_data_artifact test_recombiner) (_month_format (mkArrow 2023 1 1 0)))
      = Some combined
    ∧ _validate_combined test_recombiner january_merged (mkArrow 2023 1 1 0) test_stages
      = if height combined =? height first then Ok ()
        else Err (ValueError (row_count_error (height first)
                                (_month_format (mkArrow 2023 1 1 0)) (height combined))).
Proof.
  apply (validation_after_merge test_recombiner test_stages false (mkArrow 2023 1 1 0)
           test_world january_merged).
  - apply Forall_forall. refine (bool_decide_unpack _ _). vm_compute. exact I.
  - vm_compute. reflexivity.
Defined.

(** *** The writes of a run *)







End MergeFacts.

(** ** Regression imputation engine: writes and imputed values *)

Module ImputationFacts.
Import Calendar Planner Polars Storage StorageFacts Predictor PredictorSpec.
Import PredictorFacts ImputationSpec.

(** *** The writes of a run *)

Lemma predict_month_log (p : RegressionModelPredictor) (avg : Q) (stats : bool)
    (m : Arrow) (previous : option DataFrame) (st : Run) :
  write_log (world (predict_month p avg stats m previous st).2)
  = ((if is_ok (predict_month p avg stats m previous st).1 then [imputed_path p m] else [])
     ++ write_log (world st))%list.
Proof.
  unfold predict_month.
  destruct (_ ← read_dataframe _ _; _) as [[data result]|e]; [|done].
  destruct (_ ← select _ result; _); done.
Qed.

Lemma predict_loop_log (p : RegressionModelPredictor) (avg : Q) (stats : bool)
    (ms : list Arrow) :
  ∀ previous st, ∃ written rest,
    ms = (written ++ rest)%list
    ∧ write_log (world (predict_loop p avg stats ms previous st).2)
      = (rev (imputed_path p <$> written) ++ write_log (world st))%list
    ∧ ((predict_loop p avg stats ms previous st).1 = Ok () → rest = []).
Proof.
  induction ms as [|m ms IH]; intros previous st.
  - exists [], []. by repeat split.
  - cbn [predict_loop]. pose proof (predict_month_log p avg stats m previous st) as Hlog.
    destruct (predict_month p avg stats m previous st) as [[result|e] st1];
      cbn [fst snd is_ok] in Hlog.
    + destruct (IH (Some result) st1) as (written & rest & -> & Hw & Hall).
      exists (m :: written), rest. split; [done|]. split; [|done].
      rewrite Hw, Hlog. cbn. by rewrite <- app_assoc.
    + exists [], (m :: ms). by repeat split.
Qed.

(** X22: [predict] writes the output partitions of the months in the order
    of the range, one after the other, and stops at the first month that
    fails: the months before it are written, the later ones are not, and a
    run that returns has written every month once. *)
Theorem predict_writes_months_in_order (p : RegressionModelPredictor) (stats : bool)
    (st : Run) :
  ∃ written rest,
    months p = (written ++ rest)%list
    ∧ write_log (world (predict p stats st).2)
      = (rev ((λ m, for_month (output_data_artifact p) (_month_format m)) <$> written)
         ++ write_log (world st))%list
    ∧ ((predict p stats st).1 = Ok () → rest = []).
Proof.
  unfold predict. destruct (_check_model_quality p _).
  - apply predict_loop_log.
  - exists [], (months p). by repeat split.
Qed.

(** *** The partition written for a month *)



(** *** The imputed values *)

Lemma set_cell_lookup_eq (name : string) (v : option value) (r : gmap string value) :
  set_cell name v r !! name = v.
Proof.
  unfold set_cell. destruct v; [apply lookup_insert_eq|apply lookup_delete_eq].
Qed.

Lemma set_cell_lookup_ne (name c : string) (v : option value) (r : gmap string value) :
  c ≠ name → set_cell name v r !! c = r !! c.
Proof.
  intros Hne. unfold set_cell.
  destruct v; [by apply lookup_insert_ne|by apply lookup_delete_ne].
Qed.

Lemma append_inj_r (t a b : string) : t +:+ a = t +:+ b → a = b.
Proof.
  induction t as [|x t IH]; [done|].
  change (String x (t +:+ a) = String x (t +:+ b) → a = b).
  intros [= E]. by apply IH.
Qed.

Lemma with_series_row (name : string) (vals : list (option value)) (df wp : DataFrame)
    (r : gmap string value) :
  with_series name vals df = Ok wp →
  r ∈ rows wp →
  ∃ v r0, v ∈ vals ∧ r0 ∈ rows df ∧ r = set_cell name v r0.
Proof.
  unfold with_series. intros Hws Hr.
  assert (∃ vals', (∀ v, v ∈ vals' → v ∈ vals) ∧ wp = with_column name vals' df)
    as (vals' & Hsub & ->).
  { case_bool_decide.
    - injection Hws as <-. by exists vals.
    - destruct vals as [|v [|? ?]]; try done. injection Hws as <-.
      exists (replicate (length (rows df)) v). split; [|done].
      intros v' Hv'. apply elem_of_replicate in Hv' as [-> _].
      apply elem_of_cons. by left. }
  cbn in Hr. apply list_elem_of_lookup in Hr as [i Hi].
  apply lookup_zip_with_Some in Hi as (v & r0 & -> & Hv & Hr0).
  exists v, r0. split; [apply Hsub; by eapply list_elem_of_lookup_2|].
  split; [by eapply list_elem_of_lookup_2|done].
Qed.

Lemma with_aggregates_row (t : string) (avg : Q) (wp wa : DataFrame)
    (r : gmap string value) :
  with_aggregates_of t avg wp = Ok wa →
  r ∈ rows wa →
  ∃ r0 share,
    r0 ∈ rows wp
    ∧ r = set_cell (share_imputed_across_all_grids_col_name t) share
            (set_cell (score_col_name t)
               (score_of t avg (set_cell (imputed_flag_col_name t) (imputed_flag_of t r0) r0))
               (set_cell (imputed_col_name t)
                  (imputed_of t (set_cell (imputed_flag_col_name t) (imputed_flag_of t r0) r0))
                  (set_cell (imputed_flag_col_name t) (imputed_flag_of t r0) r0))).
Proof.
  unfold with_aggregates_of, require_column.
  destruct (has_column t wp); cbn -[with_column rows]; [|done].
  destruct (has_column "date" _); cbn -[with_column rows]; [|done].
  intros [= <-] Hr. cbn [rows with_column] in Hr.
  apply list_elem_of_lookup in Hr as [i Hi].
  apply lookup_zip_with_Some in Hi as (share & x & -> & _ & Hx).
  apply lookup_zip_with_Some in Hx as (sv & y & -> & Hsv & Hy).
  apply lookup_zip_with_Some in Hy as (iv & r5 & -> & Hiv & Hr5).
  rewrite list_lookup_fmap, Hr5 in Hsv. injection Hsv as <-.
  rewrite list_lookup_fmap, Hr5 in Hiv. injection Hiv as <-.
  apply lookup_zip_with_Some in Hr5 as (fv & r0 & -> & Hfv & Hr0).
  rewrite list_lookup_fmap, Hr0 in Hfv. injection Hfv as <-.
  exists r0, share. split; [by eapply list_elem_of_lookup_2|done].
Qed.

Lemma both_df_of_current_row (t : string) (wa : DataFrame) (previous : option DataFrame)
    (both : DataFrame) (r : gmap string value) :
  both_df_of t wa previous = Ok both →
  r ∈ rows both → is_current r = true →
  ∃ r0, r0 ∈ rows wa ∧ r = <["_which_df" := VStr "current"]> r0.
Proof.
  assert (∀ x, x ∈ rows (with_literal "_which_df" (VStr "current") wa) →
               ∃ r0, r0 ∈ rows wa ∧ x = <["_which_df" := VStr "current"]> r0) as Hcur.
  { intros x Hx. unfold with_literal in Hx. cbn in Hx.
    apply list_elem_of_lookup in Hx as [i Hi].
    apply lookup_zip_with_Some in Hi as (v & r0 & -> & Hv & Hr0).
    apply lookup_replicate in Hv as [-> _].
    exists r0. split; [by eapply list_elem_of_lookup_2|done]. }
  unfold both_df_of. destruct previous as [prev|].
  - destruct (drop_strict _ prev) as [dropped|e]; cbn -[with_literal]; [|done].
    unfold concat. case_bool_decide; [|done]. intros [= <-] Hr Hc.
    cbn [rows] in Hr. apply elem_of_app in Hr as [Hr|Hr]; [by apply Hcur|].
    unfold is_current in Hc.
    rewrite (with_literal_lookup _ _ _ _ Hr) in Hc. by apply bool_decide_eq_true in Hc.
  - intros [= <-] Hr _. by apply Hcur.
Qed.

(** A row of the result comes from a row of [with_aggregates], with which
    it agrees on all columns but the rolling one and the marker. *)
Lemma result_row_origin (p : RegressionModelPredictor) (avg : Q) (data : DataFrame)
    (predicted : list Q) (previous : option DataFrame) (result : DataFrame)
    (r : gmap string value) :
  _add_imputed_details_to_df p avg data predicted previous true = Ok result →
  r ∈ rows result →
  ∃ wp wa r0,
    with_series (predicted_col_name (target_col (model_ref p)))
      ((λ q, Some (VFloat q)) <$> predicted) data = Ok wp
    ∧ with_aggregates_of (target_col (model_ref p)) avg wp = Ok wa
    ∧ r0 ∈ rows wa
    ∧ ∀ c, c ≠ "_which_df" → c ≠ rolling_imputed_col_name (target_col (model_ref p)) →
           r !! c = r0 !! c.
Proof.
  unfold _add_imputed_details_to_df. set (t := target_col (model_ref p)).
  destruct (with_series _ _ data) as [wp|e] eqn:Ews; cbn -[with_aggregates_of]; [|done].
  destruct (with_aggregates_of _ avg wp) as [wa|e] eqn:Ewa; cbn -[both_df_of]; [|done].
  destruct (both_df_of _ wa previous) as [both|e] eqn:Eb; cbn -[sort]; [|done].
  destruct (sort _ both) as [sorted|e] eqn:Es; cbn -[keep_current with_rolling]; [|done].
  apply sort_rows_Permutation in Es.
  destruct (numeric_column _ _); cbn -[keep_current with_rolling]; [|done].
  intros Hk%keep_current_rows Hr. rewrite Hk in Hr.
  apply list_elem_of_fmap in Hr as (r2 & -> & Hr2).
  apply elem_of_List_filter in Hr2 as [Hr2 Hc2].
  unfold with_rolling in Hr2. cbn [rows with_column] in Hr2.
  apply list_elem_of_lookup in Hr2 as [i Hi].
  apply lookup_zip_with_Some in Hi as (v & r3 & -> & _ & Hr3).
  apply list_elem_of_lookup_2 in Hr3.
  rewrite is_current_set_cell in Hc2 by apply rolling_name_not_which.
  rewrite Es in Hr3.
  destruct (both_df_of_current_row t wa previous both r3 Eb Hr3 Hc2) as (r4 & Hr4 & ->).
  exists wp, wa, r4. repeat split; [done..|].
  intros c Hc1 Hc2'. rewrite lookup_delete_ne by done.
  rewrite set_cell_lookup_ne by done. by rewrite lookup_insert_ne.
Qed.

(** X24: with the statistics, every row of the result of a month has a
    prediction, and a flag that is 1 when the target is missing and 0
    otherwise; its imputed value is the observed target where there is one
    and the prediction where the target is missing, so that it is never
    missing; its score is the observed target, or the prediction times the
    mean cross-validation score. *)
Theorem imputed_column_has_no_gap (p : RegressionModelPredictor) (avg : Q)
    (data : DataFrame) (predicted : list Q) (previous : option DataFrame)
    (result : DataFrame) :
  target_col (model_ref p) ≠ "_which_df" →
  _add_imputed_details_to_df p avg data predicted previous true = Ok result →
  ∀ r, r ∈ rows result →
    ∃ q, q ∈ predicted
      ∧ r !! predicted_col_name (target_col (model_ref p)) = Some (VFloat q)
      ∧ r !! imputed_flag_col_name (target_col (model_ref p))
        = Some (VInt (match r !! target_col (model_ref p) with
                      | Some _ => 0
                      | None => 1
                      end))
      ∧ r !! imputed_col_name (target_col (model_ref p))
        = as_float <$> coalesce (r !! target_col (model_ref p)) (Some (VFloat q))
      ∧ r !! score_col_name (target_col (model_ref p))
        = as_float <$> coalesce (r !! target_col (model_ref p))
                         (Some (VFloat (Qred (q * avg)))).
Proof.
  intros Ht Hres r Hr. set (t := target_col (model_ref p)) in *.
  destruct (result_row_origin p avg data predicted previous result r Hres Hr)
    as (wp & wa & r4 & Hwp & Hwa & Hr4 & Hsame). fold t in Hwp, Hwa, Hsame.
  destruct (with_aggregates_row t avg wp wa r4 Hwa Hr4) as (r6 & share & Hr6 & ->).
  destruct (with_series_row _ _ _ _ _ Hwp Hr6) as (v & r7 & Hv & _ & ->).
  apply list_elem_of_fmap in Hv as (q & -> & Hq).
  exists q. split; [done|].
  set (r6 := set_cell (predicted_col_name t) (Some (VFloat q)) r7) in *.
  set (r5 := set_cell (imputed_flag_col_name t) (imputed_flag_of t r6) r6) in *.
  unfold predicted_col_name, imputed_flag_col_name, imputed_col_name, score_col_name,
    share_imputed_across_all_grids_col_name, rolling_imputed_col_name in *.
  assert (r6 !! (t +:+ "__predicted") = Some (VFloat q)) as Hp6
    by apply set_cell_lookup_eq.
  assert (r5 !! (t +:+ "__predicted") = Some (VFloat q)) as Hp5.
  { unfold r5. rewrite set_cell_lookup_ne; [done|].
    intros E%append_inj_r. discriminate E. }
  assert (r5 !! t = r6 !! t) as Ht5.
  { unfold r5. rewrite set_cell_lookup_ne; [done|]. different_names. }
  assert (r5 !! (t +:+ "__imputed_flag") = imputed_flag_of t r6) as Hf5
    by apply set_cell_lookup_eq.
  assert (is_imputed t r5 = bool_decide (r6 !! t = None)) as Hi5.
  { unfold is_imputed, imputed_flag_col_name. rewrite Hf5. unfold imputed_flag_of.
    destruct (r6 !! t); [by rewrite !bool_decide_eq_false_2|by rewrite !bool_decide_eq_true_2]. }
  assert (∀ c, c ≠ "_which_df" → c ≠ t +:+ "__imputed_r7d" →
               c ≠ t +:+ "__share_imputed_across_all_grids" →
               c ≠ t +:+ "__score" → c ≠ t +:+ "__imputed" →
               r !! c = r5 !! c) as Hkeep.
  { intros c H1 H2 H3 H4 H5. rewrite (Hsame c H1 H2).
    by rewrite !set_cell_lookup_ne by done. }
  assert (r !! t = r6 !! t) as Htr.
  { rewrite <- Ht5. apply Hkeep; [done|different_names..]. }
  rewrite Htr. split; [|split; [|split]].
  - rewrite Hkeep, Hp5; [done|different_names|..];
      intros E%append_inj_r; discriminate E.
  - rewrite Hkeep, Hf5; [|different_names|intros E%append_inj_r; discriminate E..].
    unfold imputed_flag_of. by destruct (r6 !! t).
  - rewrite Hsame; [|different_names|intros E%append_inj_r; discriminate E].
    rewrite set_cell_lookup_ne by (intros E%append_inj_r; discriminate E).
    rewrite set_cell_lookup_ne by (intros E%append_inj_r; discriminate E).
    rewrite set_cell_lookup_eq. unfold imputed_of, predicted_col_name.
    rewrite Hi5, Hp5, Ht5.
    destruct (r6 !! t); [by rewrite bool_decide_eq_false_2|by rewrite bool_decide_eq_true_2].
  - rewrite Hsame; [|different_names|intros E%append_inj_r; discriminate E].
    rewrite set_cell_lookup_ne by (intros E%append_inj_r; discriminate E).
    rewrite set_cell_lookup_eq. unfold score_of, predicted_col_name.
    rewrite Hi5, Hp5, Ht5.
    destruct (r6 !! t); [by rewrite bool_decide_eq_false_2|by rewrite bool_decide_eq_true_2].
Qed.

Lemma imputed_column_has_no_gap_witness :
  ∃ q, q ∈ replicate 2 0%Q
    ∧ january_turn_row !! predicted_col_name (target_col (model_ref example_predictor))
      = Some (VFloat q)
    ∧ january_turn_row !! imputed_flag_col_name (target_col (model_ref example_predictor))
      = Some (VInt (match january_turn_row !! target_col (model_ref example_predictor) with
                    | Some _ => 0
                    | None => 1
                    end))
    ∧ january_turn_row !! imputed_col_name (target_col (model_ref example_predictor))
      = as_float <$> coalesce (january_turn_row !! target_col (model_ref example_predictor))
                       (Some (VFloat q))
    ∧ january_turn_row !! score_col_name (target_col (model_ref example_predictor))
      = as_float <$> coalesce (january_turn_row !! target_col (model_ref example_predictor))
                       (Some (VFloat (Qred (q * (1#2))))).
Proof.
  apply (imputed_column_has_no_gap example_predictor (1#2)%Q january (replicate 2 0%Q) None
           january_turn_result).
  - vm_compute. discriminate.
  - vm_compute. reflexivity.
  - apply list_elem_of_lookup_2 with 0%nat. vm_compute. reflexivity.
Defined.

End ImputationFacts.

(** ** Imputation controller *)

Module ControllerFacts.
Import Calendar Planner Polars Storage StorageFacts Temporal Recombiner Predictor.
Import PredictorSpec PredictorFacts ImputationSpec ImputationFacts MergeSpec MergeFacts.
Import Controller ControllerSpec.

Example impute_low_score :
  ∃ msg, impute low_score_controller test_run = (Err (ValueError msg), test_run).
Proof. eexists. vm_compute. reflexivity. Qed.




End ControllerFacts.

(** ** Quality markers of the measurements *)

Module Pm25FiltersFacts.
Import Polars Pm25Filters Pm25FiltersSpec PlanBuilderFacts ImputationFacts.

Example max_value_mark_measurements :
  labels_of (max_value_mark measurements)
  = Some <$> [VStr "ok"; VStr "ok"; VStr "ok"; VStr "ok"; VStr "ok";
              VStr "drop"; VStr "ok"; VStr "drop"].
Proof. vm_compute. reflexivity. Qed.

Example anomaly_mark_measurements :
  labels_of (anomaly_mark measurements)
  = Some <$> [VStr "ok"; VStr "ok"; VStr "ok"; VStr "ok"; VStr "ok";
              VStr "ok"; VStr "ok"; VStr "drop"].
Proof. vm_compute. reflexivity. Qed.

Example repeating_values_mark_measurements :
  labels_of (repeating_values_mark measurements)
  = Some <$> [VStr "ok"; VStr "ok"; VStr "ok"; VStr "ok"; VStr "drop";
              VStr "ok"; VStr "ok"; VStr "drop"].
Proof. vm_compute. reflexivity. Qed.

(** *** Markers as conditions *)

Lemma max_value_mark_condition (df : DataFrame) :
  max_value_mark df = marker_of max_value_condition df.
Proof.
  unfold max_value_mark, marker_of, max_value_condition.
  by destruct (numeric_cells "value" df).
Qed.

Lemma anomaly_mark_condition (df : DataFrame) :
  anomaly_mark df = marker_of anomaly_condition df.
Proof.
  unfold anomaly_mark, marker_of, anomaly_condition.
  destruct (numeric_cells "value" df); [|done]. cbn.
  by destruct (numeric_cells "station_iqr" df).
Qed.

Lemma repeating_values_mark_condition (df : DataFrame) :
  repeating_values_mark df = marker_of repeating_values_condition df.
Proof.
  unfold repeating_values_mark, marker_of, repeating_values_condition.
  destruct (numeric_cells "value" df); [|done]. cbn.
  by destruct (has_column "location_id" df).
Qed.

Lemma define_filters_conditions (mark : DataFrame → res DataFrame) :
  mark ∈ define_filters →
  ∃ condition,
    condition ∈ [repeating_values_condition; anomaly_condition; max_value_condition]
    ∧ ∀ df, mark df = marker_of condition df.
Proof.
  unfold define_filters. rewrite !elem_of_cons, elem_of_nil.
  intros [->|[->|[->|[]]]].
  - exists repeating_values_condition. split; [|apply repeating_values_mark_condition].
    apply elem_of_cons. by left.
  - exists anomaly_condition. split; [|apply anomaly_mark_condition].
    apply elem_of_cons. right. apply elem_of_cons. by left.
  - exists max_value_condition. split; [|apply max_value_mark_condition].
    do 2 (apply elem_of_cons; right). apply elem_of_cons. by left.
Qed.

(** *** Conditions that do not look at the labels *)

Lemma numeric_cells_length (c : string) (df : DataFrame) (values : list (option Q)) :
  numeric_cells c df = Ok values → length values = length (rows df).
Proof.
  unfold numeric_cells. destruct (has_column c df); [|done].
  intros H%mapM_Ok. symmetry. by eapply Forall2_length.
Qed.

Lemma mapM_pointwise {A B C : Type} (f : A → res C) (g : B → res C)
    (l : list A) (k : list B) :
  length l = length k →
  (∀ i x y, l !! i = Some x → k !! i = Some y → f x = g y) →
  mapM f l = mapM g k.
Proof.
  revert k. induction l as [|x l IH]; intros [|y k] Hlen Hfg; try done.
  cbn. rewrite (Hfg 0%nat x y eq_refl eq_refl).
  rewrite (IH k); [done|cbn in Hlen; lia|].
  intros i x' y' Hx Hy. by apply (Hfg (S i)).
Qed.

Lemma numeric_cells_label_free (c : string) (df df' : DataFrame) :
  c ≠ "label" → only_adds_drops df df' → numeric_cells c df' = numeric_cells c df.
Proof.
  intros Hc (Hcols & Hlen & Hrows). unfold numeric_cells, has_column. rewrite Hcols.
  case_bool_decide; [|done].
  apply mapM_pointwise; [done|].
  intros i r' r Hr' Hr. destruct (Hrows i r r' Hr Hr') as [Hsame _].
  by rewrite Hsame.
Qed.

Lemma conditions_label_free (condition : DataFrame → res (list (option bool))) :
  condition ∈ [repeating_values_condition; anomaly_condition; max_value_condition] →
  label_free condition.
Proof.
  rewrite !elem_of_cons, elem_of_nil. intros [->|[->|[->|[]]]]; split.
  - intros df marks. unfold repeating_values_condition.
    destruct (numeric_cells "value" df) as [values|] eqn:Ev; cbn; [|done].
    destruct (has_column "location_id" df); cbn; [|done]. intros [= <-].
    apply numeric_cells_length in Ev.
    rewrite length_zip_with. unfold rolling_mean. rewrite length_imap. lia.
  - intros df df' H. unfold repeating_values_condition.
    rewrite (numeric_cells_label_free "value" df df') by done.
    destruct H as (Hcols & _). unfold has_column. by rewrite Hcols.
  - intros df marks. unfold anomaly_condition.
    destruct (numeric_cells "value" df) as [values|] eqn:Ev; cbn; [|done].
    destruct (numeric_cells "station_iqr" df) as [iqr|] eqn:Ei; cbn; [|done].
    intros [= <-]. apply numeric_cells_length in Ev, Ei.
    rewrite length_zip_with. lia.
  - intros df df' H. unfold anomaly_condition.
    rewrite (numeric_cells_label_free "value" df df') by done.
    by rewrite (numeric_cells_label_free "station_iqr" df df') by done.
  - intros df marks. unfold max_value_condition.
    destruct (numeric_cells "value" df) as [values|] eqn:Ev; cbn; [|done].
    intros [= <-]. apply numeric_cells_length in Ev. by rewrite length_fmap.
  - intros df df' H. unfold max_value_condition.
    by rewrite (numeric_cells_label_free "value" df df') by done.
Qed.

(** *** What a marker does to a frame *)

Lemma with_label_rows (marks : list (option bool)) (df df' : DataFrame) :
  with_label marks df = Ok df' →
  length marks = length (rows df) →
  columns df' = columns df
  ∧ rows df'
    = zip_with (λ m r, set_cell "label" (if met m then Some (VStr "drop") else r !! "label") r)
               marks (rows df).
Proof.
  unfold with_label. destruct (has_column "label" df) eqn:Hc; [|done].
  intros [= <-] Hlen. unfold with_column. rewrite Hc. cbn [columns rows]. split; [done|].
  clear Hc. revert marks Hlen. induction (rows df) as [|r l IH]; intros [|m ms] Hlen;
    try done.
  cbn. rewrite IH by (cbn in Hlen; lia). f_equal.
  by destruct m as [[]|].
Qed.

Lemma marker_of_only_adds_drops (condition : DataFrame → res (list (option bool)))
    (df df' : DataFrame) :
  label_free condition → marker_of condition df = Ok df' → only_adds_drops df df'.
Proof.
  intros [Hlen _]. unfold marker_of.
  destruct (condition df) as [marks|] eqn:Ec; cbn; [|done].
  intros Hw. destruct (with_label_rows marks df df' Hw (Hlen _ _ Ec)) as [Hcols Hrows].
  split; [done|]. split.
  - rewrite Hrows, length_zip_with, (Hlen _ _ Ec). lia.
  - intros i r r' Hr Hr'. rewrite Hrows in Hr'.
    apply lookup_zip_with_Some in Hr' as (m & r0 & -> & _ & Hr0).
    assert (r0 = r) as -> by congruence. split.
    + intros c Hc. by apply set_cell_lookup_ne.
    + rewrite set_cell_lookup_eq. destruct (met m); auto.
Qed.

(** X26: every marker of [define_filters] changes labels only, and only
    to [drop]: the marked frame has the columns and the number of rows of
    the frame it was given, every other cell is as it was, and a label is
    either kept or set to [drop], so that a row that was dropped stays
    dropped. *)
Theorem markers_only_add_drops (mark : DataFrame → res DataFrame) (df df' : DataFrame) :
  mark ∈ define_filters →
  mark df = Ok df' →
  columns df' = columns df
  ∧ length (rows df') = length (rows df)
  ∧ ∀ i r r', rows df !! i = Some r → rows df' !! i = Some r' →
      (∀ c, c ≠ "label" → r' !! c = r !! c)
      ∧ (r' !! "label" = r !! "label" ∨ r' !! "label" = Some (VStr "drop")).
Proof.
  intros Hin Hmark. destruct (define_filters_conditions mark Hin) as (cond & Hc & Hm).
  rewrite Hm in Hmark.
  exact (marker_of_only_adds_drops cond df df' (conditions_label_free cond Hc) Hmark).
Qed.

Lemma markers_only_add_drops_witness :
  columns readings_repeating = columns readings
  ∧ length (rows readings_repeating) = length (rows readings)
  ∧ ∀ i r r', rows readings !! i = Some r → rows readings_repeating !! i = Some r' →
      (∀ c, c ≠ "label" → r' !! c = r !! c)
      ∧ (r' !! "label" = r !! "label" ∨ r' !! "label" = Some (VStr "drop")).
Proof.
  apply (markers_only_add_drops repeating_values_mark readings readings_repeating).
  - apply elem_of_cons. by left.
  - vm_compute. reflexivity.
Defined.

(** *** Markers applied one after the other *)

Lemma set_cell_set_cell (name : string) (v w : option value) (r : gmap string value) :
  set_cell name v (set_cell name w r) = set_cell name v r.
Proof.
  unfold set_cell. destruct v, w.
  - apply insert_insert_eq.
  - apply insert_delete_eq.
  - apply delete_insert_eq.
  - apply delete_delete_eq.
Qed.

Lemma marker_of_twice (c1 c2 : DataFrame → res (list (option bool)))
    (df d1 d12 : DataFrame) :
  label_free c1 → label_free c2 →
  marker_of c1 df = Ok d1 → marker_of c2 d1 = Ok d12 →
  ∃ m1 m2,
    c1 df = Ok m1 ∧ c2 df = Ok m2
    ∧ length m1 = length (rows df) ∧ length m2 = length (rows df)
    ∧ has_column "label" df = true
    ∧ d12 = {| columns := columns df;
               rows := zip_with (λ mm r, set_cell "label"
                                           (if met mm.1 || met mm.2
                                            then Some (VStr "drop") else r !! "label") r)
                                (zip m1 m2) (rows df) |}.
Proof.
  intros L1 L2 H1 H2.
  pose proof (marker_of_only_adds_drops c1 df d1 L1 H1) as Hadds.
  unfold marker_of in H1, H2. rewrite (proj2 L2 df d1 Hadds) in H2.
  destruct (c1 df) as [m1|] eqn:E1; cbn in H1; [|done].
  destruct (c2 df) as [m2|] eqn:E2; cbn in H2; [|done].
  pose proof (proj1 L1 _ _ E1) as Hl1. pose proof (proj1 L2 _ _ E2) as Hl2.
  destruct (with_label_rows m1 df d1 H1 Hl1) as [Hc1 Hr1].
  assert (length m2 = length (rows d1)) as Hl2'.
  { rewrite Hr1, length_zip_with. lia. }
  destruct (with_label_rows m2 d1 d12 H2 Hl2') as [Hc2 Hr2].
  exists m1, m2. repeat split; try done.
  - unfold with_label in H1. by destruct (has_column "label" df).
  - destruct d12 as [cols12 rows12]. cbn in Hc2, Hr2. subst cols12 rows12.
    f_equal; [congruence|]. rewrite Hr1. clear -Hl1 Hl2.
    revert m1 m2 Hl1 Hl2. induction (rows df) as [|r l IH];
      intros [|a m1] [|b m2] Hl1 Hl2; try done.
    cbn [zip_with zip]. rewrite IH by (cbn in *; lia). f_equal.
    rewrite set_cell_set_cell, set_cell_lookup_eq. cbn [fst snd].
    by destruct (met a), (met b).
Qed.

(** X27: the markers of [define_filters] can be applied in any order, and
    applying one twice is applying it once: when a frame is marked by one
    marker and the result by another, marking it by the second marker and
    then by the first returns the same frame, and marking that frame by the
    second marker again returns it unchanged. *)
Theorem markers_commute (mark1 mark2 : DataFrame → res DataFrame) (df d1 d12 : DataFrame) :
  mark1 ∈ define_filters → mark2 ∈ define_filters →
  mark1 df = Ok d1 → mark2 d1 = Ok d12 →
  (∃ d2, mark2 df = Ok d2 ∧ mark1 d2 = Ok d12)
  ∧ mark2 d12 = Ok d12.
Proof.
  intros Hin1 Hin2 H1 H2.
  destruct (define_filters_conditions mark1 Hin1) as (c1 & Hc1 & Hm1).
  destruct (define_filters_conditions mark2 Hin2) as (c2 & Hc2 & Hm2).
  apply conditions_label_free in Hc1, Hc2. rewrite !Hm1, !Hm2 in *.
  destruct (marker_of_twice c1 c2 df d1 d12 Hc1 Hc2 H1 H2)
    as (m1 & m2 & E1 & E2 & Hl1 & Hl2 & Hlabel & Ed12).
  pose proof (marker_of_only_adds_drops c1 df d1 Hc1 H1) as Hadds1.
  pose proof (marker_of_only_adds_drops c2 d1 d12 Hc2 H2) as Hadds2.
  split.
  - assert (∃ d2, marker_of c2 df = Ok d2) as [d2 Hd2].
    { unfold marker_of, with_label. rewrite E2, Hlabel. cbn. eauto. }
    exists d2. split; [by rewrite ?Hm2|]. rewrite Hm1.
    pose proof (marker_of_only_adds_drops c2 df d2 Hc2 Hd2) as Hadds.
    assert (∃ d21, marker_of c1 d2 = Ok d21) as [d21 Hd21].
    { unfold marker_of, with_label. rewrite (proj2 Hc1 df d2 Hadds), E1. cbn.
      destruct Hadds as (Hcols & _). unfold has_column in *. rewrite Hcols, Hlabel. eauto. }
    destruct (marker_of_twice c2 c1 df d2 d21 Hc2 Hc1 Hd2 Hd21)
      as (m2' & m1' & E2' & E1' & _ & _ & _ & ->).
    rewrite Hd21, Ed12. f_equal. f_equal.
    assert (m1' = m1) as -> by congruence. assert (m2' = m2) as -> by congruence.
    clear -Hl1 Hl2. revert m1 m2 Hl1 Hl2. induction (rows df) as [|r l IH];
      intros [|a m1] [|b m2] Hl1 Hl2; try done.
    cbn [zip_with zip]. rewrite IH by (cbn in *; lia).
    cbn [fst snd]. by rewrite orb_comm.
  - assert (∃ d, marker_of c2 d12 = Ok d) as [d Hd].
    { unfold marker_of, with_label. rewrite (proj2 Hc2 d1 d12 Hadds2).
      rewrite (proj2 Hc2 df d1 Hadds1), E2. cbn.
      destruct Hadds1 as (Hcols1 & _). destruct Hadds2 as (Hcols2 & _).
      unfold has_column in *. rewrite Hcols2, Hcols1, Hlabel. eauto. }
    destruct (marker_of_twice c2 c2 d1 d12 d Hc2 Hc2 H2 Hd)
      as (n1 & n2 & F1 & F2 & Hn1 & Hn2 & _ & Ed).
    rewrite Hd. f_equal. rewrite Ed, Ed12.
    rewrite (proj2 Hc2 df d1 Hadds1) in F1, F2.
    assert (n1 = m2) as -> by congruence. assert (n2 = m2) as -> by congruence.
    destruct (with_label_rows m1 df d1) as [Hcd1 Hrd1]; [|done|].
    { unfold marker_of in H1. by rewrite E1 in H1. }
    f_equal; [done|]. rewrite Hrd1. clear -Hl1 Hl2.
    revert m1 m2 Hl1 Hl2. induction (rows df) as [|r l IH];
      intros [|a m1] [|b m2] Hl1 Hl2; try done.
    cbn [zip_with zip]. rewrite IH by (cbn in *; lia). f_equal.
    cbn [fst snd]. rewrite set_cell_set_cell, set_cell_lookup_eq.
    by destruct (met a), (met b).
Qed.

Lemma markers_commute_witness :
  (∃ d2, max_value_mark readings = Ok d2
         ∧ repeating_values_mark d2 = Ok readings_repeating_max)
  ∧ max_value_mark readings_repeating_max = Ok readings_repeating_max.
Proof.
  apply (markers_commute repeating_values_mark max_value_mark readings readings_repeating).
  - apply elem_of_cons. by left.
  - do 2 (apply elem_of_cons; right). apply elem_of_cons. by left.
  - vm_compute. reflexivity.
  - vm_compute. reflexivity.
Defined.

Example readings_labels :
  labels readings_repeating
  = Some <$> [VStr "ok"; VStr "ok"; VStr "ok"; VStr "ok"; VStr "drop"]
  ∧ labels readings_repeating_max
    = Some <$> [VStr "drop"; VStr "drop"; VStr "drop"; VStr "drop"; VStr "drop"].
Proof. split; vm_compute; reflexivity. Qed.

End Pm25FiltersFacts.
